(** * Capital-gains tax calculator: lot ledger and disposal engine

    A shallow embedding of [tax_calculator_simulator.py].  The script keeps
    the open lots in a pandas DataFrame ([df_balance]), walks over the
    sell/swap events of the transaction log and, for each of them, depletes
    the eligible lots and records a tax entry.

    Modelling choices.
    - Units and prices are floats in the script; they are modelled in exact
      arithmetic as rationals [Q], compared with [==].
    - A DataFrame is a list of rows, each paired with its index label, so
      that [df.loc[j, "Units"]] is an update by label.
    - [sort_values] is modelled as a stable insertion sort; with
      [ascending=False] pandas reverses, sorts and reverses again.
    - Division by zero yields [inf]/[nan] under numpy and never raises; the
      model inherits [x / 0 == 0] from [Q].  Inside [update_balance] such a
      quotient is never read again; the pooled average of an empty selection
      and a swap for zero units are the places where the two differ.
    - Printing ([VERBOSE]) is left out.  The balance-evolution history, which
      the event loop only appends to, is followed apart from the loop
      ([balance_evolution]).
    - The prototype [main.py], an earlier ACB-only version over one asset,
      is embedded on its own ([main]). *)

From Stdlib Require Import String QArith Qround Qabs Qminmax ZArith List Bool Lia Lqa.
From Stdlib Require Import Permutation Sorted Setoid Morphisms.
Import ListNotations.
Open Scope Q_scope.

(** ** Numbers *)

Definition Qltb (x y : Q) : bool := negb (Qle_bool y x).

Definition Qsum (l : list Q) : Q := fold_right Qplus 0 l.

Definition of_nat (n : nat) : Q := inject_Z (Z.of_nat n).

(** [round(x, 2)] on a numpy float: scale by 100, round half to even,
    scale back. *)
Definition round_half_even (x : Q) : Z :=
  let f := Qfloor x in
  match Qcompare (x - inject_Z f) (1 # 2) with
  | Lt => f
  | Gt => (f + 1)%Z
  | Eq => if Z.even f then f else (f + 1)%Z
  end.

Definition round2 (x : Q) : Q := inject_Z (round_half_even (x * 100)) / 100.

(** ** Parameters *)

Record Config := mkConfig {
  TAX_RATE : Q;
  METHOD : string;
  CURRENCY : string
}.

(** The values the script ships with. *)
Definition default_config : Config := mkConfig (275 # 1000) "ACB" "EUR".

(** ** Transactions and DataFrames *)

Inductive TxType := Purchase | Sell | Swap | Airdrop | Staking | Mining.

Definition TxType_eqb (a b : TxType) : bool :=
  match a, b with
  | Purchase, Purchase | Sell, Sell | Swap, Swap
  | Airdrop, Airdrop | Staking, Staking | Mining, Mining => true
  | _, _ => false
  end.

(** A line of the transaction file. *)
Record Transaction := mkTransaction {
  t_Date : Z;
  t_Type : TxType;
  t_Asset : string;
  t_Units : Q;
  t_Unit_Price : Q;
  t_Currency : string
}.

(** A row of [df_transactions] / [df_balance]. *)
Record Row := mkRow {
  Date : Z;
  Type_ : TxType;
  Asset : string;
  Units : Q;
  Unit_Price : Q;
  Currency : string;
  Type_Orig : TxType
}.

Definition set_Units (r : Row) (u : Q) : Row :=
  mkRow (Date r) (Type_ r) (Asset r) u (Unit_Price r) (Currency r) (Type_Orig r).

(** Rows with their index labels. *)
Definition DataFrame := list (nat * Row).

Definition rows (df : DataFrame) : list Row := map snd df.

Definition with_range_index (l : list Row) : DataFrame :=
  combine (seq 0 (length l)) l.

Definition reset_index (df : DataFrame) : DataFrame :=
  with_range_index (rows df).

Definition col_Units (df : DataFrame) : list Q :=
  map (fun kr => Units (snd kr)) df.

Definition col_Value (df : DataFrame) : list Q :=
  map (fun kr => Units (snd kr) * Unit_Price (snd kr)) df.

(** [df.loc[j, "Units"] = f(df.loc[j, "Units"])] *)
Definition loc_Units (j : nat) (f : Q -> Q) (df : DataFrame) : DataFrame :=
  map (fun kr => if Nat.eqb (fst kr) j
                 then (fst kr, set_Units (snd kr) (f (Units (snd kr))))
                 else kr) df.

(** [df[df["Units"] > 0]] *)
Definition positive_Units (df : DataFrame) : DataFrame :=
  filter (fun kr => Qltb 0 (Units (snd kr))) df.

(** *** Sorting *)

Fixpoint insert_by {A : Type} (leb : A -> A -> bool) (x : A) (l : list A)
  : list A :=
  match l with
  | [] => [x]
  | y :: l' => if leb x y then x :: l else y :: insert_by leb x l'
  end.

Definition sort_by {A : Type} (leb : A -> A -> bool) (l : list A) : list A :=
  fold_right (insert_by leb) [] l.

Definition sort_values {A : Type} (leb : A -> A -> bool) (ascending : bool)
    (l : list A) : list A :=
  if ascending then sort_by leb l else rev (sort_by leb (rev l)).

Definition by_Date (a b : nat * Row) : bool :=
  (Date (snd a) <=? Date (snd b))%Z.
Definition by_Units (a b : nat * Row) : bool :=
  Qle_bool (Units (snd a)) (Units (snd b)).
Definition by_Unit_Price (a b : nat * Row) : bool :=
  Qle_bool (Unit_Price (snd a)) (Unit_Price (snd b)).

(** ** Functions of the script *)

Record TaxRecord := mkTax {
  Capital_Gain : Q;
  Taxes : Q;
  Net_Profit : Q;
  Average_Unit_Price : Q
}.

Definition tax_calculator_ACB (cfg : Config)
    (selling_units selling_price average_purchase_price : Q) : Q * Q :=
  let average_purchase_value := selling_units * average_purchase_price in
  let sold_value := selling_units * selling_price in
  let capital_gain := sold_value - average_purchase_value in
  let taxes := if Qltb 0 capital_gain then capital_gain * TAX_RATE cfg else 0 in
  (capital_gain, taxes).

Definition calculate_units_to_remove_from_purchase_order
    (purchase_order_units units_to_sell_avg : Q)
    (number_of_purchase_orders counter_order : nat) : Q * Q :=
  let units_diff := purchase_order_units - units_to_sell_avg in
  if Qltb units_diff 0 then
    let n := inject_Z (Z.of_nat number_of_purchase_orders
                       - Z.of_nat counter_order) in
    (purchase_order_units, units_to_sell_avg + Qabs units_diff / n)
  else
    (units_to_sell_avg, units_to_sell_avg).

(** The [for j, row_b in ...iterrows()] loop of [update_balance]: [iter] is
    the frame being walked, [df_balance] the frame being written. *)
Fixpoint update_balance_loop (iter df_balance : DataFrame)
    (number_of_purchase_orders counter_order : nat)
    (units_to_sell_avg tot_units_sold : Q) : DataFrame * Q :=
  match iter with
  | [] => (df_balance, tot_units_sold)
  | (j, row_b) :: rest =>
      let '(units_to_sell, units_to_sell_avg') :=
        calculate_units_to_remove_from_purchase_order
          (Units row_b) units_to_sell_avg
          number_of_purchase_orders counter_order in
      update_balance_loop rest
        (loc_Units j (fun u => u - units_to_sell) df_balance)
        number_of_purchase_orders (S counter_order)
        units_to_sell_avg' (tot_units_sold + units_to_sell)
  end.

Definition update_balance (df_balance df_balance_asset : DataFrame)
    (total_units_to_sell : Q) (asset_to_sell : string) : DataFrame * Q :=
  let orders :=
    filter (fun kr => String.eqb (Asset (snd kr)) asset_to_sell)
           df_balance_asset in
  let number_of_purchase_orders := length orders in
  let units_to_sell_avg :=
    total_units_to_sell / of_nat number_of_purchase_orders in
  let '(df_balance, tot_units_sold) :=
    update_balance_loop orders df_balance number_of_purchase_orders 1
                        units_to_sell_avg 0 in
  (reset_index (positive_Units df_balance), tot_units_sold).

(** The loop of [tax_calculator_XYFO]; the second branch is the one that
    sets [flag] and breaks. *)
Fixpoint XYFO_loop (iter df_balance : DataFrame) (selling_price : Q)
    (units_to_sell tot_units_sold capital_gain : Q) : DataFrame * Q * Q :=
  match iter with
  | [] => (df_balance, tot_units_sold, capital_gain)
  | (j, row_b) :: rest =>
      if Qle_bool (Units row_b) units_to_sell then
        let units_sold := Units row_b in
        XYFO_loop rest (loc_Units j (fun _ => 0) df_balance) selling_price
          (units_to_sell - units_sold) (tot_units_sold + units_sold)
          (capital_gain + units_sold * (selling_price - Unit_Price row_b))
      else
        let units_sold := units_to_sell in
        (loc_Units j (fun _ => Units row_b - units_to_sell) df_balance,
         tot_units_sold + units_sold,
         capital_gain + units_sold * (selling_price - Unit_Price row_b))
  end.

Definition tax_calculator_XYFO (cfg : Config) (selling_units selling_price : Q)
    (df_balance df_balance_temp : DataFrame) : Q * Q * DataFrame * Q :=
  let '(df_balance, tot_units_sold, capital_gain) :=
    XYFO_loop df_balance_temp df_balance selling_price selling_units 0 0 in
  let taxes := if Qltb 0 capital_gain then capital_gain * TAX_RATE cfg else 0 in
  (capital_gain, taxes, df_balance, tot_units_sold).

(** ** Loading the transactions *)

(** Airdrops and staking rewards become purchases at price zero, mining
    rewards purchases at the recorded price; all three take the configured
    currency.  [Type Orig] remembers the kind read from the file. *)
Definition normalize (cfg : Config) (t : Transaction) : Row :=
  match t_Type t with
  | Airdrop | Staking =>
      mkRow (t_Date t) Purchase (t_Asset t) (t_Units t) 0 (CURRENCY cfg)
            (t_Type t)
  | Mining =>
      mkRow (t_Date t) Purchase (t_Asset t) (t_Units t) (t_Unit_Price t)
            (CURRENCY cfg) Mining
  | ty =>
      mkRow (t_Date t) ty (t_Asset t) (t_Units t) (t_Unit_Price t)
            (t_Currency t) ty
  end.

Definition load (cfg : Config) (file : list Transaction) : DataFrame :=
  with_range_index (map (normalize cfg) file).

Definition df_purchase (df_transactions : DataFrame) : DataFrame :=
  reset_index
    (filter (fun kr => TxType_eqb (Type_ (snd kr)) Purchase
                       || TxType_eqb (Type_ (snd kr)) Airdrop)
            df_transactions).

Definition event_eqb (a b : Z * TxType) : bool :=
  (fst a =? fst b)%Z && TxType_eqb (snd a) (snd b).

(** [drop_duplicates] keeps the first occurrence of each row. *)
Fixpoint drop_duplicates (seen l : list (Z * TxType)) : list (Z * TxType) :=
  match l with
  | [] => []
  | x :: l' =>
      if existsb (event_eqb x) seen then drop_duplicates seen l'
      else x :: drop_duplicates (x :: seen) l'
  end.

Definition not_Purchase (df_transactions : DataFrame) : DataFrame :=
  filter (fun kr => negb (TxType_eqb (Type_ (snd kr)) Purchase))
         df_transactions.

Definition change_events (df_transactions : DataFrame) : list (Z * TxType) :=
  drop_duplicates []
    (map (fun kr => (Date (snd kr), Type_ (snd kr)))
         (not_Purchase df_transactions)).

(** ** The event loop *)

Inductive Exn :=
| TooManyUnits          (* "Too many units to be sold!" *)
| MethodNotImplemented  (* "Method not implemented" *)
| NameError             (* a module-level name read before assignment *)
| IndexError.           (* positional indexer out of bounds *)

Inductive result (A : Type) :=
| Ok (a : A)
| Raise (e : Exn).
Arguments Ok {A} a.
Arguments Raise {A} e.

(** What the loop reads and writes across iterations.
    [average_purchase_price] is a module-level name that stays unbound until
    a swap or an ACB sale assigns it. *)
Record State := mkState {
  df_balance : DataFrame;
  sales_taxes : list TaxRecord;
  average_purchase_price : option Q
}.

(** [df_transactions[(Type == ty) & (Date == date)]] *)
Definition select_event (ty : TxType) (date : Z) (df_transactions : DataFrame)
  : DataFrame :=
  filter (fun kr => TxType_eqb (Type_ (snd kr)) ty
                    && (Date (snd kr) =? date)%Z) df_transactions.

(** [df_balance[(Asset == asset) & (Date < date)]] *)
Definition balance_asset (balance : DataFrame) (asset : string) (date : Z)
  : DataFrame :=
  filter (fun kr => String.eqb (Asset (snd kr)) asset
                    && (Date (snd kr) <? date)%Z) balance.

(** [df_balance[(Asset != asset) & (Date < date)]] *)
Definition balance_other_previous_assets (balance : DataFrame)
    (asset : string) (date : Z) : DataFrame :=
  filter (fun kr => negb (String.eqb (Asset (snd kr)) asset)
                    && (Date (snd kr) <? date)%Z) balance.

(** [df_balance[Date > date]] *)
Definition balance_later (balance : DataFrame) (date : Z) : DataFrame :=
  filter (fun kr => (date <? Date (snd kr))%Z) balance.

(** [pd.concat([updated, other_previous, later]).sort_values(by="Date")
       .reset_index(drop=True)] *)
Definition rebuild_balance (df_balance_asset_updated balance : DataFrame)
    (asset : string) (date : Z) : DataFrame :=
  reset_index
    (sort_values by_Date true
       (df_balance_asset_updated
        ++ balance_other_previous_assets balance asset date
        ++ balance_later balance date)).

Definition pooled_average (df_balance_asset : DataFrame) : Q :=
  Qsum (col_Value df_balance_asset) / Qsum (col_Units df_balance_asset).

Definition swap_in_row (asset_in : nat * Row) (price : Q) : nat * Row :=
  (fst asset_in,
   mkRow (Date (snd asset_in)) (Type_ (snd asset_in)) (Asset (snd asset_in))
         (Units (snd asset_in)) price "EUR" (Type_Orig (snd asset_in))).

(** The Swap branch.  The first row of the swap is the asset given away, the
    second the asset received; [swap.iloc[[1]]] fails on a swap with a single
    row.  The branch reads neither [METHOD] nor any other parameter. *)
Definition process_swap (df_transactions : DataFrame) (st : State)
    (change_Date : Z) : result State :=
  match select_event Swap change_Date df_transactions with
  | asset_out :: asset_in :: _ =>
      let out_Asset := Asset (snd asset_out) in
      let out_Units := Units (snd asset_out) in
      let df_balance_asset :=
        balance_asset (df_balance st) out_Asset change_Date in
      let average_purchase_price :=
        pooled_average df_balance_asset * out_Units / Units (snd asset_in) in
      let '(df_balance_asset_updated, _) :=
        update_balance df_balance_asset df_balance_asset out_Units out_Asset in
      let df_balance_asset_updated :=
        reset_index (df_balance_asset_updated
                     ++ [swap_in_row asset_in average_purchase_price]) in
      Ok (mkState
            (rebuild_balance df_balance_asset_updated (df_balance st)
                             out_Asset change_Date)
            (sales_taxes st)
            (Some average_purchase_price))
  | _ => Raise IndexError
  end.

Definition is_XYFO (m : string) : bool :=
  String.eqb m "FIFO" || String.eqb m "LIFO" || String.eqb m "HIFO".

(** The working order of the FIFO / LIFO / HIFO branch. *)
Definition XYFO_order (m : string) (df_balance_asset : DataFrame) : DataFrame :=
  if String.eqb m "FIFO" then sort_values by_Date true df_balance_asset
  else if String.eqb m "LIFO" then sort_values by_Date false df_balance_asset
  else if String.eqb m "HIFO" then
    sort_values by_Unit_Price false df_balance_asset
  else df_balance_asset.

Definition sale_record (capital_gain taxes average_purchase_price : Q)
  : TaxRecord :=
  mkTax capital_gain taxes (capital_gain - taxes)
        (round2 average_purchase_price).

(** The Sell branch.  Only the first sale row of the date is read.  The
    record is appended after the depletion, and the ledger replaced after
    the record, so the FIFO / LIFO / HIFO branch stops on the unbound
    [average_purchase_price] before the ledger changes. *)
Definition process_sell (cfg : Config) (df_transactions : DataFrame)
    (st : State) (change_Date : Z) : result State :=
  match select_event Sell change_Date df_transactions with
  | [] => Raise IndexError
  | sell :: _ =>
      let sell_Asset := Asset (snd sell) in
      let sell_Units := Units (snd sell) in
      let sell_Price := Unit_Price (snd sell) in
      let df_balance_asset :=
        balance_asset (df_balance st) sell_Asset change_Date in
      if Qle_bool sell_Units (Qsum (col_Units df_balance_asset)) then
        if String.eqb (METHOD cfg) "ACB" then
          let df_balance_asset := sort_values by_Units true df_balance_asset in
          let average_purchase_price := pooled_average df_balance_asset in
          let '(capital_gain, taxes) :=
            tax_calculator_ACB cfg sell_Units sell_Price
                               average_purchase_price in
          let '(df_balance_asset_updated, _) :=
            update_balance df_balance_asset df_balance_asset
                           sell_Units sell_Asset in
          Ok (mkState
                (rebuild_balance df_balance_asset_updated (df_balance st)
                                 sell_Asset change_Date)
                (sales_taxes st
                 ++ [sale_record capital_gain taxes average_purchase_price])
                (Some average_purchase_price))
        else if is_XYFO (METHOD cfg) then
          let df_balance_asset := XYFO_order (METHOD cfg) df_balance_asset in
          let '(capital_gain, taxes, df_balance_asset_updated, _) :=
            tax_calculator_XYFO cfg sell_Units sell_Price
                                df_balance_asset df_balance_asset in
          let df_balance_asset_updated :=
            reset_index (positive_Units df_balance_asset_updated) in
          match average_purchase_price st with
          | None => Raise NameError
          | Some stale =>
              Ok (mkState
                    (rebuild_balance df_balance_asset_updated (df_balance st)
                                     sell_Asset change_Date)
                    (sales_taxes st ++ [sale_record capital_gain taxes stale])
                    (Some stale))
          end
        else Raise MethodNotImplemented
      else Raise TooManyUnits
  end.

Definition process_event (cfg : Config) (df_transactions : DataFrame)
    (st : State) (change : Z * TxType) : result State :=
  match snd change with
  | Swap => process_swap df_transactions st (fst change)
  | Sell => process_sell cfg df_transactions st (fst change)
  | _ => Ok st
  end.

Fixpoint event_loop (cfg : Config) (df_transactions : DataFrame)
    (st : State) (events : list (Z * TxType)) : result State :=
  match events with
  | [] => Ok st
  | change :: events' =>
      match process_event cfg df_transactions st change with
      | Ok st' => event_loop cfg df_transactions st' events'
      | Raise e => Raise e
      end
  end.

(** Taxes on mining rewards, charged when they are received. *)
Definition mining_record (cfg : Config) (mine : Row) : TaxRecord :=
  let capita_gain := Unit_Price mine in
  let tax := capita_gain * TAX_RATE cfg in
  let net_profit := capita_gain - tax in
  let average_unit_price := Unit_Price mine in
  mkTax capita_gain tax net_profit average_unit_price.

Definition mining_taxes (cfg : Config) (df_transactions : DataFrame)
  : list TaxRecord :=
  map (fun kr => mining_record cfg (snd kr))
      (filter (fun kr => TxType_eqb (Type_Orig (snd kr)) Mining)
              df_transactions).

(** The ledger starts as the frame of all purchases, with no tax record and
    [average_purchase_price] unbound. *)
Definition initial_state (df_transactions : DataFrame) : State :=
  mkState (df_purchase df_transactions) [] None.

Record Output := mkOutput {
  final_balance : DataFrame;
  out_sales_taxes : list TaxRecord;
  out_mining_taxes : list TaxRecord
}.

(** The whole script.  Before the loop it reads the date of the first event
    and the last purchase dated before it; either lookup fails on an empty
    selection. *)
Definition run (cfg : Config) (file : list Transaction) : result Output :=
  let df_transactions := load cfg file in
  let balance := df_purchase df_transactions in
  match not_Purchase df_transactions with
  | [] => Raise IndexError
  | first :: _ =>
      let first_transaction_date := Date (snd first) in
      match filter (fun kr => (Date (snd kr) <? first_transaction_date)%Z)
                   balance with
      | [] => Raise IndexError
      | _ :: _ =>
          match event_loop cfg df_transactions
                           (initial_state df_transactions)
                           (change_events df_transactions) with
          | Ok st =>
              Ok (mkOutput (df_balance st) (sales_taxes st)
                           (mining_taxes cfg df_transactions))
          | Raise e => Raise e
          end
      end
  end.

(** ** Predicates used in the statements *)

(** Every lot of a frame holds a positive number of units. *)
Definition positive_balance (df : DataFrame) : Prop :=
  Forall (fun kr => 0 < Units (snd kr)) df.

(** Every row of the log that is not a sale (a purchase, a reward or a leg
    of a swap) carries a positive number of units. *)
Definition acquisitions_positive (txs : DataFrame) : Prop :=
  Forall (fun kr => Type_ (snd kr) <> Sell -> 0 < Units (snd kr)) txs.

(** The invariant of a tax record. *)
Definition tax_record_ok (cfg : Config) (r : TaxRecord) : Prop :=
  Taxes r == Qmax 0 (Capital_Gain r) * TAX_RATE cfg
  /\ (Capital_Gain r <= 0 -> Taxes r == 0)
  /\ Net_Profit r == Capital_Gain r - Taxes r.



(** The depletion the Sell branch performs for the configured method: the
    working order of the method followed by its pass. *)
Definition deplete_as_sell (cfg : Config) (df_balance_asset : DataFrame)
    (units : Q) (asset : string) : DataFrame :=
  if is_XYFO (METHOD cfg) then
    let ordered := XYFO_order (METHOD cfg) df_balance_asset in
    let '(_, _, updated, _) :=
      tax_calculator_XYFO cfg units 0 ordered ordered in
    reset_index (positive_Units updated)
  else
    let ordered := sort_values by_Units true df_balance_asset in
    fst (update_balance ordered ordered units asset).

Definition lot_key (r : Row) : Z * Q * Q :=
  (Date r, Qred (Units r), Qred (Unit_Price r)).

(** The reading of a swap under which the lots of the asset given away are
    depleted by the configured method. *)
Definition swap_depletes_by_method (cfg : Config) (txs : DataFrame)
    (st : State) (date : Z) : Prop :=
  match select_event Swap date txs, process_event cfg txs st (date, Swap) with
  | asset_out :: _ :: _, Ok st' =>
      let asset := Asset (snd asset_out) in
      Permutation
        (map lot_key (rows (balance_asset (df_balance st') asset date)))
        (map lot_key
           (rows (deplete_as_sell cfg
                    (balance_asset (df_balance st) asset date)
                    (Units (snd asset_out)) asset)))
  | _, _ => True
  end.

(** Orders on lots, as propositions. *)
Definition holds {A : Type} (leb : A -> A -> bool) (a b : A) : Prop :=
  leb a b = true.

Definition units_le (a b : nat * Row) : Prop :=
  Units (snd a) <= Units (snd b).

(** [b] is the lot [a] with, possibly, another number of units. *)
Definition same_lot (a b : nat * Row) : Prop :=
  fst b = fst a /\ snd b = set_Units (snd a) (Units (snd b)).

(** The test behind [balance_asset], on a row. *)
Definition eligible_row (asset : string) (date : Z) (r : Row) : bool :=
  String.eqb (Asset r) asset && (Date r <? date)%Z.

(** ** Sample logs *)

Definition purchase (d : Z) (a : string) (u p : Q) : Transaction :=
  mkTransaction d Purchase a u p "EUR".
Definition sale (d : Z) (a : string) (u p : Q) : Transaction :=
  mkTransaction d Sell a u p "EUR".
Definition swap_leg (d : Z) (a : string) (u : Q) : Transaction :=
  mkTransaction d Swap a u 0 "EUR".
Definition mining (d : Z) (a : string) (u p : Q) : Transaction :=
  mkTransaction d Mining a u p "USD".

Definition FIFO_config : Config := mkConfig (275 # 1000) "FIFO" "EUR".

(** Two lots of ten units, then ten units swapped away. *)
Definition even_swap_log : list Transaction :=
  [purchase 1 "BTC" 10 1; purchase 2 "BTC" 10 2;
   swap_leg 3 "BTC" 10; swap_leg 3 "ETH" 5].

(** The lots [(10 @ 1.0), (5 @ 2.0)] and a sale of six units. *)
Definition pooled_log : list Transaction :=
  [purchase 1 "BTC" 10 1; purchase 2 "BTC" 5 2; sale 3 "BTC" 6 3].

(** A lot of ten units and a later lot of one unit, then four units
    swapped away. *)
Definition short_last_log : list Transaction :=
  [purchase 1 "BTC" 10 1; purchase 2 "BTC" 1 1;
   swap_leg 3 "BTC" 4; swap_leg 3 "ETH" 8].

(** Five units held, ten swapped away. *)
Definition over_swap_log : list Transaction :=
  [purchase 1 "BTC" 5 1; swap_leg 2 "BTC" 10; swap_leg 2 "ETH" 20].

(** Two units mined at a price of three. *)
Definition mining_log : list Transaction :=
  [purchase 1 "BTC" 10 1; mining 2 "BTC" 2 3; sale 3 "BTC" 1 3].

(** A purchase of another asset at the very timestamp of a sale. *)
Definition same_time_log : list Transaction :=
  [purchase 1 "BTC" 10 1; purchase 2 "ETH" 5 2; sale 2 "BTC" 1 3].


(** A lot of one unit and a lot of ten, and four units sold: under ACB the
    small lot is emptied and dropped. *)
Definition emptying_log : list Transaction :=
  [purchase 1 "BTC" 1 1; purchase 2 "BTC" 10 1; purchase 2 "ETH" 3 1;
   sale 3 "BTC" 4 3].

(** A purchase row of another asset that carries zero units. *)
Definition zero_lot_log : list Transaction :=
  [purchase 1 "BTC" 10 1; purchase 1 "ETH" 0 2; sale 3 "BTC" 4 3].

Definition LIFO_config : Config := mkConfig (275 # 1000) "LIFO" "EUR".
Definition HIFO_config : Config := mkConfig (275 # 1000) "HIFO" "EUR".

(** Lots (10 @ 1.0, day 1) and (10 @ 2.0, day 2), fifteen units sold at 3.0
    on day 4.  The swap of another asset on day 3 comes first because the
    FIFO / LIFO / HIFO branch reads [average_purchase_price], which only a
    swap or an ACB sale assigns. *)
Definition FIFO_log : list Transaction :=
  [purchase 1 "BTC" 10 1; purchase 2 "BTC" 10 2; purchase 2 "ETH" 3 1;
   swap_leg 3 "ETH" 1; swap_leg 3 "ADA" 10; sale 4 "BTC" 15 3].

(** The same sale without a swap before it. *)
Definition FIFO_first_sale_log : list Transaction :=
  [purchase 1 "BTC" 10 1; purchase 2 "BTC" 10 2; sale 4 "BTC" 15 3].

(** Lots (5 @ 3.0, day 1) and (5 @ 1.0, day 2), five units sold at 5.0. *)
Definition divergence_log : list Transaction :=
  [purchase 1 "BTC" 5 3; purchase 2 "BTC" 5 1; purchase 2 "ETH" 3 1;
   swap_leg 3 "ETH" 1; swap_leg 3 "ADA" 10; sale 4 "BTC" 5 5].

Definition gains (out : result Output) : list Q :=
  match out with
  | Ok o => map (fun r => Qred (Capital_Gain r)) (out_sales_taxes o)
  | Raise _ => []
  end.

Definition lots_of (asset : string) (out : result Output)
  : list (Z * Q * Q) :=
  match out with
  | Ok o =>
      map lot_key
          (filter (fun r => String.eqb (Asset r) asset)
                  (rows (final_balance o)))
  | Raise _ => []
  end.


(** ** Further predicates *)

(** A lot emptied by [tax_calculator_XYFO]. *)
Definition zeroed (kr : nat * Row) : nat * Row :=
  (fst kr, set_Units (snd kr) 0).

(** The order in which a method wants lots consumed: [a] may go before
    [b]. *)
Definition consumed_first (m : string) (a b : nat * Row) : Prop :=
  if String.eqb m "FIFO" then (Date (snd a) <= Date (snd b))%Z
  else if String.eqb m "LIFO" then (Date (snd b) <= Date (snd a))%Z
  else if String.eqb m "HIFO" then Unit_Price (snd b) <= Unit_Price (snd a)
  else True.

(** [b] is the lot [a] after it lost [min(units, level)] units. *)
Definition levelled (level : Q) (a b : nat * Row) : Prop :=
  same_lot a b
  /\ Units (snd b) == Units (snd a) - Qmin (Units (snd a)) level.

(** Settles one case of an outcome table: the outcome is a constructor by
    now, and every side of every equivalence is decided by the facts at
    hand. *)
Ltac settle_outcome :=
  repeat match goal with
         | |- _ /\ _ => split
         | |- _ <-> _ => split
         end;
  try discriminate;
  intros;
  repeat match goal with
         | H : exists _, _ |- _ => destruct H
         | H : _ /\ _ |- _ => destruct H
         | H : _ \/ _ |- _ => destruct H
         end;
  try discriminate; try congruence; try lra;
  repeat split; try assumption; try congruence; eauto.

(** ** The tax tables *)

Definition is_Sell (ty : TxType) : bool := TxType_eqb ty Sell.

(** [df_transactions[Type == "Sell"].reset_index(drop=True)] *)
Definition df_sales (df_transactions : DataFrame) : DataFrame :=
  reset_index (filter (fun kr => is_Sell (Type_ (snd kr))) df_transactions).

(** [left.join(pd.DataFrame(records))]: both sides carry the labels
    0, 1, 2, ..., so the join is by position; a row of the left frame past
    the last record is kept and gets no record. *)
Fixpoint join_records {A B : Type} (left : list A) (records : list B)
  : list (A * option B) :=
  match left, records with
  | [], _ => []
  | a :: left', [] => (a, None) :: join_records left' []
  | a :: left', b :: records' => (a, Some b) :: join_records left' records'
  end.

Definition df_sales_tax (df_transactions : DataFrame)
    (sales_taxes : list TaxRecord) : list (Row * option TaxRecord) :=
  join_records (rows (df_sales df_transactions)) sales_taxes.

(** ** Kinds of transactions *)

(** The kinds that create a lot when the log is loaded. *)
Definition is_acquisition (ty : TxType) : bool :=
  match ty with
  | Purchase | Airdrop | Staking | Mining => true
  | Sell | Swap => false
  end.

(** The kinds the event loop reacts to. *)
Definition is_event (ty : TxType) : bool :=
  match ty with
  | Sell | Swap => true
  | _ => false
  end.

(** ** The balance history *)

(** A row of [df_balance_evolution].  The labels of the history, which are
    those of the snapshots it was concatenated from, are left out: nothing
    reads them. *)
Record Snapshot := mkSnapshot {
  s_Date : Z;
  s_Asset : string;
  s_Units : Q;
  s_Unit_Price : Q;
  s_Currency : string
}.

Definition snapshot_row (date : Z) (r : Row) : Snapshot :=
  mkSnapshot date (Asset r) (Units r) (Unit_Price r) (Currency r).

(** Copies asset, units, price and currency of the given balance, tags the
    copy with [date] and appends it to the history. *)
Definition take_balance_snapshot (df_balance_evolution : list Snapshot)
    (balance : DataFrame) (date : Z) : list Snapshot :=
  df_balance_evolution ++ map (snapshot_row date) (rows balance).

(** [df_balance[Date <= date]] *)
Definition balance_until (balance : DataFrame) (date : Z) : DataFrame :=
  filter (fun kr => (Date (snd kr) <=? date)%Z) balance.

(** The history the script starts from: the purchases dated before the
    first event, all tagged with the date of the last of them in ledger
    order ([iloc[-1]], which fails on an empty selection). *)
Definition initial_snapshot (balance : DataFrame)
    (first_transaction_date : Z) : result (list Snapshot) :=
  let before :=
    filter (fun kr => (Date (snd kr) <? first_transaction_date)%Z) balance in
  match rev before with
  | [] => Raise IndexError
  | last :: _ => Ok (map (snapshot_row (Date (snd last))) (rows before))
  end.

(** The event loop again, this time following the history it appends to
    after each event. *)
Fixpoint evolution_loop (cfg : Config) (df_transactions : DataFrame)
    (st : State) (df_balance_evolution : list Snapshot)
    (events : list (Z * TxType)) : result (list Snapshot) :=
  match events with
  | [] => Ok df_balance_evolution
  | change :: events' =>
      match process_event cfg df_transactions st change with
      | Ok st' =>
          evolution_loop cfg df_transactions st'
            (take_balance_snapshot df_balance_evolution
               (balance_until (df_balance st') (fst change)) (fst change))
            events'
      | Raise e => Raise e
      end
  end.

Definition balance_evolution (cfg : Config) (file : list Transaction)
  : result (list Snapshot) :=
  let df_transactions := load cfg file in
  match not_Purchase df_transactions with
  | [] => Raise IndexError
  | first :: _ =>
      match initial_snapshot (df_purchase df_transactions)
                             (Date (snd first)) with
      | Ok evolution =>
          evolution_loop cfg df_transactions
            (initial_state df_transactions) evolution
            (change_events df_transactions)
      | Raise e => Raise e
      end
  end.

(** ** The prototype script [main.py]

    An earlier, ACB-only version of the computation over one asset: a frame
    of purchases (Date, Price, Units) and a frame of sales (Date, Units,
    Price).  The rows it iterates over hold Python numbers, so a division by
    zero raises here, where the simulator's numpy scalars give [inf]. *)

Record Lot := mkLot {
  lot_Date : Z;
  lot_Price : Q;
  lot_Units : Q
}.

Record Sale := mkSale {
  sale_Date : Z;
  sale_Units : Q;
  sale_Price : Q
}.

(** [df_sales['Value']] *)
Definition sale_Value (s : Sale) : Q := sale_Units s * sale_Price s.

Definition Lots := list (nat * Lot).

Record SaleInfo := mkSaleInfo {
  Gross_Profit : Q;
  info_Taxes : Q;
  info_Net_Profit : Q;
  Average_Purchase_Price : Q
}.

Inductive MainExn :=
| TooManyUnitsToBeSold   (* "Too many units to be sold!" *)
| SoldUnitsMismatch      (* "Sold units (...) != target (...)" *)
| ZeroDivisionError.

Definition lots_Units (df : Lots) : list Q :=
  map (fun kl => lot_Units (snd kl)) df.

Definition lots_Value (df : Lots) : list Q :=
  map (fun kl => lot_Units (snd kl) * lot_Price (snd kl)) df.

(** [df.loc[j, 'Units'] -= x] *)
Definition lots_sub (j : nat) (x : Q) (df : Lots) : Lots :=
  map (fun kl => if Nat.eqb (fst kl) j
                 then (fst kl,
                       mkLot (lot_Date (snd kl)) (lot_Price (snd kl))
                             (lot_Units (snd kl) - x))
                 else kl) df.

Definition lots_by_Units (a b : nat * Lot) : bool :=
  Qle_bool (lot_Units (snd a)) (lot_Units (snd b)).

(** [df_balance[df_balance['Date'] <= date].sort_values("Units")] *)
Definition balance_temp (df_balance : Lots) (date : Z) : Lots :=
  sort_values lots_by_Units true
    (filter (fun kl => (lot_Date (snd kl) <=? date)%Z) df_balance).

(** The inner loop: [k] counts the orders, [n] is their number. *)
Fixpoint main_loop (iter df_balance : Lots) (n k : nat)
    (units_to_sell_avg tot_units_sold : Q) : MainExn + (Lots * Q) :=
  match iter with
  | [] => inr (df_balance, tot_units_sold)
  | (j, row_b) :: rest =>
      let units_diff := lot_Units row_b - units_to_sell_avg in
      if Qltb units_diff 0 then
        let remaining := (Z.of_nat n - Z.of_nat k)%Z in
        if (remaining =? 0)%Z then inl ZeroDivisionError
        else
          let units_to_sell := lot_Units row_b in
          main_loop rest (lots_sub j units_to_sell df_balance) n (S k)
            (units_to_sell_avg + Qabs units_diff / inject_Z remaining)
            (tot_units_sold + units_to_sell)
      else
        let units_to_sell := units_to_sell_avg in
        main_loop rest (lots_sub j units_to_sell df_balance) n (S k)
          units_to_sell_avg (tot_units_sold + units_to_sell)
  end.

(** One turn of the loop over the sales.  [last_sale_date] is
    [df_sales['Date'].iloc[-1]]: every sale selects the purchases dated up
    to the last sale of the frame. *)
Definition main_sale (last_sale_date : Z)
    (state : Lots * list SaleInfo) (row_s : Sale)
  : MainExn + (Lots * list SaleInfo) :=
  let '(df_balance, sales_infos) := state in
  let df_balance_temp := balance_temp df_balance last_sale_date in
  if Qle_bool (sale_Units row_s) (Qsum (lots_Units df_balance_temp)) then
    let average_purchase_price :=
      Qsum (lots_Value df_balance_temp) / Qsum (lots_Units df_balance_temp) in
    let sold_value := sale_Value row_s in
    let average_purchase_value := sale_Units row_s * average_purchase_price in
    let profit := round2 (sold_value - average_purchase_value) in
    let taxes := if Qltb 0 profit then round2 (profit * (275 # 1000)) else 0 in
    let net_profit := profit - taxes in
    let sales_infos :=
      sales_infos ++ [mkSaleInfo profit taxes net_profit
                                 (round2 average_purchase_price)] in
    let n := length df_balance_temp in
    if Nat.eqb n 0 then inl ZeroDivisionError
    else
      match main_loop df_balance_temp df_balance n 1
                      (sale_Units row_s / of_nat n) 0 with
      | inl e => inl e
      | inr (df_balance, tot_units_sold) =>
          let df_balance :=
            combine (seq 0 (length
                              (filter (fun kl => Qltb 0 (lot_Units (snd kl)))
                                      df_balance)))
                    (map snd (filter (fun kl => Qltb 0 (lot_Units (snd kl)))
                                     df_balance)) in
          if Z.eqb (round_half_even (sale_Units row_s))
                   (round_half_even tot_units_sold)
          then inr (df_balance, sales_infos)
          else inl SoldUnitsMismatch
      end
  else inl TooManyUnitsToBeSold.

Fixpoint main_sales (last_sale_date : Z) (state : Lots * list SaleInfo)
    (df_sales : list Sale) : MainExn + (Lots * list SaleInfo) :=
  match df_sales with
  | [] => inr state
  | row_s :: rest =>
      match main_sale last_sale_date state row_s with
      | inr state' => main_sales last_sale_date state' rest
      | inl e => inl e
      end
  end.

(** The script on given purchases and sales. *)
Definition main (df_purchase : list Lot) (df_sales : list Sale)
  : MainExn + (Lots * list SaleInfo) :=
  match rev df_sales with
  | [] => inr (combine (seq 0 (length df_purchase)) df_purchase, [])
  | last :: _ =>
      main_sales (sale_Date last)
                 (combine (seq 0 (length df_purchase)) df_purchase, [])
                 df_sales
  end.

Definition lot_units_le (a b : nat * Lot) : Prop :=
  lot_Units (snd a) <= lot_Units (snd b).

(** ** Sample frames *)

Definition sample_lot (d : Z) (u p : Q) : Row :=
  mkRow d Purchase "BTC" u p "EUR" Purchase.

(** Three lots in ascending units: 1 @ 3.0, 4 @ 1.0 and 5 @ 2.0. *)
Definition ascending_lots : DataFrame :=
  with_range_index [sample_lot 1 1 3; sample_lot 2 4 1; sample_lot 3 5 2].

(** A lot of five units followed by a lot of one. *)
Definition descending_lots : DataFrame :=
  with_range_index [sample_lot 1 5 1; sample_lot 2 1 1].

(** The same three lots as purchases of the prototype, and a sale of six
    units at 5.0. *)
Definition sample_purchases : Lots :=
  combine (seq 0 3) [mkLot 1 3 1; mkLot 2 1 4; mkLot 3 2 5].

Definition sample_sale : Sale := mkSale 4 6 5.

(** Distinct labels of a given frame, and a property of each of its rows. *)
Ltac distinct_labels :=
  vm_compute; repeat (constructor; [simpl; intuition discriminate|]);
  constructor.

Ltac each_row tac := repeat (constructor; [tac|]); constructor.

(** * Properties *)

(** ** Comparisons *)

Lemma Qltb_lt (x y : Q) : Qltb x y = true <-> x < y.
Proof.
  unfold Qltb. rewrite negb_true_iff. split; intro H.
  - apply Qnot_le_lt. intro Hle. apply Qle_bool_iff in Hle. congruence.
  - destruct (Qle_bool y x) eqn:E; [|reflexivity].
    apply Qle_bool_iff in E. exfalso. apply (Qlt_not_le _ _ H E).
Qed.

Lemma Qltb_ge (x y : Q) : Qltb x y = false <-> y <= x.
Proof.
  unfold Qltb. rewrite negb_false_iff. apply Qle_bool_iff.
Qed.

Lemma Qle_bool_gt (x y : Q) : Qle_bool x y = false <-> y < x.
Proof.
  rewrite <- Qltb_lt. unfold Qltb. now rewrite negb_true_iff.
Qed.

Lemma Qle_bool_eq_compat (x x' y y' : Q) :
  x == x' -> y == y' -> Qle_bool x y = Qle_bool x' y'.
Proof.
  intros Hx Hy.
  destruct (Qle_bool x y) eqn:E, (Qle_bool x' y') eqn:E'; try reflexivity.
  - apply Qle_bool_iff in E. apply Qle_bool_gt in E'. lra.
  - apply Qle_bool_iff in E'. apply Qle_bool_gt in E. lra.
Qed.

(** ** Frames: index, sorting, sums *)

Lemma rows_combine_seq (l : list Row) (start : nat) :
  map snd (combine (seq start (length l)) l) = l.
Proof.
  revert start. induction l as [|r l IH]; intro start; simpl.
  - reflexivity.
  - now rewrite IH.
Qed.

Lemma rows_with_range_index (l : list Row) : rows (with_range_index l) = l.
Proof. apply rows_combine_seq. Qed.

Lemma rows_reset_index (df : DataFrame) : rows (reset_index df) = rows df.
Proof. apply rows_with_range_index. Qed.

Lemma rows_app (a b : DataFrame) : rows (a ++ b) = rows a ++ rows b.
Proof. apply map_app. Qed.

Lemma in_rows (df : DataFrame) (r : Row) :
  In r (rows df) <-> exists j, In (j, r) df.
Proof.
  unfold rows. rewrite in_map_iff. split.
  - intros [[j r'] [E H]]. simpl in E. subst. now exists j.
  - intros [j H]. now exists (j, r).
Qed.

Lemma insert_by_perm {A : Type} (leb : A -> A -> bool) (x : A) (l : list A) :
  Permutation (insert_by leb x l) (x :: l).
Proof.
  induction l as [|y l IH]; simpl.
  - apply Permutation_refl.
  - destruct (leb x y).
    + apply Permutation_refl.
    + eapply perm_trans; [apply perm_skip, IH | apply perm_swap].
Qed.

Lemma sort_by_perm {A : Type} (leb : A -> A -> bool) (l : list A) :
  Permutation (sort_by leb l) l.
Proof.
  induction l as [|x l IH]; simpl.
  - apply perm_nil.
  - eapply perm_trans; [apply insert_by_perm | apply perm_skip, IH].
Qed.

Lemma sort_values_perm {A : Type} (leb : A -> A -> bool) (asc : bool)
    (l : list A) : Permutation (sort_values leb asc l) l.
Proof.
  unfold sort_values. destruct asc.
  - apply sort_by_perm.
  - eapply perm_trans; [apply Permutation_sym, Permutation_rev|].
    eapply perm_trans; [apply sort_by_perm|].
    apply Permutation_sym, Permutation_rev.
Qed.

Lemma XYFO_order_perm (m : string) (df : DataFrame) :
  Permutation (XYFO_order m df) df.
Proof.
  unfold XYFO_order.
  repeat match goal with |- context [if ?b then _ else _] => destruct b end;
    auto using sort_values_perm, Permutation_refl.
Qed.

Lemma Qsum_app (a b : list Q) : Qsum (a ++ b) == Qsum a + Qsum b.
Proof.
  induction a as [|x a IH]; simpl.
  - lra.
  - rewrite IH. lra.
Qed.

Lemma Qsum_perm (a b : list Q) : Permutation a b -> Qsum a == Qsum b.
Proof.
  induction 1; simpl; lra.
Qed.

Lemma pooled_average_perm (a b : DataFrame) :
  Permutation a b -> pooled_average a == pooled_average b.
Proof.
  intro H. unfold pooled_average, col_Value, col_Units.
  rewrite (Qsum_perm _ _ (Permutation_map _ H)).
  rewrite (Qsum_perm _ _
             (Permutation_map (fun kr => Units (snd kr)) H)).
  reflexivity.
Qed.

Lemma rebuild_balance_rows (updated balance : DataFrame) (asset : string)
    (date : Z) :
  Permutation
    (rows (rebuild_balance updated balance asset date))
    (rows updated
     ++ rows (balance_other_previous_assets balance asset date)
     ++ rows (balance_later balance date)).
Proof.
  unfold rebuild_balance. rewrite rows_reset_index.
  rewrite <- !rows_app. apply Permutation_map, sort_values_perm.
Qed.

(** ** Lots keep a positive number of units *)

Lemma positive_balance_rows (df : DataFrame) :
  positive_balance df <-> Forall (fun r => 0 < Units r) (rows df).
Proof.
  unfold positive_balance, rows. now rewrite Forall_map.
Qed.

Lemma positive_balance_filter (f : nat * Row -> bool) (df : DataFrame) :
  positive_balance df -> positive_balance (filter f df).
Proof.
  unfold positive_balance. rewrite !Forall_forall. intros H kr Hin.
  apply filter_In in Hin. now apply H.
Qed.

Lemma positive_Units_positive (df : DataFrame) :
  positive_balance (positive_Units df).
Proof.
  unfold positive_balance, positive_Units. apply Forall_forall.
  intros kr Hin. apply filter_In in Hin. now apply Qltb_lt.
Qed.

Lemma positive_balance_reset_index (df : DataFrame) :
  positive_balance df -> positive_balance (reset_index df).
Proof.
  rewrite !positive_balance_rows. now rewrite rows_reset_index.
Qed.

Lemma positive_balance_app (a b : DataFrame) :
  positive_balance a -> positive_balance b -> positive_balance (a ++ b).
Proof.
  unfold positive_balance. intros. apply Forall_app. now split.
Qed.

Lemma update_balance_positive (balance asset_frame : DataFrame) (total : Q)
    (asset : string) :
  positive_balance (fst (update_balance balance asset_frame total asset)).
Proof.
  unfold update_balance.
  destruct (update_balance_loop _ _ _ _ _ _) as [df tot]. simpl.
  apply positive_balance_reset_index, positive_Units_positive.
Qed.

Lemma rebuild_balance_positive (updated balance : DataFrame) (asset : string)
    (date : Z) :
  positive_balance updated -> positive_balance balance ->
  positive_balance (rebuild_balance updated balance asset date).
Proof.
  intros Hu Hb. apply positive_balance_rows.
  eapply Permutation_Forall.
  - apply Permutation_sym, rebuild_balance_rows.
  - rewrite <- !rows_app. apply positive_balance_rows.
    repeat apply positive_balance_app; auto using positive_balance_filter.
    + unfold balance_other_previous_assets.
      now apply positive_balance_filter.
    + unfold balance_later. now apply positive_balance_filter.
Qed.

Lemma select_event_In (ty : TxType) (date : Z) (txs : DataFrame)
    (kr : nat * Row) :
  In kr (select_event ty date txs) ->
  In kr txs /\ Type_ (snd kr) = ty /\ Date (snd kr) = date.
Proof.
  unfold select_event. intro H. apply filter_In in H.
  destruct H as [Hin Hb]. apply andb_true_iff in Hb.
  destruct Hb as [Ht Hd]. apply Z.eqb_eq in Hd.
  repeat split; auto.
  destruct (Type_ (snd kr)), ty; simpl in Ht; congruence.
Qed.

Lemma process_swap_positive (txs : DataFrame) (st st' : State) (date : Z) :
  positive_balance (df_balance st) ->
  acquisitions_positive txs ->
  process_swap txs st date = Ok st' ->
  positive_balance (df_balance st').
Proof.
  intros Hst Htx. unfold process_swap.
  destruct (select_event Swap date txs) as [|asset_out [|asset_in rest]] eqn:E;
    try discriminate.
  pose proof (update_balance_positive
                (balance_asset (df_balance st) (Asset (snd asset_out)) date)
                (balance_asset (df_balance st) (Asset (snd asset_out)) date)
                (Units (snd asset_out)) (Asset (snd asset_out))) as Hup.
  destruct (update_balance _ _ _ _) as [updated tot]. simpl in Hup.
  intro H. injection H as <-. simpl.
  apply rebuild_balance_positive; [|assumption].
  apply positive_balance_reset_index, positive_balance_app; [assumption|].
  constructor; [|constructor]. simpl.
  assert (Hin : In asset_in (select_event Swap date txs))
    by (rewrite E; simpl; auto).
  apply select_event_In in Hin. destruct Hin as [Hin [Hty _]].
  unfold acquisitions_positive in Htx. rewrite Forall_forall in Htx.
  apply (Htx _ Hin). rewrite Hty. discriminate.
Qed.

Lemma process_sell_positive (cfg : Config) (txs : DataFrame)
    (st st' : State) (date : Z) :
  positive_balance (df_balance st) ->
  process_sell cfg txs st date = Ok st' ->
  positive_balance (df_balance st').
Proof.
  intro Hst. unfold process_sell.
  destruct (select_event Sell date txs) as [|sell rest]; try discriminate.
  destruct (Qle_bool _ _); try discriminate.
  destruct (String.eqb (METHOD cfg) "ACB").
  - destruct (tax_calculator_ACB _ _ _ _) as [cg taxes].
    match goal with
    | |- context [update_balance ?a ?b ?c ?d] =>
        pose proof (update_balance_positive a b c d) as Hup;
        destruct (update_balance a b c d) as [updated tot]
    end.
    simpl in Hup. intro H. injection H as <-. simpl.
    now apply rebuild_balance_positive.
  - destruct (is_XYFO (METHOD cfg)); try discriminate.
    destruct (tax_calculator_XYFO _ _ _ _ _) as [[[cg taxes] updated] tot].
    destruct (average_purchase_price st); try discriminate.
    intro H. injection H as <-. simpl.
    apply rebuild_balance_positive; [|assumption].
    apply positive_balance_reset_index, positive_Units_positive.
Qed.

Lemma process_event_positive (cfg : Config) (txs : DataFrame)
    (st st' : State) (change : Z * TxType) :
  positive_balance (df_balance st) ->
  acquisitions_positive txs ->
  process_event cfg txs st change = Ok st' ->
  positive_balance (df_balance st').
Proof.
  intros Hst Htx. unfold process_event.
  destruct (snd change); try (intro H; injection H as <-; assumption).
  - now apply process_sell_positive.
  - now apply process_swap_positive.
Qed.

Lemma event_loop_positive (cfg : Config) (txs : DataFrame)
    (events : list (Z * TxType)) :
  acquisitions_positive txs ->
  forall st st',
    positive_balance (df_balance st) ->
    event_loop cfg txs st events = Ok st' ->
    positive_balance (df_balance st').
Proof.
  intro Htx. induction events as [|change events IH]; intros st st' Hst; simpl.
  - intro H. injection H as <-. assumption.
  - destruct (process_event cfg txs st change) as [st1|e] eqn:E;
      try discriminate.
    intro H. eapply IH; [|exact H].
    exact (process_event_positive cfg txs st st1 change Hst Htx E).
Qed.

Lemma load_positive (cfg : Config) (file : list Transaction) :
  Forall (fun t => t_Type t <> Sell -> 0 < t_Units t) file ->
  acquisitions_positive (load cfg file).
Proof.
  intro H. unfold acquisitions_positive.
  apply (proj1 (Forall_map snd
                  (fun r => Type_ r <> Sell -> 0 < Units r) (load cfg file))).
  fold (rows (load cfg file)). unfold load.
  rewrite rows_with_range_index. apply Forall_map.
  eapply Forall_impl; [|exact H].
  intros t Ht. simpl in Ht. unfold normalize.
  destruct (t_Type t); simpl; intro Hty; apply Ht;
    first [discriminate | exact Hty].
Qed.

Lemma df_purchase_positive (txs : DataFrame) :
  acquisitions_positive txs -> positive_balance (df_purchase txs).
Proof.
  intro H. unfold df_purchase. apply positive_balance_reset_index.
  unfold positive_balance, acquisitions_positive in *.
  rewrite Forall_forall in *. intros kr Hin.
  apply filter_In in Hin. destruct Hin as [Hin Hty].
  apply (H kr Hin). intro E. rewrite E in Hty. discriminate.
Qed.

(** C9, as stated, fails: an event filters by [Units > 0] only the lots it
    depletes.  The lots of other assets, the later lots and the lot a swap
    inserts are put back as they are, so a purchase row of another asset
    that carries zero units is still in the ledger after a sale. *)
Lemma zero_unit_lot_stays_counterexample :
  exists st,
    event_loop default_config (load default_config zero_lot_log)
      (initial_state (load default_config zero_lot_log))
      (change_events (load default_config zero_lot_log)) = Ok st
    /\ ~ Forall (fun kr => 0 < Units (snd kr)) (df_balance st).
Proof.
  eexists. split.
  - vm_compute. reflexivity.
  - intro H. rewrite Forall_forall in H.
    specialize (H (1%nat, mkRow 1 Purchase "ETH" 0 2 "EUR" Purchase)).
    apply (Qlt_irrefl 0). apply H. vm_compute. right. left. reflexivity.
Qed.

(** C9, amended.  Starting from the purchases of a log in which every
    purchase, reward and swap leg carries a positive number of units, the
    ledger reached after any sequence of processed sell and swap events,
    under any configuration, holds only lots with strictly positive units:
    the lots an event empties are dropped. *)
Theorem ledger_units_stay_positive (cfg : Config) (file : list Transaction)
    (events : list (Z * TxType)) (st : State) :
  Forall (fun t => t_Type t <> Sell -> 0 < t_Units t) file ->
  event_loop cfg (load cfg file) (initial_state (load cfg file)) events
    = Ok st ->
  Forall (fun kr => 0 < Units (snd kr)) (df_balance st).
Proof.
  intros Hfile Hrun.
  pose proof (load_positive cfg file Hfile) as Htx.
  apply (event_loop_positive cfg (load cfg file) events Htx
           (initial_state (load cfg file)) st); [|exact Hrun].
  now apply df_purchase_positive.
Qed.

(** ** Tax records *)

Lemma floored_tax_ok (cfg : Config) (capital_gain average : Q) :
  tax_record_ok cfg
    (sale_record capital_gain
       (if Qltb 0 capital_gain then capital_gain * TAX_RATE cfg else 0)
       average).
Proof.
  unfold tax_record_ok, sale_record. simpl.
  destruct (Qltb 0 capital_gain) eqn:E.
  - apply Qltb_lt in E. split; [|split].
    + rewrite Q.max_r by lra. reflexivity.
    + intro H. lra.
    + reflexivity.
  - apply Qltb_ge in E. split; [|split].
    + rewrite Q.max_l by exact E. lra.
    + intro H. reflexivity.
    + reflexivity.
Qed.

Lemma process_sell_record (cfg : Config) (txs : DataFrame) (st st' : State)
    (date : Z) :
  process_sell cfg txs st date = Ok st' ->
  exists r, sales_taxes st' = sales_taxes st ++ [r] /\ tax_record_ok cfg r.
Proof.
  unfold process_sell.
  destruct (select_event Sell date txs) as [|sell rest]; try discriminate.
  destruct (Qle_bool _ _); try discriminate.
  destruct (String.eqb (METHOD cfg) "ACB").
  - unfold tax_calculator_ACB.
    destruct (update_balance _ _ _ _) as [updated tot].
    intro H. injection H as <-. simpl.
    eexists. split; [reflexivity|]. apply floored_tax_ok.
  - destruct (is_XYFO (METHOD cfg)); try discriminate.
    unfold tax_calculator_XYFO.
    destruct (XYFO_loop _ _ _ _ _ _) as [[updated tot] cg].
    destruct (average_purchase_price st); try discriminate.
    intro H. injection H as <-. simpl.
    eexists. split; [reflexivity|]. apply floored_tax_ok.
Qed.

Lemma process_swap_sales_taxes (txs : DataFrame) (st st' : State) (date : Z) :
  process_swap txs st date = Ok st' -> sales_taxes st' = sales_taxes st.
Proof.
  unfold process_swap.
  destruct (select_event Swap date txs) as [|asset_out [|asset_in rest]];
    try discriminate.
  destruct (update_balance _ _ _ _) as [updated tot].
  intro H. injection H as <-. reflexivity.
Qed.

Lemma process_event_records (cfg : Config) (txs : DataFrame)
    (st st' : State) (change : Z * TxType) :
  Forall (tax_record_ok cfg) (sales_taxes st) ->
  process_event cfg txs st change = Ok st' ->
  Forall (tax_record_ok cfg) (sales_taxes st').
Proof.
  intro Hst. unfold process_event.
  destruct (snd change); try (intro H; injection H as <-; assumption).
  - intro H. apply process_sell_record in H. destruct H as [r [-> Hr]].
    apply Forall_app. split; [assumption|]. now constructor.
  - intro H. apply process_swap_sales_taxes in H. now rewrite H.
Qed.

Lemma event_loop_records (cfg : Config) (txs : DataFrame)
    (events : list (Z * TxType)) :
  forall st st',
    Forall (tax_record_ok cfg) (sales_taxes st) ->
    event_loop cfg txs st events = Ok st' ->
    Forall (tax_record_ok cfg) (sales_taxes st').
Proof.
  induction events as [|change events IH]; intros st st' Hst; simpl.
  - intro H. injection H as <-. assumption.
  - destruct (process_event cfg txs st change) as [st1|e] eqn:E;
      try discriminate.
    intro H. eapply IH; [|exact H].
    exact (process_event_records cfg txs st st1 change Hst E).
Qed.

Lemma mining_record_ok (cfg : Config) (mine : Row) :
  0 <= Unit_Price mine -> tax_record_ok cfg (mining_record cfg mine).
Proof.
  intro Hp. unfold tax_record_ok, mining_record. simpl. split; [|split].
  - rewrite Q.max_r by exact Hp. reflexivity.
  - intro H. assert (E : Unit_Price mine == 0) by lra. rewrite E. lra.
  - reflexivity.
Qed.

Lemma load_mining_price (cfg : Config) (file : list Transaction)
    (kr : nat * Row) :
  (forall t, In t file -> t_Type t = Mining -> 0 <= t_Unit_Price t) ->
  In kr (load cfg file) -> Type_Orig (snd kr) = Mining ->
  0 <= Unit_Price (snd kr).
Proof.
  intros Hfile Hin Hty.
  assert (Hr : In (snd kr) (rows (load cfg file)))
    by (apply in_rows; exists (fst kr); now destruct kr).
  unfold load in Hr. rewrite rows_with_range_index in Hr.
  apply in_map_iff in Hr. destruct Hr as [t [Et Ht]].
  rewrite <- Et in Hty |- *. specialize (Hfile t Ht).
  unfold normalize in *. destruct (t_Type t); simpl in *;
    try discriminate. now apply Hfile.
Qed.

(** C6.  In every run that completes, under any method, each sale record
    has taxes equal to [max(0, capital_gain) * TAX_RATE] (hence zero when
    the gain is not positive) and net profit equal to gain minus taxes; the
    mining records satisfy the same equations when the recorded mining
    prices are not negative. *)
Theorem tax_records_ok (cfg : Config) (file : list Transaction)
    (out : Output) :
  run cfg file = Ok out ->
  Forall (tax_record_ok cfg) (out_sales_taxes out)
  /\ ((forall t, In t file -> t_Type t = Mining -> 0 <= t_Unit_Price t) ->
      Forall (tax_record_ok cfg) (out_mining_taxes out)).
Proof.
  unfold run.
  destruct (not_Purchase (load cfg file)) as [|first others];
    try discriminate.
  destruct (filter _ (df_purchase (load cfg file))); try discriminate.
  destruct (event_loop _ _ _ _) as [st|e] eqn:E; try discriminate.
  intro H. injection H as <-. simpl. split.
  - eapply event_loop_records; [|exact E]. constructor.
  - intro Hfile. unfold mining_taxes. apply Forall_map, Forall_forall.
    intros kr Hin. apply filter_In in Hin. destruct Hin as [Hin Hty].
    apply mining_record_ok. apply (load_mining_price cfg file kr Hfile Hin).
    destruct (Type_Orig (snd kr)); simpl in Hty; congruence.
Qed.

(** ** Eligible lots *)

Lemma balance_asset_In (balance : DataFrame) (asset : string) (date : Z)
    (kr : nat * Row) :
  In kr (balance_asset balance asset date) <->
  In kr balance /\ Asset (snd kr) = asset /\ (Date (snd kr) < date)%Z.
Proof.
  unfold balance_asset. rewrite filter_In, andb_true_iff.
  rewrite String.eqb_eq, Z.ltb_lt. tauto.
Qed.




(** ** Swaps *)

Lemma process_swap_inv (txs : DataFrame) (st st' : State) (date : Z) :
  process_swap txs st date = Ok st' ->
  exists asset_out asset_in rest,
    select_event Swap date txs = asset_out :: asset_in :: rest
    /\ let eligible :=
         balance_asset (df_balance st) (Asset (snd asset_out)) date in
       let price :=
         pooled_average eligible * Units (snd asset_out)
         / Units (snd asset_in) in
       st' = mkState
               (rebuild_balance
                  (reset_index
                     (fst (update_balance eligible eligible
                             (Units (snd asset_out)) (Asset (snd asset_out)))
                      ++ [swap_in_row asset_in price]))
                  (df_balance st) (Asset (snd asset_out)) date)
               (sales_taxes st) (Some price).
Proof.
  unfold process_swap.
  destruct (select_event Swap date txs) as [|asset_out [|asset_in rest]];
    try discriminate.
  intro H. exists asset_out, asset_in, rest. split; [reflexivity|].
  destruct (update_balance _ _ _ _) as [updated tot].
  injection H as <-. reflexivity.
Qed.

Lemma rebuild_balance_In_updated (updated balance : DataFrame)
    (asset : string) (date : Z) (r : Row) :
  In r (rows updated) ->
  In r (rows (rebuild_balance updated balance asset date)).
Proof.
  intro H. eapply Permutation_in.
  - apply Permutation_sym, rebuild_balance_rows.
  - apply in_or_app. now left.
Qed.

Lemma swap_in_row_inserted (txs : DataFrame) (st st' : State) (date : Z) :
  process_swap txs st date = Ok st' ->
  exists asset_out asset_in rest,
    select_event Swap date txs = asset_out :: asset_in :: rest
    /\ In (mkRow date Swap (Asset (snd asset_in)) (Units (snd asset_in))
                 (pooled_average
                    (balance_asset (df_balance st) (Asset (snd asset_out))
                                   date)
                  * Units (snd asset_out) / Units (snd asset_in))
                 "EUR" (Type_Orig (snd asset_in)))
          (rows (df_balance st')).
Proof.
  intro H. apply process_swap_inv in H.
  destruct H as [asset_out [asset_in [rest [E Hst]]]].
  exists asset_out, asset_in, rest. split; [exact E|].
  simpl in Hst. subst st'. simpl.
  apply rebuild_balance_In_updated.
  rewrite rows_reset_index, rows_app. apply in_or_app. right.
  assert (Hin : In asset_in (select_event Swap date txs))
    by (rewrite E; simpl; auto).
  apply select_event_In in Hin. destruct Hin as [_ [Hty Hd]].
  simpl. left. unfold swap_in_row. simpl. now rewrite Hty, Hd.
Qed.

(** C10.  Whatever the configuration, and so whatever base currency is
    configured, the lot a swap inserts for the received asset carries the
    currency "EUR"; the configured currency is the one given to airdrop,
    staking and mining acquisitions when the log is loaded. *)
Theorem swap_in_lot_currency_EUR (cfg : Config) (txs : DataFrame)
    (st st' : State) (date : Z) :
  process_event cfg txs st (date, Swap) = Ok st' ->
  (exists asset_out asset_in rest price,
      select_event Swap date txs = asset_out :: asset_in :: rest
      /\ In (mkRow date Swap (Asset (snd asset_in)) (Units (snd asset_in))
                   price "EUR" (Type_Orig (snd asset_in)))
            (rows (df_balance st')))
  /\ (forall t,
         t_Type t = Airdrop \/ t_Type t = Staking \/ t_Type t = Mining ->
         Currency (normalize cfg t) = CURRENCY cfg).
Proof.
  simpl. intro H. split.
  - apply swap_in_row_inserted in H.
    destruct H as [asset_out [asset_in [rest [E Hin]]]].
    exists asset_out, asset_in, rest. eexists. split; [exact E|exact Hin].
  - intros t [Ht|[Ht|Ht]]; unfold normalize; rewrite Ht; reflexivity.
Qed.

(** C4.  The Swap branch never reads the configured method: whatever the
    configuration, a swap has the same outcome, the one of the averaging
    pass [update_balance].  With FIFO configured, swapping away ten units
    out of the lots (10 @ 1.0, day 1) and (10 @ 2.0, day 2) takes five from
    each, where the Sell branch, on the same lots and for the same units,
    consumes the older lot whole under FIFO and the younger (and dearer) one
    under LIFO and HIFO. *)
Theorem swap_ignores_the_configured_method :
  (forall cfg cfg' txs st date,
      process_event cfg txs st (date, Swap)
      = process_event cfg' txs st (date, Swap))
  /\ let txs := load FIFO_config even_swap_log in
     let st := initial_state txs in
     let eligible := balance_asset (df_balance st) "BTC" 3 in
     exists st',
       process_event FIFO_config txs st (3%Z, Swap) = Ok st'
       /\ map lot_key (rows (balance_asset (df_balance st') "BTC" 3))
          = [(1%Z, 5, 1); (2%Z, 5, 2)]
       /\ map lot_key (rows (deplete_as_sell FIFO_config eligible 10 "BTC"))
          = [(2%Z, 10, 2)]
       /\ map lot_key (rows (deplete_as_sell LIFO_config eligible 10 "BTC"))
          = [(1%Z, 10, 1)]
       /\ map lot_key (rows (deplete_as_sell HIFO_config eligible 10 "BTC"))
          = [(1%Z, 10, 1)]
       /\ ~ swap_depletes_by_method FIFO_config txs st 3.
Proof.
  split; [reflexivity|].
  intros txs st eligible. eexists.
  split; [vm_compute; reflexivity|].
  repeat (split; [vm_compute; reflexivity|]).
  intro H. vm_compute in H. apply Permutation_length in H. discriminate H.
Qed.

(** ** Average cost basis *)

Lemma round_half_even_comp (x y : Q) :
  x == y -> round_half_even x = round_half_even y.
Proof.
  intro H. unfold round_half_even.
  rewrite (Qfloor_comp x y H).
  assert (E : x - inject_Z (Qfloor y) == y - inject_Z (Qfloor y))
    by (rewrite H; reflexivity).
  now rewrite (Qcompare_comp _ _ E (1 # 2) (1 # 2) (Qeq_refl _)).
Qed.

Lemma round2_comp (x y : Q) : x == y -> round2 x = round2 y.
Proof.
  intro H. unfold round2.
  rewrite (round_half_even_comp (x * 100) (y * 100)); [reflexivity|].
  now rewrite H.
Qed.

Lemma filter_perm {A : Type} (f : A -> bool) (a b : list A) :
  Permutation a b -> Permutation (filter f a) (filter f b).
Proof.
  induction 1; simpl.
  - apply perm_nil.
  - destruct (f x); auto.
  - destruct (f x), (f y); auto using perm_swap, Permutation_refl.
  - eapply perm_trans; eassumption.
Qed.

Lemma process_sell_ACB_inv (cfg : Config) (txs : DataFrame) (st : State)
    (date : Z) (sell : nat * Row) (rest : DataFrame) :
  METHOD cfg = "ACB"%string ->
  select_event Sell date txs = sell :: rest ->
  let eligible := balance_asset (df_balance st) (Asset (snd sell)) date in
  let ordered := sort_values by_Units true eligible in
  let average := pooled_average ordered in
  process_sell cfg txs st date =
  if Qle_bool (Units (snd sell)) (Qsum (col_Units eligible)) then
    Ok (mkState
          (rebuild_balance
             (fst (update_balance ordered ordered (Units (snd sell))
                                  (Asset (snd sell))))
             (df_balance st) (Asset (snd sell)) date)
          (sales_taxes st
           ++ [sale_record
                 (fst (tax_calculator_ACB cfg (Units (snd sell))
                         (Unit_Price (snd sell)) average))
                 (snd (tax_calculator_ACB cfg (Units (snd sell))
                         (Unit_Price (snd sell)) average))
                 average])
          (Some average))
  else Raise TooManyUnits.
Proof.
  intros Hm E. unfold process_sell. rewrite E, Hm. simpl.
  destruct (Qle_bool _ _); [|reflexivity].
  destruct (update_balance _ _ _ _) as [updated tot]. reflexivity.
Qed.

Lemma ordered_average (visit eligible : DataFrame) :
  Permutation visit eligible ->
  pooled_average (sort_values by_Units true visit) == pooled_average eligible.
Proof.
  intro H. apply pooled_average_perm.
  eapply perm_trans; [apply sort_values_perm | exact H].
Qed.

Lemma ACB_gain (cfg : Config) (units price a b : Q) :
  a == b ->
  fst (tax_calculator_ACB cfg units price a) == units * price - units * b.
Proof.
  intro H. unfold tax_calculator_ACB. simpl. rewrite H. reflexivity.
Qed.

(** C5, as stated, fails: for the lots [(10 @ 1.0), (5 @ 2.0)] the pooled
    average is 4/3, and the record of the sale reports 1.33. *)
Lemma ACB_reported_average_counterexample :
  exists st' r,
    process_event default_config (load default_config pooled_log)
      (initial_state (load default_config pooled_log)) (3%Z, Sell) = Ok st'
    /\ sales_taxes st' = [r]
    /\ ~ Average_Unit_Price r
         == pooled_average
              (balance_asset
                 (df_balance (initial_state (load default_config pooled_log)))
                 "BTC" 3).
Proof.
  eexists. eexists. split; [vm_compute; reflexivity|].
  split; [reflexivity|].
  vm_compute. discriminate.
Qed.

(** C5, amended.  An ACB sale with a non-empty set of eligible lots reports
    as average unit price the pooled weighted average of all eligible lots,
    taken before depletion and rounded to two decimals, and as capital gain
    [units * price - units * average] with the unrounded pooled average.
    Neither value depends on the order of the lots: any arrangement of the
    eligible lots, and any rearrangement of the ledger, gives the same
    report. *)
Theorem ACB_report_is_pooled (cfg : Config) (txs : DataFrame)
    (st st' : State) (date : Z) (sell : nat * Row) (rest : DataFrame) :
  METHOD cfg = "ACB"%string ->
  select_event Sell date txs = sell :: rest ->
  balance_asset (df_balance st) (Asset (snd sell)) date <> [] ->
  process_event cfg txs st (date, Sell) = Ok st' ->
  let eligible := balance_asset (df_balance st) (Asset (snd sell)) date in
  let units := Units (snd sell) in
  let price := Unit_Price (snd sell) in
  exists r,
    sales_taxes st' = sales_taxes st ++ [r]
    /\ Average_Unit_Price r = round2 (pooled_average eligible)
    /\ Capital_Gain r == units * price - units * pooled_average eligible
    /\ (forall visit,
           Permutation visit eligible ->
           round2 (pooled_average visit) = Average_Unit_Price r
           /\ fst (tax_calculator_ACB cfg units price (pooled_average visit))
              == Capital_Gain r)
    /\ (forall st2,
           Permutation (df_balance st2) (df_balance st) ->
           exists st2' r2,
             process_event cfg txs st2 (date, Sell) = Ok st2'
             /\ sales_taxes st2' = sales_taxes st2 ++ [r2]
             /\ Average_Unit_Price r2 = Average_Unit_Price r
             /\ Capital_Gain r2 == Capital_Gain r).
Proof.
  intros Hm E _ H eligible units price.
  change (process_sell cfg txs st date = Ok st') in H.
  rewrite (process_sell_ACB_inv cfg txs st date sell rest Hm E) in H.
  fold eligible units price in H.
  destruct (Qle_bool units (Qsum (col_Units eligible))) eqn:Hle;
    try discriminate.
  injection H as <-.
  pose proof (ordered_average eligible eligible (Permutation_refl _)) as Havg.
  eexists. split; [reflexivity|].
  cbn [sale_record Average_Unit_Price Capital_Gain fst snd
       tax_calculator_ACB sort_values] in Havg |- *.
  split; [now apply round2_comp|].
  split; [rewrite Havg; reflexivity|].
  split.
  - intros visit Hv.
    pose proof (pooled_average_perm _ _ Hv) as Hvis.
    split.
    + apply round2_comp. rewrite Hvis, Havg. reflexivity.
    + rewrite Hvis, Havg. reflexivity.
  - intros st2 Hperm.
    pose proof (filter_perm
                  (fun kr => String.eqb (Asset (snd kr)) (Asset (snd sell))
                             && (Date (snd kr) <? date)%Z) _ _ Hperm) as Hel.
    fold (balance_asset (df_balance st2) (Asset (snd sell)) date) in Hel.
    fold (balance_asset (df_balance st) (Asset (snd sell)) date) in Hel.
    fold eligible in Hel.
    change (process_event cfg txs st2 (date, Sell))
      with (process_sell cfg txs st2 date).
    rewrite (process_sell_ACB_inv cfg txs st2 date sell rest Hm E).
    assert (Hsum : Qle_bool units
                     (Qsum (col_Units
                        (balance_asset (df_balance st2) (Asset (snd sell))
                                       date))) = true).
    { rewrite <- Hle. apply Qle_bool_eq_compat; [reflexivity|].
      apply Qsum_perm. unfold col_Units. now apply Permutation_map. }
    fold units. rewrite Hsum.
    eexists. eexists. split; [reflexivity|].
    split; [reflexivity|].
    pose proof (ordered_average _ _ Hel) as Havg2.
    cbn [sale_record Average_Unit_Price Capital_Gain fst snd
         tax_calculator_ACB sort_values] in Havg2 |- *.
    fold price.
    split.
    + apply round2_comp. rewrite Havg2, Havg. reflexivity.
    + rewrite Havg2, Havg. reflexivity.
Qed.

(** ** Worked examples *)

(** FIFO consumes the older lot whole and five units of the younger one:
    the gain is 10 * (3 - 1) + 5 * (3 - 2) = 25 and (5 @ 2.0, day 2) stays
    open. *)
Example FIFO_example :
  gains (run FIFO_config FIFO_log) = [25]
  /\ lots_of "BTC" (run FIFO_config FIFO_log) = [(2%Z, 5, 2)].
Proof. split; vm_compute; reflexivity. Qed.

(** Under FIFO, LIFO or HIFO a first sale with no swap before it stops on
    the unbound [average_purchase_price]. *)
Example FIFO_first_sale_raises :
  run FIFO_config FIFO_first_sale_log = Raise NameError.
Proof. vm_compute. reflexivity. Qed.

(** HIFO consumes the day-1 lot (gain 10), LIFO the day-2 lot (gain 20). *)
Example HIFO_LIFO_divergence :
  gains (run HIFO_config divergence_log) = [10]
  /\ lots_of "BTC" (run HIFO_config divergence_log) = [(2%Z, 5, 1)]
  /\ gains (run LIFO_config divergence_log) = [20]
  /\ lots_of "BTC" (run LIFO_config divergence_log) = [(1%Z, 5, 3)].
Proof. repeat split; vm_compute; reflexivity. Qed.

(** ACB on the lots (10 @ 1.0), (5 @ 2.0), six units sold at 3.0: three
    units leave each lot and the gain is 6 * 3 - 6 * 4/3 = 10. *)
Example ACB_example :
  gains (run default_config pooled_log) = [10]
  /\ lots_of "BTC" (run default_config pooled_log)
     = [(1%Z, 7, 1); (2%Z, 2, 2)].
Proof. split; vm_compute; reflexivity. Qed.

(** ** Sales: rejection, frame and conservation *)


Lemma swap_never_raises_TooManyUnits (cfg : Config) (txs : DataFrame)
    (st : State) (date : Z) :
  process_event cfg txs st (date, Swap) <> Raise TooManyUnits.
Proof.
  change (process_swap txs st date <> Raise TooManyUnits).
  unfold process_swap.
  destruct (select_event Swap date txs) as [|asset_out [|asset_in rest]];
    try discriminate.
  destruct (update_balance _ _ _ _). discriminate.
Qed.

(** For every mining row the record's gain and average price are the unit
    price, taxes are gain times rate and net profit is gain minus taxes. *)
Lemma mining_record_fields (cfg : Config) (mine : Row) :
  Capital_Gain (mining_record cfg mine) = Unit_Price mine
  /\ Average_Unit_Price (mining_record cfg mine) = Unit_Price mine
  /\ Taxes (mining_record cfg mine)
     = Capital_Gain (mining_record cfg mine) * TAX_RATE cfg
  /\ Net_Profit (mining_record cfg mine)
     = Capital_Gain (mining_record cfg mine) - Taxes (mining_record cfg mine).
Proof. repeat split. Qed.

(** A successful sale keeps the lots of other assets dated strictly before
    the event and every lot dated strictly after it. *)
Lemma process_sell_balance (cfg : Config) (txs : DataFrame) (st st' : State)
    (date : Z) (sell : nat * Row) (rest : DataFrame) :
  select_event Sell date txs = sell :: rest ->
  process_sell cfg txs st date = Ok st' ->
  exists updated,
    df_balance st'
    = rebuild_balance updated (df_balance st) (Asset (snd sell)) date.
Proof.
  intro E. unfold process_sell. rewrite E.
  destruct (Qle_bool _ _); try discriminate.
  destruct (String.eqb (METHOD cfg) "ACB").
  - destruct (tax_calculator_ACB _ _ _ _) as [cg taxes].
    destruct (update_balance _ _ _ _) as [updated tot].
    intro H. injection H as <-. now eexists.
  - destruct (is_XYFO (METHOD cfg)); try discriminate.
    destruct (tax_calculator_XYFO _ _ _ _ _) as [[[cg taxes] updated] tot].
    destruct (average_purchase_price st); try discriminate.
    intro H. injection H as <-. now eexists.
Qed.

Lemma sale_keeps_lots_off_the_event_date (cfg : Config) (txs : DataFrame)
    (st st' : State) (date : Z) (sell : nat * Row) (rest : DataFrame)
    (kr : nat * Row) :
  select_event Sell date txs = sell :: rest ->
  process_event cfg txs st (date, Sell) = Ok st' ->
  In kr (df_balance st) ->
  (Asset (snd kr) <> Asset (snd sell) /\ (Date (snd kr) < date)%Z)
  \/ (date < Date (snd kr))%Z ->
  In (snd kr) (rows (df_balance st')).
Proof.
  intros E H Hin Hcase.
  change (process_sell cfg txs st date = Ok st') in H.
  destruct (process_sell_balance cfg txs st st' date sell rest E H)
    as [updated ->].
  eapply Permutation_in; [apply Permutation_sym, rebuild_balance_rows|].
  apply in_or_app. right. apply in_or_app.
  destruct Hcase as [[Ha Hd]|Hd]; [left|right]; apply in_map, filter_In;
    (split; [exact Hin|]).
  - apply andb_true_iff. split.
    + apply negb_true_iff, String.eqb_neq. exact Ha.
    + now apply Z.ltb_lt.
  - now apply Z.ltb_lt.
Qed.

(** *** Insertion sort sorts *)

Section InsertionSort.
Context {A : Type} (leb : A -> A -> bool).
Hypothesis leb_total : forall x y, leb x y = false -> leb y x = true.
Hypothesis leb_trans :
  forall x y z, leb x y = true -> leb y z = true -> leb x z = true.

Lemma insert_by_HdRel (a x : A) (l : list A) :
  holds leb a x -> HdRel (holds leb) a l ->
  HdRel (holds leb) a (insert_by leb x l).
Proof.
  intros Hax Hl. destruct l as [|y l]; simpl.
  - now constructor.
  - destruct (leb x y); constructor; auto.
    now inversion Hl.
Qed.

Lemma insert_by_sorted (x : A) (l : list A) :
  Sorted (holds leb) l -> Sorted (holds leb) (insert_by leb x l).
Proof.
  induction 1 as [|a l Hs IH Hhd]; simpl.
  - repeat constructor.
  - destruct (leb x a) eqn:E.
    + constructor; [now constructor | now constructor].
    + constructor; [exact IH|].
      apply insert_by_HdRel; [|exact Hhd]. now apply leb_total.
Qed.

Lemma sort_by_sorted (l : list A) :
  StronglySorted (holds leb) (sort_by leb l).
Proof.
  apply Sorted_StronglySorted.
  - intros x y z. apply leb_trans.
  - induction l as [|x l IH]; simpl.
    + constructor.
    + now apply insert_by_sorted.
Qed.

End InsertionSort.

Lemma sort_by_Units_sorted (df : DataFrame) :
  StronglySorted units_le (sort_values by_Units true df).
Proof.
  simpl.
  assert (H : StronglySorted (holds by_Units) (sort_by by_Units df)).
  { apply sort_by_sorted.
    - intros x y Hxy. unfold by_Units in *.
      apply Qle_bool_gt in Hxy. apply Qle_bool_iff. lra.
    - intros x y z Hxy Hyz. unfold by_Units in *.
      apply Qle_bool_iff in Hxy, Hyz. apply Qle_bool_iff. lra. }
  induction H as [|a l Hs IH Hall]; constructor; auto.
  eapply Forall_impl; [|exact Hall].
  intros b Hb. unfold units_le. now apply Qle_bool_iff.
Qed.

(** *** The averaging pass on lots in ascending units *)

Lemma of_nat_0 : of_nat 0 == 0.
Proof. reflexivity. Qed.

Lemma of_nat_S (k : nat) : of_nat (S k) == of_nat k + 1.
Proof.
  unfold of_nat. rewrite Nat2Z.inj_succ, <- Z.add_1_r.
  now rewrite inject_Z_plus.
Qed.

Lemma of_nat_S_pos (k : nat) : 0 < of_nat (S k).
Proof.
  unfold of_nat. change 0 with (inject_Z 0). rewrite <- Zlt_Qlt. lia.
Qed.

Lemma Qsum_Units_cons (kr : nat * Row) (l : DataFrame) :
  Qsum (col_Units (kr :: l)) = Units (snd kr) + Qsum (col_Units l).
Proof. reflexivity. Qed.

Lemma Qsum_Units_nil : Qsum (col_Units []) = 0.
Proof. reflexivity. Qed.

Lemma Qsum_lower_bound (avg : Q) (l : DataFrame) :
  Forall (fun kr => avg <= Units (snd kr)) l ->
  of_nat (length l) * avg <= Qsum (col_Units l).
Proof.
  induction 1 as [|kr l Hkr Hl IH]; cbn [length].
  - rewrite of_nat_0, Qsum_Units_nil. lra.
  - rewrite of_nat_S, Qsum_Units_cons. nra.
Qed.

(** One step of the cascade keeps [sold + remaining orders * share]. *)
Lemma cascade_step (units avg m : Q) :
  0 < m -> units - avg < 0 ->
  m * (avg + Qabs (units - avg) / m) == (m + 1) * avg - units.
Proof.
  intros Hm Hd. rewrite Qabs_neg by lra. field. lra.
Qed.

Lemma update_balance_loop_conserves (n : nat) (iter : DataFrame) :
  forall (df : DataFrame) (c : nat) (avg tot : Q),
    StronglySorted units_le iter ->
    (c + length iter = S n)%nat ->
    of_nat (length iter) * avg <= Qsum (col_Units iter) ->
    snd (update_balance_loop iter df n c avg tot)
    == tot + of_nat (length iter) * avg.
Proof.
  induction iter as [|[j r] rest IH]; intros df c avg tot Hs Hc Hsum.
  - cbn [update_balance_loop length snd]. rewrite of_nat_0. lra.
  - cbn [length] in Hc, Hsum. rewrite Qsum_Units_cons in Hsum.
    cbn [snd] in Hsum. rewrite of_nat_S in Hsum.
    cbn [update_balance_loop length]. rewrite of_nat_S.
    unfold calculate_units_to_remove_from_purchase_order.
    inversion Hs as [|? ? Hs' Hall]; subst.
    destruct (Qltb (Units r - avg) 0) eqn:E.
    + apply Qltb_lt in E.
      destruct rest as [|x rest'].
      { cbn [length] in Hsum.
        rewrite of_nat_0, Qsum_Units_nil in Hsum. lra. }
      assert (En : inject_Z (Z.of_nat n - Z.of_nat c)
                   = of_nat (length (x :: rest'))).
      { unfold of_nat. f_equal. cbn [length] in *. lia. }
      rewrite En.
      pose proof (of_nat_S_pos (length rest')) as Hpos.
      change (S (length rest')) with (length (x :: rest')) in Hpos.
      pose proof (cascade_step (Units r) avg _ Hpos E) as Hstep.
      rewrite IH; [| exact Hs' | cbn [length] in *; lia | lra].
      lra.
    + apply Qltb_ge in E.
      rewrite IH; [lra | exact Hs' | lia |].
      apply Qsum_lower_bound.
      eapply Forall_impl; [|exact Hall].
      intros kr Hkr. unfold units_le in Hkr. simpl in Hkr. lra.
Qed.

Lemma filter_all {A : Type} (f : A -> bool) (l : list A) :
  Forall (fun x => f x = true) l -> filter f l = l.
Proof.
  induction 1 as [|x l Hx Hl IH]; simpl.
  - reflexivity.
  - now rewrite Hx, IH.
Qed.

Lemma update_balance_conserves (df : DataFrame) (total : Q) (asset : string) :
  Forall (fun kr => Asset (snd kr) = asset) df ->
  StronglySorted units_le df ->
  0 <= total -> total <= Qsum (col_Units df) ->
  snd (update_balance df df total asset) == total.
Proof.
  intros Hasset Hs H0 Hsum. unfold update_balance.
  rewrite filter_all
    by (eapply Forall_impl; [|exact Hasset];
        intros kr Hkr; now apply String.eqb_eq).
  pose proof (update_balance_loop_conserves (length df) df df 1
                (total / of_nat (length df)) 0 Hs eq_refl) as H.
  destruct df as [|kr df0].
  - cbn [update_balance_loop length snd] in *.
    rewrite Qsum_Units_nil in Hsum. lra.
  - destruct (update_balance_loop _ _ _ _ _ _) as [df' tot].
    cbn [snd] in *.
    pose proof (of_nat_S_pos (length df0)) as Hpos.
    change (S (length df0)) with (length (kr :: df0)) in Hpos.
    assert (E : of_nat (length (kr :: df0))
                * (total / of_nat (length (kr :: df0))) == total)
      by (field; lra).
    rewrite H; lra.
Qed.

(** *** The consume-then-partial pass *)

Lemma XYFO_loop_conserves (iter : DataFrame) :
  forall (df : DataFrame) (price u tot cg : Q),
    0 <= u -> u <= Qsum (col_Units iter) ->
    snd (fst (XYFO_loop iter df price u tot cg)) == tot + u.
Proof.
  induction iter as [|[j r] rest IH]; intros df price u tot cg H0 Hsum.
  - rewrite Qsum_Units_nil in Hsum. cbn [XYFO_loop fst snd]. lra.
  - rewrite Qsum_Units_cons in Hsum. cbn [snd] in Hsum.
    cbn [XYFO_loop].
    destruct (Qle_bool (Units r) u) eqn:E.
    + apply Qle_bool_iff in E. rewrite IH; lra.
    + cbn [fst snd]. reflexivity.
Qed.

(** *** Writing by label into a frame with distinct labels *)

Lemma loc_Units_miss (j : nat) (f : Q -> Q) (df : DataFrame) :
  ~ In j (map fst df) -> loc_Units j f df = df.
Proof.
  induction df as [|[k r] df IH]; intro H; simpl.
  - reflexivity.
  - destruct (Nat.eqb k j) eqn:E.
    + apply Nat.eqb_eq in E. exfalso. apply H. simpl. now left.
    + f_equal. apply IH. intro Hin. apply H. simpl. now right.
Qed.

Lemma loc_Units_hit (j : nat) (f : Q -> Q) (done rest : DataFrame)
    (r : Row) :
  NoDup (map fst (done ++ (j, r) :: rest)) ->
  loc_Units j f (done ++ (j, r) :: rest)
  = (done ++ [(j, set_Units r (f (Units r)))]) ++ rest.
Proof.
  intro H. rewrite map_app in H. simpl in H.
  pose proof (NoDup_remove_2 _ _ _ H) as Hnot.
  unfold loc_Units at 1. rewrite map_app. simpl. rewrite Nat.eqb_refl.
  fold (loc_Units j f done). fold (loc_Units j f rest).
  rewrite !loc_Units_miss.
  - now rewrite <- app_assoc.
  - intro Hin. apply Hnot. apply in_or_app. now right.
  - intro Hin. apply Hnot. apply in_or_app. now left.
Qed.

Lemma labels_after_hit (done rest : DataFrame) (j : nat) (r r' : Row) :
  map fst ((done ++ [(j, r')]) ++ rest) = map fst (done ++ (j, r) :: rest).
Proof.
  rewrite <- app_assoc. rewrite !map_app. reflexivity.
Qed.

Lemma same_lot_refl (a : nat * Row) : same_lot a a.
Proof.
  split; [reflexivity|]. destruct a as [j r]. now destruct r.
Qed.

Lemma same_lot_all_refl (l : DataFrame) : Forall2 same_lot l l.
Proof.
  induction l; constructor; auto using same_lot_refl.
Qed.

Lemma same_lot_set_Units (j : nat) (r : Row) (u : Q) :
  same_lot (j, r) (j, set_Units r u).
Proof. split; reflexivity. Qed.

Lemma update_balance_loop_frame (n : nat) (iter : DataFrame) :
  forall (done : DataFrame) (c : nat) (avg tot : Q),
    NoDup (map fst (done ++ iter)) ->
    exists iter',
      fst (update_balance_loop iter (done ++ iter) n c avg tot)
      = done ++ iter'
      /\ Forall2 same_lot iter iter'
      /\ Forall (fun kr => 0 <= Units (snd kr)) iter'
      /\ Qsum (col_Units iter')
         == Qsum (col_Units iter)
            - (snd (update_balance_loop iter (done ++ iter) n c avg tot)
               - tot).
Proof.
  induction iter as [|[j r] rest IH]; intros done c avg tot Hnd.
  - exists []. cbn [update_balance_loop fst snd].
    repeat split; try constructor. rewrite Qsum_Units_nil. lra.
  - cbn [update_balance_loop].
    destruct (calculate_units_to_remove_from_purchase_order
                (Units r) avg n c) as [u avg'] eqn:Ecalc.
    rewrite (loc_Units_hit j _ done rest r Hnd).
    rewrite <- (labels_after_hit done rest j r (set_Units r (Units r - u)))
      in Hnd.
    destruct (IH _ (S c) avg' (tot + u) Hnd)
      as [iter' [Hdf [Hlots [Hpos Hsum]]]].
    exists ((j, set_Units r (Units r - u)) :: iter').
    split; [rewrite Hdf; now rewrite <- app_assoc|].
    split; [constructor; [apply same_lot_set_Units | exact Hlots]|].
    split.
    + constructor; [|exact Hpos]. cbn [snd set_Units Units].
      unfold calculate_units_to_remove_from_purchase_order in Ecalc.
      destruct (Qltb (Units r - avg) 0) eqn:E; injection Ecalc as <- <-.
      * lra.
      * apply Qltb_ge in E. lra.
    + rewrite !Qsum_Units_cons. cbn [snd set_Units Units].
      rewrite Hsum. lra.
Qed.

Lemma XYFO_loop_frame (iter : DataFrame) :
  forall (done : DataFrame) (price u tot cg : Q),
    NoDup (map fst (done ++ iter)) ->
    Forall (fun kr => 0 <= Units (snd kr)) iter ->
    exists iter',
      fst (fst (XYFO_loop iter (done ++ iter) price u tot cg)) = done ++ iter'
      /\ Forall2 same_lot iter iter'
      /\ Forall (fun kr => 0 <= Units (snd kr)) iter'
      /\ Qsum (col_Units iter')
         == Qsum (col_Units iter)
            - (snd (fst (XYFO_loop iter (done ++ iter) price u tot cg))
               - tot).
Proof.
  induction iter as [|[j r] rest IH]; intros done price u tot cg Hnd Hpos.
  - exists []. cbn [XYFO_loop fst snd].
    repeat split; try constructor. rewrite Qsum_Units_nil. lra.
  - cbn [XYFO_loop]. inversion Hpos as [|? ? Hr Hrest]; subst.
    destruct (Qle_bool (Units r) u) eqn:E.
    + rewrite (loc_Units_hit j _ done rest r Hnd).
      rewrite <- (labels_after_hit done rest j r (set_Units r 0)) in Hnd.
      destruct (IH _ price (u - Units r) (tot + Units r)
                  (cg + Units r * (price - Unit_Price r)) Hnd Hrest)
        as [iter' [Hdf [Hlots [Hpos' Hsum]]]].
      exists ((j, set_Units r 0) :: iter').
      split; [rewrite Hdf; now rewrite <- app_assoc|].
      split; [constructor; [apply same_lot_set_Units | exact Hlots]|].
      split.
      * constructor; [|exact Hpos']. cbn [snd set_Units Units]. lra.
      * rewrite !Qsum_Units_cons. cbn [snd set_Units Units].
        rewrite Hsum. lra.
    + apply Qle_bool_gt in E.
      rewrite (loc_Units_hit j _ done rest r Hnd). cbn [fst snd].
      exists ((j, set_Units r (Units r - u)) :: rest).
      split; [now rewrite <- app_assoc|].
      split; [constructor;
              [apply same_lot_set_Units | apply same_lot_all_refl]|].
      split.
      * constructor; [|exact Hrest]. cbn [snd set_Units Units]. lra.
      * rewrite !Qsum_Units_cons. cbn [snd set_Units Units]. lra.
Qed.

(** *** Units held before and after a sale *)

Lemma col_Units_rows (df : DataFrame) : col_Units df = map Units (rows df).
Proof. unfold col_Units, rows. now rewrite map_map. Qed.

Lemma col_Units_reset_index (df : DataFrame) :
  col_Units (reset_index df) = col_Units df.
Proof. now rewrite !col_Units_rows, rows_reset_index. Qed.

Lemma Qsum_positive_Units (df : DataFrame) :
  Forall (fun kr => 0 <= Units (snd kr)) df ->
  Qsum (col_Units (positive_Units df)) == Qsum (col_Units df).
Proof.
  induction 1 as [|kr df Hkr Hdf IH].
  - reflexivity.
  - unfold positive_Units in *. cbn [filter].
    destruct (Qltb 0 (Units (snd kr))) eqn:E.
    + rewrite !Qsum_Units_cons, IH. reflexivity.
    + apply Qltb_ge in E. rewrite Qsum_Units_cons, IH. lra.
Qed.

Lemma same_lot_eligible (asset : string) (date : Z) (l l' : DataFrame) :
  Forall2 same_lot l l' ->
  Forall (fun kr => eligible_row asset date (snd kr) = true) l ->
  Forall (fun kr => eligible_row asset date (snd kr) = true) l'.
Proof.
  induction 1 as [|a b l l' [_ Hab] Hl IH]; intro H.
  - constructor.
  - inversion H; subst. constructor; [|now apply IH].
    rewrite Hab. assumption.
Qed.

Lemma eligible_kept (asset : string) (date : Z) (df : DataFrame) :
  Forall (fun kr => eligible_row asset date (snd kr) = true) df ->
  Forall (fun r => eligible_row asset date r = true)
         (rows (reset_index (positive_Units df))).
Proof.
  intro H. rewrite rows_reset_index. unfold rows. apply Forall_map.
  unfold positive_Units. rewrite Forall_forall in *.
  intros kr Hin. apply filter_In in Hin. now apply H.
Qed.

Lemma update_balance_frame (df : DataFrame) (total : Q) (asset : string)
    (date : Z) :
  NoDup (map fst df) ->
  Forall (fun kr => eligible_row asset date (snd kr) = true) df ->
  Qsum (col_Units (fst (update_balance df df total asset)))
  == Qsum (col_Units df) - snd (update_balance df df total asset)
  /\ Forall (fun r => eligible_row asset date r = true)
            (rows (fst (update_balance df df total asset))).
Proof.
  intros Hnd Hel. unfold update_balance.
  rewrite filter_all.
  2:{ eapply Forall_impl; [|exact Hel]. intros kr Hkr.
      unfold eligible_row in Hkr. now apply andb_true_iff in Hkr. }
  destruct (update_balance_loop_frame (length df) df [] 1
              (total / of_nat (length df)) 0 Hnd)
    as [df' [Hdf [Hlots [Hpos Hsum]]]].
  cbn [app] in Hdf, Hsum.
  destruct (update_balance_loop df df _ _ _ _) as [out tot].
  cbn [fst snd] in *. subst out. split.
  - rewrite col_Units_reset_index, Qsum_positive_Units by exact Hpos.
    rewrite Hsum. lra.
  - apply eligible_kept. eapply same_lot_eligible; eassumption.
Qed.

Lemma tax_calculator_XYFO_frame (cfg : Config) (df : DataFrame)
    (units price : Q) (asset : string) (date : Z) :
  NoDup (map fst df) ->
  Forall (fun kr => 0 <= Units (snd kr)) df ->
  Forall (fun kr => eligible_row asset date (snd kr) = true) df ->
  let '(_, _, updated, tot) := tax_calculator_XYFO cfg units price df df in
  Qsum (col_Units (reset_index (positive_Units updated)))
  == Qsum (col_Units df) - tot
  /\ Forall (fun r => eligible_row asset date r = true)
            (rows (reset_index (positive_Units updated))).
Proof.
  intros Hnd Hpos Hel. unfold tax_calculator_XYFO.
  destruct (XYFO_loop_frame df [] price units 0 0 Hnd Hpos)
    as [df' [Hdf [Hlots [Hpos' Hsum]]]].
  cbn [app] in Hdf, Hsum.
  destruct (XYFO_loop df df price units 0 0) as [[out tot] cg].
  cbn [fst snd] in *. subst out. split.
  - rewrite col_Units_reset_index, Qsum_positive_Units by exact Hpos'.
    rewrite Hsum. lra.
  - apply eligible_kept. eapply same_lot_eligible; eassumption.
Qed.

Lemma rows_filter (p : Row -> bool) (df : DataFrame) :
  rows (filter (fun kr => p (snd kr)) df) = filter p (rows df).
Proof.
  induction df as [|kr df IH]; simpl.
  - reflexivity.
  - destruct (p (snd kr)); simpl; now rewrite IH.
Qed.

Lemma filter_none {A : Type} (f : A -> bool) (l : list A) :
  Forall (fun x => f x = false) l -> filter f l = [].
Proof.
  induction 1 as [|x l Hx Hl IH]; simpl.
  - reflexivity.
  - now rewrite Hx.
Qed.

(** After the ledger is put together again, the lots of the sold asset dated
    before the event are those of the depleted frame. *)
Lemma rebuild_balance_eligible (updated balance : DataFrame) (asset : string)
    (date : Z) :
  Forall (fun r => eligible_row asset date r = true) (rows updated) ->
  Qsum (col_Units
          (balance_asset (rebuild_balance updated balance asset date)
                         asset date))
  == Qsum (col_Units updated).
Proof.
  intro Hup.
  change (balance_asset (rebuild_balance updated balance asset date)
                        asset date)
    with (filter (fun kr => eligible_row asset date (snd kr))
                 (rebuild_balance updated balance asset date)).
  rewrite !col_Units_rows, rows_filter.
  apply Qsum_perm, Permutation_map.
  eapply perm_trans;
    [apply filter_perm, rebuild_balance_rows|].
  rewrite !filter_app, (filter_all _ _ Hup).
  rewrite !filter_none.
  - rewrite !app_nil_r. apply Permutation_refl.
  - unfold balance_later.
    rewrite (rows_filter (fun r => (date <? Date r)%Z)).
    apply Forall_forall.
    intros r Hin. apply filter_In in Hin. destruct Hin as [_ Hd].
    unfold eligible_row. apply andb_false_iff. right.
    apply Z.ltb_lt in Hd. apply Z.ltb_ge. lia.
  - unfold balance_other_previous_assets.
    rewrite (rows_filter (fun r => negb (String.eqb (Asset r) asset)
                                   && (Date r <? date)%Z)).
    apply Forall_forall.
    intros r Hin. apply filter_In in Hin. destruct Hin as [_ Hd].
    apply andb_true_iff in Hd. destruct Hd as [Ha _].
    apply negb_true_iff in Ha.
    unfold eligible_row. now rewrite Ha.
Qed.

Lemma balance_asset_eligible (balance : DataFrame) (asset : string)
    (date : Z) :
  Forall (fun kr => eligible_row asset date (snd kr) = true)
         (balance_asset balance asset date).
Proof.
  apply Forall_forall. intros kr Hin. unfold balance_asset in Hin.
  apply filter_In in Hin. exact (proj2 Hin).
Qed.

Lemma NoDup_labels_filter (f : nat * Row -> bool) (df : DataFrame) :
  NoDup (map fst df) -> NoDup (map fst (filter f df)).
Proof.
  induction df as [|kr df IH]; simpl; intro H.
  - constructor.
  - inversion H as [|? ? Hnot Hnd]; subst.
    destruct (f kr); simpl; [|now apply IH].
    constructor; [|now apply IH].
    intro Hin. apply Hnot. apply in_map_iff in Hin.
    destruct Hin as [x [Ex Hx]]. apply filter_In in Hx.
    apply in_map_iff. exists x. tauto.
Qed.

Lemma NoDup_labels_perm (a b : DataFrame) :
  Permutation a b -> NoDup (map fst b) -> NoDup (map fst a).
Proof.
  intros Hp Hb. eapply Permutation_NoDup; [|exact Hb].
  apply Permutation_map, Permutation_sym, Hp.
Qed.

(** A successful sale of a non-negative number of units, under any of the
    four methods, lowers the units held in the eligible lots of the sold
    asset by exactly the units sold.  The ledger is assumed to have distinct
    labels and no lot with negative units, as every ledger the loop builds
    has. *)
Theorem sale_removes_requested_units (cfg : Config) (txs : DataFrame)
    (st st' : State) (date : Z) (sell : nat * Row) (rest : DataFrame) :
  NoDup (map fst (df_balance st)) ->
  Forall (fun kr => 0 <= Units (snd kr)) (df_balance st) ->
  select_event Sell date txs = sell :: rest ->
  0 <= Units (snd sell) ->
  process_event cfg txs st (date, Sell) = Ok st' ->
  Qsum (col_Units (balance_asset (df_balance st') (Asset (snd sell)) date))
  == Qsum (col_Units (balance_asset (df_balance st) (Asset (snd sell)) date))
     - Units (snd sell).
Proof.
  intros Hnd Hpos E H0 H.
  change (process_sell cfg txs st date = Ok st') in H.
  unfold process_sell in H. rewrite E in H.
  set (asset := Asset (snd sell)) in *.
  set (units := Units (snd sell)) in *.
  set (eligible := balance_asset (df_balance st) asset date) in *.
  destruct (Qle_bool units (Qsum (col_Units eligible))) eqn:Hle;
    try discriminate.
  apply Qle_bool_iff in Hle.
  assert (Hel : Forall (fun kr => eligible_row asset date (snd kr) = true)
                       eligible) by apply balance_asset_eligible.
  assert (Hnd_el : NoDup (map fst eligible))
    by (apply NoDup_labels_filter; exact Hnd).
  assert (Hpos_el : Forall (fun kr => 0 <= Units (snd kr)) eligible).
  { apply Forall_forall. intros kr Hin. unfold eligible in Hin.
    apply balance_asset_In in Hin. rewrite Forall_forall in Hpos.
    now apply Hpos. }
  destruct (String.eqb (METHOD cfg) "ACB").
  - set (ordered := sort_values by_Units true eligible) in *.
    assert (Hp : Permutation ordered eligible) by apply sort_values_perm.
    assert (Hel' : Forall (fun kr => eligible_row asset date (snd kr) = true)
                          ordered)
      by (eapply Permutation_Forall; [apply Permutation_sym, Hp|exact Hel]).
    pose proof (NoDup_labels_perm _ _ Hp Hnd_el) as Hnd'.
    pose proof (Qsum_perm _ _
                  (Permutation_map (fun kr => Units (snd kr)) Hp)) as Hq.
    fold (col_Units ordered) in Hq. fold (col_Units eligible) in Hq.
    destruct (update_balance_frame ordered units asset date Hnd' Hel')
      as [Hsum Hrows].
    assert (Htot : snd (update_balance ordered ordered units asset) == units).
    { apply update_balance_conserves.
      - eapply Forall_impl; [|exact Hel']. intros kr Hkr.
        unfold eligible_row in Hkr. apply andb_true_iff in Hkr.
        now apply String.eqb_eq.
      - apply sort_by_Units_sorted.
      - exact H0.
      - rewrite Hq. exact Hle. }
    destruct (tax_calculator_ACB _ _ _ _) as [cg taxes].
    destruct (update_balance ordered ordered units asset) as [updated tot].
    cbn [fst snd] in *. injection H as <-. cbn [df_balance].
    rewrite rebuild_balance_eligible by exact Hrows.
    rewrite Hsum, Htot, Hq. reflexivity.
  - destruct (is_XYFO (METHOD cfg)); try discriminate.
    set (ordered := XYFO_order (METHOD cfg) eligible) in *.
    assert (Hp : Permutation ordered eligible) by apply XYFO_order_perm.
    assert (Hel' : Forall (fun kr => eligible_row asset date (snd kr) = true)
                          ordered)
      by (eapply Permutation_Forall; [apply Permutation_sym, Hp|exact Hel]).
    assert (Hpos' : Forall (fun kr => 0 <= Units (snd kr)) ordered)
      by (eapply Permutation_Forall;
          [apply Permutation_sym, Hp|exact Hpos_el]).
    pose proof (NoDup_labels_perm _ _ Hp Hnd_el) as Hnd'.
    pose proof (Qsum_perm _ _
                  (Permutation_map (fun kr => Units (snd kr)) Hp)) as Hq.
    fold (col_Units ordered) in Hq. fold (col_Units eligible) in Hq.
    pose proof (tax_calculator_XYFO_frame cfg ordered units
                  (Unit_Price (snd sell)) asset date Hnd' Hpos' Hel')
      as Hframe.
    assert (Htot : snd (tax_calculator_XYFO cfg units (Unit_Price (snd sell))
                          ordered ordered) == units).
    { unfold tax_calculator_XYFO.
      pose proof (XYFO_loop_conserves ordered ordered (Unit_Price (snd sell))
                    units 0 0 H0) as Hc.
      destruct (XYFO_loop _ _ _ _ _ _) as [[out tot] cg].
      cbn [fst snd] in *. rewrite Hc; [lra|]. rewrite Hq. exact Hle. }
    destruct (tax_calculator_XYFO _ _ _ _ _) as [[[cg taxes] updated] tot].
    cbn [fst snd] in *. destruct Hframe as [Hsum Hrows].
    destruct (average_purchase_price st); try discriminate.
    injection H as <-. cbn [df_balance].
    rewrite rebuild_balance_eligible by exact Hrows.
    rewrite Hsum, Htot, Hq. reflexivity.
Qed.

(** *** Ledgers the loop builds *)

Lemma labels_combine_seq (l : list Row) (start : nat) :
  map fst (combine (seq start (length l)) l) = seq start (length l).
Proof.
  revert start. induction l as [|r l IH]; intro start; simpl.
  - reflexivity.
  - now rewrite IH.
Qed.

Lemma reset_index_labels (df : DataFrame) :
  NoDup (map fst (reset_index df)).
Proof.
  unfold reset_index, with_range_index. rewrite labels_combine_seq.
  apply seq_NoDup.
Qed.

Lemma process_event_labels (cfg : Config) (txs : DataFrame) (st st' : State)
    (change : Z * TxType) :
  NoDup (map fst (df_balance st)) ->
  process_event cfg txs st change = Ok st' ->
  NoDup (map fst (df_balance st')).
Proof.
  intro Hst. unfold process_event.
  destruct (snd change); try (intro H; injection H as <-; assumption).
  - unfold process_sell.
    destruct (select_event Sell (fst change) txs) as [|sell rest];
      try discriminate.
    destruct (Qle_bool _ _); try discriminate.
    destruct (String.eqb (METHOD cfg) "ACB").
    + destruct (tax_calculator_ACB _ _ _ _) as [cg taxes].
      destruct (update_balance _ _ _ _) as [updated tot].
      intro H. injection H as <-. apply reset_index_labels.
    + destruct (is_XYFO (METHOD cfg)); try discriminate.
      destruct (tax_calculator_XYFO _ _ _ _ _) as [[[cg taxes] updated] tot].
      destruct (average_purchase_price st); try discriminate.
      intro H. injection H as <-. apply reset_index_labels.
  - intro H. apply process_swap_inv in H.
    destruct H as [asset_out [asset_in [rest [_ Hst']]]].
    cbv zeta in Hst'. subst st'. apply reset_index_labels.
Qed.

Lemma event_loop_labels (cfg : Config) (txs : DataFrame)
    (events : list (Z * TxType)) :
  forall st st',
    NoDup (map fst (df_balance st)) ->
    event_loop cfg txs st events = Ok st' ->
    NoDup (map fst (df_balance st')).
Proof.
  induction events as [|change events IH]; intros st st' Hst; simpl.
  - intro H. injection H as <-. assumption.
  - destruct (process_event cfg txs st change) as [st1|e] eqn:E;
      try discriminate.
    intro H. eapply IH; [|exact H].
    exact (process_event_labels cfg txs st st1 change Hst E).
Qed.

(** X1.  In a run over a log whose purchases, rewards and swap legs carry
    positive units, every successful sale of a non-negative number of units
    removes exactly that number of units from the eligible lots of the sold
    asset, whatever happened before it and under any of the four methods. *)
Theorem sale_in_a_run_removes_requested_units (cfg : Config)
    (file : list Transaction) (events : list (Z * TxType))
    (st st' : State) (date : Z) (sell : nat * Row) (rest : DataFrame) :
  Forall (fun t => t_Type t <> Sell -> 0 < t_Units t) file ->
  event_loop cfg (load cfg file) (initial_state (load cfg file)) events
    = Ok st ->
  select_event Sell date (load cfg file) = sell :: rest ->
  0 <= Units (snd sell) ->
  process_event cfg (load cfg file) st (date, Sell) = Ok st' ->
  Qsum (col_Units (balance_asset (df_balance st') (Asset (snd sell)) date))
  == Qsum (col_Units (balance_asset (df_balance st) (Asset (snd sell)) date))
     - Units (snd sell).
Proof.
  intros Hfile Hrun E H0 H.
  apply (sale_removes_requested_units cfg (load cfg file) st st' date
           sell rest); auto.
  - apply (event_loop_labels cfg (load cfg file) events
             (initial_state (load cfg file)) st); [|exact Hrun].
    apply reset_index_labels.
  - pose proof (event_loop_positive cfg (load cfg file) events
                  (load_positive cfg file Hfile)
                  (initial_state (load cfg file)) st
                  (df_purchase_positive _ (load_positive cfg file Hfile))
                  Hrun) as Hpos.
    eapply Forall_impl; [|exact Hpos]. intros kr Hkr. simpl in Hkr. lra.
Qed.

(** ** Where the script departs from its description *)

(** C1.  A swap of 4 BTC out of the lots (10, day 1) and (1, day 2): the
    eligible lots hold 11 units, the averaging pass walks them in ledger
    order, takes 2 from the first and only the single unit of the second,
    and so removes 3 units, not 4.  The configured method plays no part. *)
Theorem swap_removes_fewer_units_than_requested :
  let txs := load default_config short_last_log in
  let st := initial_state txs in
  let eligible := balance_asset (df_balance st) "BTC" 3 in
  exists st',
    (forall cfg, process_event cfg txs st (3%Z, Swap) = Ok st')
    /\ 4 <= Qsum (col_Units eligible)
    /\ snd (update_balance eligible eligible 4 "BTC") == 3
    /\ Qsum (col_Units eligible)
       - Qsum (col_Units (balance_asset (df_balance st') "BTC" 3)) == 3
    /\ map lot_key (rows (df_balance st'))
       = [(1%Z, 8, 1); (3%Z, 8, 1 # 2)]
    /\ exists out,
         run default_config short_last_log = Ok out
         /\ final_balance out = df_balance st'.
Proof.
  eexists. split; [intro cfg; vm_compute; reflexivity|].
  split; [vm_compute; discriminate|].
  split; [vm_compute; reflexivity|].
  split; [vm_compute; reflexivity|].
  split; [vm_compute; reflexivity|].
  eexists. split; vm_compute; reflexivity.
Qed.

(** C2.  A swap of 10 BTC when the only eligible lot holds 5: no error is
    raised, the lot is consumed and a lot of the received asset enters the
    ledger. *)
Theorem swap_beyond_balance_is_not_rejected :
  let txs := load default_config over_swap_log in
  let st := initial_state txs in
  exists st',
    (forall cfg, process_event cfg txs st (2%Z, Swap) = Ok st')
    /\ Qsum (col_Units (balance_asset (df_balance st) "BTC" 2)) < 10
    /\ map lot_key (rows (df_balance st)) = [(1%Z, 5, 1)]
    /\ map lot_key (rows (df_balance st')) = [(2%Z, 20, 1 # 2)]
    /\ exists out,
         run default_config over_swap_log = Ok out
         /\ final_balance out = df_balance st'.
Proof.
  eexists. split; [intro cfg; vm_compute; reflexivity|].
  split; [vm_compute; reflexivity|].
  split; [vm_compute; reflexivity|].
  split; [vm_compute; reflexivity|].
  eexists. split; vm_compute; reflexivity.
Qed.

(** C3.  Two units mined at a unit price of 3: the receipt record carries a
    capital gain of 3, the unit price, where the received value is 6. *)
Theorem mining_gain_is_the_unit_price :
  exists out r,
    run default_config mining_log = Ok out
    /\ out_mining_taxes out = [r]
    /\ Capital_Gain r == 3
    /\ ~ Capital_Gain r == 3 * 2
    /\ Taxes r == 3 * TAX_RATE default_config
    /\ Average_Unit_Price r == 3.
Proof.
  eexists. eexists. split; [vm_compute; reflexivity|].
  split; [reflexivity|].
  split; [reflexivity|].
  split; [vm_compute; discriminate|].
  split; vm_compute; reflexivity.
Qed.

(** C8.  1 BTC sold at the timestamp at which 5 ETH were bought: the sale
    succeeds and the ETH lot is no longer in the ledger. *)
Theorem sale_drops_lots_dated_at_the_event :
  let txs := load default_config same_time_log in
  let st := initial_state txs in
  exists st',
    process_event default_config txs st (2%Z, Sell) = Ok st'
    /\ In (mkRow 2 Purchase "ETH" 5 2 "EUR" Purchase) (rows (df_balance st))
    /\ map Asset (rows (df_balance st')) = ["BTC"%string]
    /\ map lot_key (rows (df_balance st')) = [(1%Z, 9, 1)]
    /\ exists out,
         run default_config same_time_log = Ok out
         /\ final_balance out = df_balance st'.
Proof.
  eexists. split; [vm_compute; reflexivity|].
  split; [vm_compute; auto|].
  split; [vm_compute; reflexivity|].
  split; [vm_compute; reflexivity|].
  eexists. split; vm_compute; reflexivity.
Qed.

(** ** The theorems at sample logs *)

Lemma ledger_units_stay_positive_witness :
  let txs := load default_config emptying_log in
  exists st,
    event_loop default_config txs (initial_state txs) [(3%Z, Sell)] = Ok st
    /\ length (df_balance (initial_state txs)) = 3%nat
    /\ length (df_balance st) = 2%nat
    /\ Forall (fun kr => 0 < Units (snd kr)) (df_balance st).
Proof.
  intro txs. eexists. split; [vm_compute; reflexivity|].
  split; [reflexivity|]. split; [reflexivity|].
  apply (ledger_units_stay_positive default_config emptying_log
           [(3%Z, Sell)]).
  - repeat constructor; intros _; reflexivity.
  - vm_compute. reflexivity.
Defined.

Lemma tax_records_ok_witness :
  exists out,
    run default_config mining_log = Ok out
    /\ Forall (tax_record_ok default_config) (out_sales_taxes out)
    /\ Forall (tax_record_ok default_config) (out_mining_taxes out).
Proof.
  eexists. split.
  - vm_compute. reflexivity.
  - match goal with
    | |- Forall _ (out_sales_taxes ?o) /\ _ =>
        destruct (tax_records_ok default_config mining_log o) as [Hs Hm]
    end.
    + vm_compute. reflexivity.
    + split; [exact Hs|]. apply Hm.
      intros t [<-|[<-|[<-|[]]]] Hty; vm_compute; discriminate.
Defined.

Lemma swap_in_lot_currency_EUR_witness :
  exists st' r,
    process_event FIFO_config (load FIFO_config even_swap_log)
      (initial_state (load FIFO_config even_swap_log)) (3%Z, Swap) = Ok st'
    /\ In r (rows (df_balance st'))
    /\ Asset r = "ETH"%string /\ Currency r = "EUR"%string.
Proof.
  eexists. 
  assert (H : process_event FIFO_config (load FIFO_config even_swap_log)
                (initial_state (load FIFO_config even_swap_log)) (3%Z, Swap)
              = Ok _) by (vm_compute; reflexivity).
  destruct (swap_in_lot_currency_EUR _ _ _ _ _ H)
    as [[asset_out [asset_in [rest [price [E Hin]]]]] _].
  eexists. split; [exact H|]. split; [exact Hin|].
  vm_compute in E. injection E as _ <- _. split; reflexivity.
Defined.

Lemma ACB_report_is_pooled_witness :
  let txs := load default_config pooled_log in
  let st := initial_state txs in
  exists st' r,
    process_event default_config txs st (3%Z, Sell) = Ok st'
    /\ sales_taxes st' = sales_taxes st ++ [r]
    /\ Average_Unit_Price r
       = round2 (pooled_average (balance_asset (df_balance st) "BTC" 3))
    /\ Capital_Gain r
       == 6 * 3
          - 6 * pooled_average (balance_asset (df_balance st) "BTC" 3).
Proof.
  intros txs st. eexists.
  assert (H : process_event default_config txs st (3%Z, Sell) = Ok _)
    by (vm_compute; reflexivity).
  destruct (ACB_report_is_pooled default_config txs st _ 3
              (2%nat, mkRow 3 Sell "BTC" 6 3 "EUR" Sell) []
              eq_refl eq_refl ltac:(vm_compute; discriminate) H)
    as [r [Hr [Ha [Hg _]]]].
  exists r. split; [exact H|]. split; [exact Hr|]. split; [exact Ha|exact Hg].
Defined.

(** * Further properties of the script *)

(** ** The averaging pass as a function *)

Lemma update_balance_loop_bounds (n : nat) (iter : DataFrame) :
  forall (df : DataFrame) (c : nat) (avg tot : Q),
    Forall (fun kr => 0 <= Units (snd kr)) iter ->
    (c + length iter = S n)%nat ->
    0 <= avg ->
    tot <= snd (update_balance_loop iter df n c avg tot)
    /\ snd (update_balance_loop iter df n c avg tot)
       <= tot + of_nat (length iter) * avg.
Proof.
  induction iter as [|[j r] rest IH]; intros df c avg tot Hpos Hc Havg.
  - cbn [update_balance_loop length snd]. rewrite of_nat_0. lra.
  - cbn [length] in Hc. cbn [update_balance_loop length].
    rewrite of_nat_S.
    unfold calculate_units_to_remove_from_purchase_order.
    inversion Hpos as [|? ? Hr Hrest]; subst. cbn [snd] in Hr.
    destruct (Qltb (Units r - avg) 0) eqn:E.
    + apply Qltb_lt in E.
      destruct rest as [|x rest'].
      * cbn [update_balance_loop length snd]. rewrite of_nat_0. lra.
      * assert (En : inject_Z (Z.of_nat n - Z.of_nat c)
                     = of_nat (length (x :: rest'))).
        { unfold of_nat. f_equal. cbn [length] in *. lia. }
        rewrite En.
        pose proof (of_nat_S_pos (length rest')) as Hm.
        change (S (length rest')) with (length (x :: rest')) in Hm.
        pose proof (cascade_step (Units r) avg _ Hm E) as Hstep.
        assert (Havg' : 0 <= avg + Qabs (Units r - avg)
                                  / of_nat (length (x :: rest'))).
        { rewrite Qabs_neg by lra.
          assert (0 <= - (Units r - avg) / of_nat (length (x :: rest'))).
          { apply Qle_shift_div_l; [exact Hm|]. lra. }
          lra. }
        destruct (IH (loc_Units j (fun u => u - Units r) df) (S c) _
                     (tot + Units r) Hrest
                     ltac:(cbn [length] in *; lia) Havg')
          as [Hlo Hhi].
        split; lra.
    + apply Qltb_ge in E.
      destruct (IH (loc_Units j (fun u => u - avg) df) (S c) avg
                   (tot + avg) Hrest ltac:(lia) Havg) as [Hlo Hhi].
      split; lra.
Qed.

Lemma update_balance_units_frame (df : DataFrame) (total : Q)
    (asset : string) :
  NoDup (map fst df) ->
  Forall (fun kr => Asset (snd kr) = asset) df ->
  Qsum (col_Units (fst (update_balance df df total asset)))
  == Qsum (col_Units df) - snd (update_balance df df total asset).
Proof.
  intros Hnd Hasset. unfold update_balance.
  rewrite filter_all
    by (eapply Forall_impl; [|exact Hasset];
        intros kr Hkr; now apply String.eqb_eq).
  destruct (update_balance_loop_frame (length df) df [] 1
              (total / of_nat (length df)) 0 Hnd)
    as [df' [Hdf [_ [Hpos Hsum]]]].
  cbn [app] in Hdf, Hsum.
  destruct (update_balance_loop df df _ _ _ _) as [out tot].
  cbn [fst snd] in *. subst out.
  rewrite col_Units_reset_index, Qsum_positive_Units by exact Hpos.
  rewrite Hsum. lra.
Qed.

(** X2.  On a frame of lots of one asset with distinct labels, visited in
    ascending units, [update_balance] asked for between zero and all of the
    units held returns exactly the requested total as units sold, leaves a
    frame holding that many units less, and keeps only lots with positive
    units. *)
Theorem update_balance_ascending_exact (df : DataFrame) (total : Q)
    (asset : string) :
  NoDup (map fst df) ->
  Forall (fun kr => Asset (snd kr) = asset) df ->
  StronglySorted units_le df ->
  0 <= total -> total <= Qsum (col_Units df) ->
  snd (update_balance df df total asset) == total
  /\ Qsum (col_Units (fst (update_balance df df total asset)))
     == Qsum (col_Units df) - total
  /\ positive_balance (fst (update_balance df df total asset)).
Proof.
  intros Hnd Hasset Hs H0 Hsum.
  pose proof (update_balance_conserves df total asset Hasset Hs H0 Hsum)
    as Htot.
  pose proof (update_balance_units_frame df total asset Hnd Hasset) as Hfr.
  split; [exact Htot|]. split.
  - rewrite Hfr, Htot. reflexivity.
  - apply update_balance_positive.
Qed.

(** X3.  In whatever order the lots are visited, [update_balance] asked for
    a non-negative total over lots with non-negative units never removes
    more than it is asked for and never adds units: the units sold lie
    between zero and the requested total, and the frame it returns holds
    exactly that many units less. *)
Theorem update_balance_removes_at_most (df : DataFrame) (total : Q)
    (asset : string) :
  NoDup (map fst df) ->
  Forall (fun kr => Asset (snd kr) = asset) df ->
  Forall (fun kr => 0 <= Units (snd kr)) df ->
  0 <= total ->
  0 <= snd (update_balance df df total asset)
  /\ snd (update_balance df df total asset) <= total
  /\ Qsum (col_Units (fst (update_balance df df total asset)))
     == Qsum (col_Units df) - snd (update_balance df df total asset).
Proof.
  intros Hnd Hasset Hpos H0.
  pose proof (update_balance_units_frame df total asset Hnd Hasset) as Hfr.
  split; [|split; [|exact Hfr]].
  all: unfold update_balance;
    rewrite filter_all
      by (eapply Forall_impl; [|exact Hasset];
          intros kr Hkr; now apply String.eqb_eq).
  all: destruct df as [|kr df0];
    [cbn [update_balance_loop snd]; lra|].
  all: pose proof (of_nat_S_pos (length df0)) as Hm;
    change (S (length df0)) with (length (kr :: df0)) in Hm.
  all: assert (Havg : 0 <= total / of_nat (length (kr :: df0)))
    by (apply Qle_shift_div_l; [exact Hm|lra]).
  all: destruct (update_balance_loop_bounds (length (kr :: df0)) (kr :: df0)
                   (kr :: df0) 1 (total / of_nat (length (kr :: df0))) 0
                   Hpos eq_refl Havg) as [Hlo Hhi].
  all: destruct (update_balance_loop (kr :: df0) (kr :: df0) _ _ _ _)
    as [out tot]; cbn [snd] in *.
  - exact Hlo.
  - assert (E : of_nat (length (kr :: df0))
                * (total / of_nat (length (kr :: df0))) == total)
      by (field; lra).
    lra.
Qed.

(** ** The consume-then-partial pass as a function *)

Lemma Qsum_Units_nonneg (df : DataFrame) :
  Forall (fun kr => 0 <= Units (snd kr)) df -> 0 <= Qsum (col_Units df).
Proof.
  induction 1 as [|kr df Hkr Hdf IH].
  - rewrite Qsum_Units_nil. lra.
  - rewrite Qsum_Units_cons. lra.
Qed.

Lemma XYFO_loop_sells_all (iter : DataFrame) :
  forall (df : DataFrame) (price u tot cg : Q),
    Forall (fun kr => 0 <= Units (snd kr)) iter ->
    Qsum (col_Units iter) <= u ->
    snd (fst (XYFO_loop iter df price u tot cg))
    == tot + Qsum (col_Units iter).
Proof.
  induction iter as [|[j r] rest IH]; intros df price u tot cg Hpos Hsum.
  - cbn [XYFO_loop fst snd]. rewrite Qsum_Units_nil. lra.
  - rewrite Qsum_Units_cons in *. cbn [snd] in *.
    inversion Hpos as [|? ? Hr Hrest]; subst. cbn [snd] in Hr.
    pose proof (Qsum_Units_nonneg rest Hrest) as Hnn.
    cbn [XYFO_loop].
    assert (E : Qle_bool (Units r) u = true) by (apply Qle_bool_iff; lra).
    rewrite E. rewrite IH; [lra | exact Hrest | lra].
Qed.

(** X4.  [tax_calculator_XYFO] sells the smaller of what is asked and what
    the lots hold: over lots with non-negative units and for a non-negative
    request, the units sold equal [min(selling_units, sum of units)]. *)
Theorem tax_calculator_XYFO_sells_min (cfg : Config) (df frame : DataFrame)
    (units price : Q) :
  Forall (fun kr => 0 <= Units (snd kr)) df ->
  0 <= units ->
  snd (tax_calculator_XYFO cfg units price frame df)
  == Qmin units (Qsum (col_Units df)).
Proof.
  intros Hpos H0. unfold tax_calculator_XYFO.
  pose proof (XYFO_loop_conserves df frame price units 0 0 H0) as Hle.
  pose proof (XYFO_loop_sells_all df frame price units 0 0 Hpos) as Hge.
  destruct (XYFO_loop df frame price units 0 0) as [[out tot] cg].
  cbn [fst snd] in *.
  destruct (Qlt_le_dec (Qsum (col_Units df)) units) as [Hlt|Hle'].
  - rewrite Q.min_r by lra. rewrite Hge; lra.
  - rewrite Q.min_l by exact Hle'. rewrite Hle; lra.
Qed.

Lemma Qsum_Value_cons (kr : nat * Row) (l : DataFrame) :
  Qsum (col_Value (kr :: l))
  = Units (snd kr) * Unit_Price (snd kr) + Qsum (col_Value l).
Proof. reflexivity. Qed.

Lemma Qsum_Value_nil : Qsum (col_Value []) = 0.
Proof. reflexivity. Qed.

Lemma col_Value_rows (df : DataFrame) :
  col_Value df = map (fun r => Units r * Unit_Price r) (rows df).
Proof. unfold col_Value, rows. now rewrite map_map. Qed.

Lemma Qsum_Value_positive_Units (df : DataFrame) :
  Forall (fun kr => 0 <= Units (snd kr)) df ->
  Qsum (col_Value (positive_Units df)) == Qsum (col_Value df).
Proof.
  induction 1 as [|kr df Hkr Hdf IH].
  - reflexivity.
  - unfold positive_Units in *. cbn [filter].
    destruct (Qltb 0 (Units (snd kr))) eqn:E.
    + rewrite !Qsum_Value_cons, IH. reflexivity.
    + apply Qltb_ge in E. rewrite Qsum_Value_cons, IH.
      assert (E0 : Units (snd kr) == 0) by lra. rewrite E0. lra.
Qed.

(** What the pass removes from the frame, lot by lot, is what it counts as
    sold and what it prices into the gain. *)
Lemma XYFO_loop_account (iter : DataFrame) :
  forall (done : DataFrame) (price u tot cg : Q),
    NoDup (map fst (done ++ iter)) ->
    Forall (fun kr => 0 <= Units (snd kr)) iter ->
    exists iter',
      fst (fst (XYFO_loop iter (done ++ iter) price u tot cg)) = done ++ iter'
      /\ Forall (fun kr => 0 <= Units (snd kr)) iter'
      /\ snd (XYFO_loop iter (done ++ iter) price u tot cg) - cg
         == (snd (fst (XYFO_loop iter (done ++ iter) price u tot cg)) - tot)
            * price
            - (Qsum (col_Value iter) - Qsum (col_Value iter')).
Proof.
  induction iter as [|[j r] rest IH]; intros done price u tot cg Hnd Hpos.
  - exists []. cbn [XYFO_loop fst snd].
    repeat split; try constructor. rewrite Qsum_Value_nil. lra.
  - cbn [XYFO_loop]. inversion Hpos as [|? ? Hr Hrest]; subst.
    cbn [snd] in Hr.
    destruct (Qle_bool (Units r) u) eqn:E.
    + rewrite (loc_Units_hit j _ done rest r Hnd).
      rewrite <- (labels_after_hit done rest j r (set_Units r 0)) in Hnd.
      destruct (IH _ price (u - Units r) (tot + Units r)
                  (cg + Units r * (price - Unit_Price r)) Hnd Hrest)
        as [iter' [Hdf [Hpos' Hacc]]].
      exists ((j, set_Units r 0) :: iter').
      split; [rewrite Hdf; now rewrite <- app_assoc|].
      split.
      * constructor; [|exact Hpos']. cbn [snd set_Units Units]. lra.
      * rewrite !Qsum_Value_cons.
        cbn [snd set_Units Units Unit_Price]. lra.
    + apply Qle_bool_gt in E.
      rewrite (loc_Units_hit j _ done rest r Hnd). cbn [fst snd].
      exists ((j, set_Units r (Units r - u)) :: rest).
      split; [now rewrite <- app_assoc|].
      split.
      * constructor; [|exact Hrest]. cbn [snd set_Units Units]. lra.
      * rewrite !Qsum_Value_cons.
        cbn [snd set_Units Units Unit_Price]. lra.
Qed.

(** X5.  The capital gain [tax_calculator_XYFO] reports is the proceeds of
    the units it sold minus the cost basis that left the frame: on lots with
    distinct labels and non-negative units,
    [capital_gain = units sold * selling price
                    - (value of the lots before - value of the lots kept)],
    where the value of a lot is units times unit price. *)
Theorem tax_calculator_XYFO_gain_is_proceeds_minus_cost (cfg : Config)
    (df : DataFrame) (units price : Q) :
  NoDup (map fst df) ->
  Forall (fun kr => 0 <= Units (snd kr)) df ->
  let '(capital_gain, _, updated, tot_units_sold) :=
    tax_calculator_XYFO cfg units price df df in
  capital_gain
  == tot_units_sold * price
     - (Qsum (col_Value df)
        - Qsum (col_Value (reset_index (positive_Units updated)))).
Proof.
  intros Hnd Hpos. unfold tax_calculator_XYFO.
  destruct (XYFO_loop_account df [] price units 0 0 Hnd Hpos)
    as [df' [Hdf [Hpos' Hacc]]].
  cbn [app] in Hdf, Hacc.
  destruct (XYFO_loop df df price units 0 0) as [[out tot] cg].
  cbn [fst snd] in *. subst out.
  rewrite !col_Value_rows, rows_reset_index, <- !col_Value_rows.
  rewrite Qsum_Value_positive_Units by exact Hpos'. lra.
Qed.

(** *** Which lots the pass touches *)

Lemma XYFO_loop_shape (iter : DataFrame) :
  forall (done : DataFrame) (price u tot cg : Q),
    NoDup (map fst (done ++ iter)) ->
    0 <= u ->
    exists consumed rest,
      iter = consumed ++ rest
      /\ Qsum (col_Units consumed) <= u
      /\ match rest with
         | [] =>
             fst (fst (XYFO_loop iter (done ++ iter) price u tot cg))
             = done ++ map zeroed consumed
         | (j, r) :: rest' =>
             exists remaining,
               remaining == u - Qsum (col_Units consumed)
               /\ remaining < Units r
               /\ fst (fst (XYFO_loop iter (done ++ iter) price u tot cg))
                  = done ++ map zeroed consumed
                    ++ (j, set_Units r (Units r - remaining)) :: rest'
         end.
Proof.
  induction iter as [|[j r] rest0 IH]; intros done price u tot cg Hnd H0.
  - exists [], []. cbn [XYFO_loop fst snd app map].
    rewrite Qsum_Units_nil. repeat split. exact H0.
  - cbn [XYFO_loop].
    destruct (Qle_bool (Units r) u) eqn:E.
    + apply Qle_bool_iff in E.
      rewrite (loc_Units_hit j _ done rest0 r Hnd).
      rewrite <- (labels_after_hit done rest0 j r (set_Units r 0)) in Hnd.
      destruct (IH _ price (u - Units r) (tot + Units r)
                  (cg + Units r * (price - Unit_Price r)) Hnd
                  ltac:(lra))
        as [consumed [rest [Hiter [Hsum Hshape]]]].
      exists ((j, r) :: consumed), rest.
      split; [now rewrite Hiter|].
      split; [rewrite Qsum_Units_cons; cbn [snd]; lra|].
      destruct rest as [|[k s] rest'].
      * rewrite Hshape. cbn [map]. now rewrite <- app_assoc.
      * destruct Hshape as [remaining [Hrem [Hlt Hframe]]].
        exists remaining. split; [|split; [exact Hlt|]].
        -- rewrite Qsum_Units_cons. cbn [snd]. lra.
        -- rewrite Hframe. cbn [map]. now rewrite <- app_assoc.
    + apply Qle_bool_gt in E.
      rewrite (loc_Units_hit j _ done rest0 r Hnd). cbn [fst snd].
      exists [], ((j, r) :: rest0).
      split; [reflexivity|].
      split; [rewrite Qsum_Units_nil; exact H0|].
      exists u. split; [rewrite Qsum_Units_nil; lra|].
      split; [exact E|]. cbn [map app]. now rewrite <- app_assoc.
Qed.

(** *** The working orders *)

Lemma StronglySorted_impl {A : Type} (R R' : A -> A -> Prop) (l : list A) :
  (forall a b, R a b -> R' a b) ->
  StronglySorted R l -> StronglySorted R' l.
Proof.
  intros Himp. induction 1 as [|a l Hs IH Hall]; constructor; auto.
  eapply Forall_impl; [|exact Hall]. intros b. apply Himp.
Qed.

Lemma StronglySorted_snoc {A : Type} (R : A -> A -> Prop) (l : list A)
    (x : A) :
  StronglySorted R l -> Forall (fun a => R a x) l ->
  StronglySorted R (l ++ [x]).
Proof.
  induction 1 as [|a l Hs IH Hall]; intro Hx; simpl.
  - repeat constructor.
  - inversion Hx; subst. constructor; [now apply IH|].
    apply Forall_app. split; [assumption|]. now constructor.
Qed.

Lemma StronglySorted_rev {A : Type} (R : A -> A -> Prop) (l : list A) :
  StronglySorted R l -> StronglySorted (fun a b => R b a) (rev l).
Proof.
  induction 1 as [|a l Hs IH Hall]; simpl.
  - constructor.
  - apply StronglySorted_snoc; [exact IH|].
    apply Forall_rev. exact Hall.
Qed.

Lemma StronglySorted_across {A : Type} (R : A -> A -> Prop)
    (front back : list A) :
  StronglySorted R (front ++ back) ->
  forall a b, In a front -> In b back -> R a b.
Proof.
  induction front as [|x front IH]; intros Hs a b Ha Hb.
  - destruct Ha.
  - simpl in Hs. inversion Hs as [|? ? Hs' Hall]; subst.
    destruct Ha as [<-|Ha].
    + rewrite Forall_forall in Hall. apply Hall, in_or_app. now right.
    + now apply IH.
Qed.

Lemma by_Date_total (x y : nat * Row) :
  by_Date x y = false -> by_Date y x = true.
Proof.
  unfold by_Date. intro H. apply Z.leb_gt in H. apply Z.leb_le. lia.
Qed.

Lemma by_Date_trans (x y z : nat * Row) :
  by_Date x y = true -> by_Date y z = true -> by_Date x z = true.
Proof.
  unfold by_Date. intros H1 H2. apply Z.leb_le in H1, H2.
  apply Z.leb_le. lia.
Qed.

Lemma by_Unit_Price_total (x y : nat * Row) :
  by_Unit_Price x y = false -> by_Unit_Price y x = true.
Proof.
  unfold by_Unit_Price. intro H. apply Qle_bool_gt in H.
  apply Qle_bool_iff. lra.
Qed.

Lemma by_Unit_Price_trans (x y z : nat * Row) :
  by_Unit_Price x y = true -> by_Unit_Price y z = true ->
  by_Unit_Price x z = true.
Proof.
  unfold by_Unit_Price. intros H1 H2. apply Qle_bool_iff in H1, H2.
  apply Qle_bool_iff. lra.
Qed.

Lemma XYFO_order_sorted (m : string) (df : DataFrame) :
  StronglySorted (consumed_first m) (XYFO_order m df).
Proof.
  unfold XYFO_order, consumed_first.
  destruct (String.eqb m "FIFO").
  - eapply StronglySorted_impl;
      [|apply (sort_by_sorted by_Date by_Date_total by_Date_trans)].
    intros a b H. now apply Z.leb_le.
  - destruct (String.eqb m "LIFO").
    + cbn [sort_values].
      eapply StronglySorted_impl;
        [|apply StronglySorted_rev,
            (sort_by_sorted by_Date by_Date_total by_Date_trans)].
      intros a b H. now apply Z.leb_le.
    + destruct (String.eqb m "HIFO").
      * cbn [sort_values].
        eapply StronglySorted_impl;
          [|apply StronglySorted_rev,
              (sort_by_sorted by_Unit_Price by_Unit_Price_total
                 by_Unit_Price_trans)].
        intros a b H. now apply Qle_bool_iff.
      * induction df as [|kr df IH]; constructor; auto.
        apply Forall_forall. intros. exact I.
Qed.

(** X6.  [tax_calculator_XYFO] on the working order of a method consumes
    lots strictly in that order.  The ordered lots split into the lots
    emptied and the lots after them; every emptied lot comes before every
    remaining one in the order of the method (older first for FIFO, younger
    first for LIFO, dearer first for HIFO); the first remaining lot, if
    any, keeps its units minus what was still to sell, and the lots after
    it are untouched. *)
Theorem XYFO_consumes_in_method_order (cfg : Config) (m : string)
    (df : DataFrame) (units price : Q) :
  NoDup (map fst df) ->
  0 <= units ->
  let ordered := XYFO_order m df in
  let '(_, _, updated, _) :=
    tax_calculator_XYFO cfg units price ordered ordered in
  exists consumed rest,
    ordered = consumed ++ rest
    /\ (forall a b, In a consumed -> In b rest -> consumed_first m a b)
    /\ Qsum (col_Units consumed) <= units
    /\ match rest with
       | [] => updated = map zeroed consumed
       | (j, r) :: rest' =>
           exists remaining,
             remaining == units - Qsum (col_Units consumed)
             /\ remaining < Units r
             /\ updated
                = map zeroed consumed
                  ++ (j, set_Units r (Units r - remaining)) :: rest'
       end.
Proof.
  intros Hnd H0 ordered.
  assert (Hnd' : NoDup (map fst ordered))
    by (apply (NoDup_labels_perm _ df); [apply XYFO_order_perm|exact Hnd]).
  pose proof (XYFO_order_sorted m df) as Hsorted. fold ordered in Hsorted.
  unfold tax_calculator_XYFO.
  destruct (XYFO_loop_shape ordered [] price units 0 0 Hnd' H0)
    as [consumed [rest [Hsplit [Hsum Hshape]]]].
  cbn [app] in Hshape.
  destruct (XYFO_loop ordered ordered price units 0 0) as [[out tot] cg].
  cbn [fst] in Hshape.
  exists consumed, rest. split; [exact Hsplit|].
  split; [apply StronglySorted_across; now rewrite <- Hsplit|].
  split; [exact Hsum|exact Hshape].
Qed.

(** ** The averaging pass on ascending lots takes a common level *)

Lemma update_balance_loop_level (n : nat) (iter : DataFrame) :
  forall (done : DataFrame) (c : nat) (avg tot : Q),
    NoDup (map fst (done ++ iter)) ->
    StronglySorted units_le iter ->
    (c + length iter = S n)%nat ->
    of_nat (length iter) * avg <= Qsum (col_Units iter) ->
    exists level iter',
      avg <= level
      /\ (Forall (fun kr => avg <= Units (snd kr)) iter -> level == avg)
      /\ fst (update_balance_loop iter (done ++ iter) n c avg tot)
         = done ++ iter'
      /\ Forall2 (levelled level) iter iter'.
Proof.
  induction iter as [|[j r] rest IH];
    intros done c avg tot Hnd Hs Hc Hsum.
  - exists avg, []. cbn [update_balance_loop fst].
    repeat split; try constructor; lra.
  - cbn [length] in Hc, Hsum. rewrite Qsum_Units_cons in Hsum.
    cbn [snd] in Hsum. rewrite of_nat_S in Hsum.
    cbn [update_balance_loop].
    unfold calculate_units_to_remove_from_purchase_order.
    inversion Hs as [|? ? Hs' Hall]; subst.
    destruct (Qltb (Units r - avg) 0) eqn:E.
    + apply Qltb_lt in E.
      destruct rest as [|x rest'].
      { cbn [length] in Hsum.
        rewrite of_nat_0, Qsum_Units_nil in Hsum. lra. }
      assert (En : inject_Z (Z.of_nat n - Z.of_nat c)
                   = of_nat (length (x :: rest'))).
      { unfold of_nat. f_equal. cbn [length] in *. lia. }
      rewrite En.
      pose proof (of_nat_S_pos (length rest')) as Hm.
      change (S (length rest')) with (length (x :: rest')) in Hm.
      pose proof (cascade_step (Units r) avg _ Hm E) as Hstep.
      set (avg' := avg + Qabs (Units r - avg) / of_nat (length (x :: rest')))
        in *.
      assert (Havg' : avg <= avg').
      { unfold avg'. rewrite Qabs_neg by lra.
        assert (0 <= - (Units r - avg) / of_nat (length (x :: rest'))).
        { apply Qle_shift_div_l; [exact Hm|]. lra. }
        lra. }
      rewrite (loc_Units_hit j _ done (x :: rest') r Hnd).
      rewrite <- (labels_after_hit done (x :: rest') j r
                    (set_Units r (Units r - Units r))) in Hnd.
      destruct (IH _ (S c) avg' (tot + Units r) Hnd Hs'
                  ltac:(cbn [length] in *; lia) ltac:(lra))
        as [level [iter' [Hlevel [_ [Hdf Hlots]]]]].
      exists level, ((j, set_Units r (Units r - Units r)) :: iter').
      split; [lra|]. split.
      * intro Hge. inversion Hge; subst. cbn [snd] in *. lra.
      * split; [rewrite Hdf; now rewrite <- app_assoc|].
        constructor; [|exact Hlots].
        split; [apply same_lot_set_Units|].
        cbn [snd set_Units Units]. rewrite Q.min_l by lra. reflexivity.
    + apply Qltb_ge in E.
      assert (Hge : Forall (fun kr => avg <= Units (snd kr)) rest).
      { eapply Forall_impl; [|exact Hall].
        intros kr Hkr. unfold units_le in Hkr. cbn [snd] in Hkr. lra. }
      rewrite (loc_Units_hit j _ done rest r Hnd).
      rewrite <- (labels_after_hit done rest j r
                    (set_Units r (Units r - avg))) in Hnd.
      destruct (IH _ (S c) avg (tot + avg) Hnd Hs' ltac:(lia)
                  (Qsum_lower_bound avg rest Hge))
        as [level [iter' [Hlevel [Heq [Hdf Hlots]]]]].
      specialize (Heq Hge).
      exists level, ((j, set_Units r (Units r - avg)) :: iter').
      split; [exact Hlevel|]. split; [intros _; exact Heq|].
      split; [rewrite Hdf; now rewrite <- app_assoc|].
      constructor; [|exact Hlots].
      split; [apply same_lot_set_Units|].
      cbn [snd set_Units Units]. rewrite Heq.
      rewrite Q.min_r by lra. reflexivity.
Qed.

Lemma levelled_sum (level : Q) (l l' : DataFrame) :
  Forall2 (levelled level) l l' ->
  Qsum (col_Units l')
  == Qsum (col_Units l)
     - Qsum (map (fun kr => Qmin (Units (snd kr)) level) l).
Proof.
  induction 1 as [|a b l l' [_ Hab] Hl IH].
  - reflexivity.
  - rewrite !Qsum_Units_cons. cbn [map Qsum fold_right].
    fold (Qsum (map (fun kr => Qmin (Units (snd kr)) level) l)).
    rewrite IH, Hab. lra.
Qed.

Lemma levelled_nonneg (level : Q) (l l' : DataFrame) :
  Forall2 (levelled level) l l' ->
  Forall (fun kr => 0 <= Units (snd kr)) l'.
Proof.
  induction 1 as [|a b l l' [_ Hab] Hl IH]; constructor; auto.
  rewrite Hab.
  pose proof (Q.le_min_l (Units (snd a)) level). lra.
Qed.

(** X7.  On lots of one asset in ascending units, the averaging pass takes a
    common level from every lot: there is a level, at least the first
    per-lot share [total / n], such that each lot loses [min(units, level)]
    units, so lots smaller than the level are emptied and all the others
    lose exactly the level; the amounts taken add up to the requested
    total, and the frame returned is what is left after dropping the
    emptied lots. *)
Theorem update_balance_takes_a_common_level (df : DataFrame) (total : Q)
    (asset : string) :
  NoDup (map fst df) ->
  Forall (fun kr => Asset (snd kr) = asset) df ->
  StronglySorted units_le df ->
  0 <= total -> total <= Qsum (col_Units df) ->
  exists level kept,
    total / of_nat (length df) <= level
    /\ Forall2 (levelled level) df kept
    /\ Qsum (map (fun kr => Qmin (Units (snd kr)) level) df) == total
    /\ fst (update_balance df df total asset)
       = reset_index (positive_Units kept).
Proof.
  intros Hnd Hasset Hs H0 Hsum.
  pose proof (update_balance_conserves df total asset Hasset Hs H0 Hsum)
    as Htot.
  pose proof (update_balance_units_frame df total asset Hnd Hasset) as Hfr.
  unfold update_balance in *.
  rewrite filter_all in *
    by (eapply Forall_impl; [|exact Hasset];
        intros kr Hkr; now apply String.eqb_eq).
  assert (Hbound : of_nat (length df) * (total / of_nat (length df))
                   <= Qsum (col_Units df)).
  { destruct df as [|kr df0].
    - cbn [length]. rewrite of_nat_0, Qsum_Units_nil. lra.
    - pose proof (of_nat_S_pos (length df0)) as Hm.
      change (S (length df0)) with (length (kr :: df0)) in Hm.
      assert (E : of_nat (length (kr :: df0))
                  * (total / of_nat (length (kr :: df0))) == total)
        by (field; lra).
      lra. }
  destruct (update_balance_loop_level (length df) df [] 1
              (total / of_nat (length df)) 0 Hnd Hs eq_refl Hbound)
    as [level [kept [Hlevel [_ [Hdf Hlots]]]]].
  cbn [app] in Hdf.
  destruct (update_balance_loop df df _ _ _ _) as [out tot].
  cbn [fst snd] in *. subst out.
  exists level, kept. split; [exact Hlevel|]. split; [exact Hlots|].
  split; [|reflexivity].
  pose proof (levelled_sum level df kept Hlots) as Hk.
  rewrite col_Units_reset_index in Hfr.
  rewrite Qsum_positive_Units in Hfr
    by (eapply levelled_nonneg; exact Hlots).
  lra.
Qed.

(** ** How a sale ends *)

Lemma is_XYFO_not_ACB (m : string) :
  is_XYFO m = true -> String.eqb m "ACB" = false.
Proof.
  unfold is_XYFO. intro H.
  apply orb_true_iff in H. destruct H as [H|H];
    [apply orb_true_iff in H; destruct H as [H|H]|];
    apply String.eqb_eq in H; subst; reflexivity.
Qed.

(** X8.  A sale event ends in exactly one of four ways, decided in this
    order.  It raises [TooManyUnits] exactly when the sold units exceed the
    units of the eligible lots, whatever the method.  Otherwise it succeeds
    under ACB; under FIFO, LIFO or HIFO it succeeds when
    [average_purchase_price] has been assigned and raises [NameError] when
    it has not; under any other method it raises [MethodNotImplemented]. *)
Theorem sale_outcome (cfg : Config) (txs : DataFrame) (st : State)
    (date : Z) (sell : nat * Row) (rest : DataFrame) :
  select_event Sell date txs = sell :: rest ->
  let held :=
    Qsum (col_Units (balance_asset (df_balance st) (Asset (snd sell)) date)) in
  let outcome := process_event cfg txs st (date, Sell) in
  (outcome = Raise TooManyUnits <-> held < Units (snd sell))
  /\ ((exists st', outcome = Ok st') <->
      Units (snd sell) <= held
      /\ (METHOD cfg = "ACB"%string
          \/ (is_XYFO (METHOD cfg) = true
              /\ average_purchase_price st <> None)))
  /\ (outcome = Raise NameError <->
      Units (snd sell) <= held
      /\ is_XYFO (METHOD cfg) = true
      /\ average_purchase_price st = None)
  /\ (outcome = Raise MethodNotImplemented <->
      Units (snd sell) <= held
      /\ METHOD cfg <> "ACB"%string
      /\ is_XYFO (METHOD cfg) = false)
  /\ outcome <> Raise IndexError.
Proof.
  intros E held outcome.
  assert (Hout : outcome = process_sell cfg txs st date) by reflexivity.
  unfold process_sell in Hout. rewrite E in Hout. fold held in Hout.
  destruct (Qle_bool (Units (snd sell)) held) eqn:Hle.
  - apply Qle_bool_iff in Hle.
    destruct (String.eqb (METHOD cfg) "ACB") eqn:Hacb.
    + apply String.eqb_eq in Hacb.
      assert (Hx : is_XYFO (METHOD cfg) = false) by (now rewrite Hacb).
      destruct (tax_calculator_ACB _ _ _ _) as [cg taxes].
      destruct (update_balance _ _ _ _) as [updated tot].
      rewrite Hout. settle_outcome.
    + apply String.eqb_neq in Hacb.
      destruct (is_XYFO (METHOD cfg)) eqn:Hx.
      * destruct (tax_calculator_XYFO _ _ _ _ _)
          as [[[cg taxes] updated] tot].
        destruct (average_purchase_price st) as [stale|] eqn:Havg;
          rewrite Hout; settle_outcome.
        right. split; congruence.
      * rewrite Hout. settle_outcome.
  - apply Qle_bool_gt in Hle. rewrite Hout. settle_outcome.
Qed.

(** ** Runs under FIFO, LIFO and HIFO *)

Lemma normalize_Type (cfg : Config) (t : Transaction) :
  Type_ (normalize cfg t) = Purchase
  \/ Type_ (normalize cfg t) = Sell
  \/ Type_ (normalize cfg t) = Swap.
Proof.
  unfold normalize. destruct (t_Type t); simpl; auto.
Qed.

Lemma load_Type (cfg : Config) (file : list Transaction) (kr : nat * Row) :
  In kr (load cfg file) ->
  Type_ (snd kr) = Purchase \/ Type_ (snd kr) = Sell
  \/ Type_ (snd kr) = Swap.
Proof.
  intro Hin.
  assert (Hr : In (snd kr) (rows (load cfg file)))
    by (apply in_rows; exists (fst kr); now destruct kr).
  unfold load in Hr. rewrite rows_with_range_index in Hr.
  apply in_map_iff in Hr. destruct Hr as [t [<- _]].
  apply normalize_Type.
Qed.

Lemma change_events_head (txs : DataFrame) (first : nat * Row)
    (others : DataFrame) :
  not_Purchase txs = first :: others ->
  exists events,
    change_events txs = (Date (snd first), Type_ (snd first)) :: events.
Proof.
  intro H. unfold change_events. rewrite H. simpl. eauto.
Qed.

Lemma XYFO_first_sale_fails (cfg : Config) (txs : DataFrame) (date : Z)
    (st : State) :
  is_XYFO (METHOD cfg) = true ->
  average_purchase_price st = None ->
  forall st', process_sell cfg txs st date <> Ok st'.
Proof.
  intros Hx Havg st'. unfold process_sell.
  destruct (select_event Sell date txs) as [|sell rest]; try discriminate.
  destruct (Qle_bool _ _); try discriminate.
  rewrite (is_XYFO_not_ACB _ Hx), Hx.
  destruct (tax_calculator_XYFO _ _ _ _ _) as [[[cg taxes] updated] tot].
  rewrite Havg. discriminate.
Qed.

(** X9.  Under FIFO, LIFO or HIFO a run can only complete if its first
    event is a swap: a first event that is a sale stops the script, because
    the record of a sale reads [average_purchase_price], which under these
    methods only a swap assigns. *)
Theorem XYFO_run_starts_with_a_swap (cfg : Config) (file : list Transaction)
    (out : Output) :
  is_XYFO (METHOD cfg) = true ->
  run cfg file = Ok out ->
  exists date events,
    change_events (load cfg file) = (date, Swap) :: events.
Proof.
  intros Hx. unfold run.
  destruct (not_Purchase (load cfg file)) as [|first others] eqn:Hnp;
    try discriminate.
  destruct (filter _ (df_purchase (load cfg file))); try discriminate.
  destruct (change_events_head _ _ _ Hnp) as [events Hev]. rewrite Hev.
  assert (Hin : In first (not_Purchase (load cfg file)))
    by (rewrite Hnp; simpl; auto).
  unfold not_Purchase in Hin. apply filter_In in Hin.
  destruct Hin as [Hin Hty].
  destruct (load_Type cfg file first Hin) as [Ht|[Ht|Ht]]; rewrite Ht in *.
  - discriminate.
  - cbn [event_loop process_event snd fst].
    destruct (process_sell cfg (load cfg file)
                (initial_state (load cfg file)) (Date (snd first)))
      as [st1|e] eqn:E; [|discriminate].
    exfalso.
    exact (XYFO_first_sale_fails cfg (load cfg file) (Date (snd first))
             (initial_state (load cfg file)) Hx eq_refl st1 E).
  - intros _. eauto.
Qed.

Lemma XYFO_sale_keeps_average (cfg : Config) (txs : DataFrame)
    (st st' : State) (date : Z) :
  is_XYFO (METHOD cfg) = true ->
  process_sell cfg txs st date = Ok st' ->
  average_purchase_price st' = average_purchase_price st
  /\ exists r,
      sales_taxes st' = sales_taxes st ++ [r]
      /\ Some (Average_Unit_Price r)
         = option_map round2 (average_purchase_price st).
Proof.
  intros Hx. unfold process_sell.
  destruct (select_event Sell date txs) as [|sell rest]; try discriminate.
  destruct (Qle_bool _ _); try discriminate.
  rewrite (is_XYFO_not_ACB _ Hx), Hx.
  destruct (tax_calculator_XYFO _ _ _ _ _) as [[[cg taxes] updated] tot].
  destruct (average_purchase_price st) as [stale|]; try discriminate.
  intro H. injection H as <-. simpl. split; [reflexivity|].
  eexists. split; reflexivity.
Qed.

(** X10.  Under FIFO, LIFO or HIFO the average unit price written into a
    sale record does not come from the sale: a sequence of sales leaves
    [average_purchase_price] as it found it, and each of their records
    carries that one value rounded to two decimals (the unit price derived
    by the last swap), whatever asset was sold and whatever lots were
    consumed. *)
Theorem XYFO_sales_report_the_stale_average (cfg : Config) (txs : DataFrame)
    (events : list (Z * TxType)) :
  is_XYFO (METHOD cfg) = true ->
  Forall (fun change => snd change = Sell) events ->
  forall st st',
    event_loop cfg txs st events = Ok st' ->
    average_purchase_price st' = average_purchase_price st
    /\ exists records,
        sales_taxes st' = sales_taxes st ++ records
        /\ length records = length events
        /\ Forall (fun r => Some (Average_Unit_Price r)
                            = option_map round2 (average_purchase_price st))
                  records.
Proof.
  intros Hx Hev. induction Hev as [|change events Hc Hev IH];
    intros st st'; simpl.
  - intro H. injection H as <-. split; [reflexivity|].
    exists []. rewrite app_nil_r. repeat split. constructor.
  - unfold process_event. rewrite Hc.
    destruct (process_sell cfg txs st (fst change)) as [st1|e] eqn:E;
      try discriminate.
    intro H.
    destruct (XYFO_sale_keeps_average cfg txs st st1 _ Hx E)
      as [Havg [r [Hr Hround]]].
    destruct (IH st1 st' H) as [Havg' [records [Hrec [Hlen Hall]]]].
    split; [congruence|].
    exists (r :: records). split; [|split].
    + rewrite Hrec, Hr, <- app_assoc. reflexivity.
    + simpl. now rewrite Hlen.
    + constructor; [exact Hround|]. now rewrite <- Havg.
Qed.

(** ** Sale records and sale rows *)

Lemma event_loop_record_count (cfg : Config) (txs : DataFrame)
    (events : list (Z * TxType)) :
  forall st st',
    event_loop cfg txs st events = Ok st' ->
    length (sales_taxes st')
    = (length (sales_taxes st)
       + length (filter (fun change => is_Sell (snd change)) events))%nat.
Proof.
  induction events as [|change events IH]; intros st st'; simpl.
  - intro H. injection H as <-. lia.
  - destruct (process_event cfg txs st change) as [st1|e] eqn:E;
      try discriminate.
    intro H. rewrite (IH st1 st' H). unfold process_event in E.
    destruct (snd change) eqn:Hty; simpl;
      try (injection E as <-; lia).
    + apply process_sell_record in E. destruct E as [r [-> _]].
      rewrite length_app. simpl. lia.
    + apply process_swap_sales_taxes in E. rewrite E. lia.
Qed.

Lemma event_eqb_eq (a b : Z * TxType) : event_eqb a b = true <-> a = b.
Proof.
  destruct a as [d1 t1], b as [d2 t2]. unfold event_eqb. simpl.
  rewrite andb_true_iff, Z.eqb_eq. split.
  - intros [-> H]. f_equal. destruct t1, t2; simpl in H; congruence.
  - intro H. injection H as -> ->. split; [reflexivity|].
    destruct t2; reflexivity.
Qed.

Lemma seen_iff (x : Z * TxType) (seen : list (Z * TxType)) :
  existsb (event_eqb x) seen = true <-> In x seen.
Proof.
  rewrite existsb_exists. split.
  - intros [y [Hin E]]. apply event_eqb_eq in E. now subst.
  - intro H. exists x. split; [exact H|]. now apply event_eqb_eq.
Qed.

Lemma drop_duplicates_length (seen l : list (Z * TxType)) :
  (length (drop_duplicates seen l) <= length l)%nat.
Proof.
  revert seen. induction l as [|x l IH]; intro seen; simpl.
  - lia.
  - destruct (existsb (event_eqb x) seen); simpl.
    + specialize (IH seen). lia.
    + specialize (IH (x :: seen)). lia.
Qed.

Lemma drop_duplicates_filter (p : Z * TxType -> bool)
    (seen l : list (Z * TxType)) :
  filter p (drop_duplicates seen l)
  = drop_duplicates (filter p seen) (filter p l).
Proof.
  revert seen. induction l as [|x l IH]; intro seen; simpl.
  - reflexivity.
  - destruct (existsb (event_eqb x) seen) eqn:Es.
    + destruct (p x) eqn:Ep; [|apply IH].
      simpl.
      assert (E : existsb (event_eqb x) (filter p seen) = true).
      { apply seen_iff. apply filter_In. split; [|exact Ep].
        now apply seen_iff. }
      rewrite E. apply IH.
    + simpl. destruct (p x) eqn:Ep.
      * simpl.
        assert (E : existsb (event_eqb x) (filter p seen) = false).
        { destruct (existsb (event_eqb x) (filter p seen)) eqn:E';
            [|reflexivity].
          apply seen_iff, filter_In in E'. destruct E' as [Hin _].
          apply seen_iff in Hin. congruence. }
        rewrite E. f_equal. rewrite IH. simpl. now rewrite Ep.
      * rewrite IH. simpl. now rewrite Ep.
Qed.

Lemma drop_duplicates_NoDup_id (seen l : list (Z * TxType)) :
  NoDup l -> (forall x, In x l -> ~ In x seen) ->
  drop_duplicates seen l = l.
Proof.
  revert seen. induction l as [|x l IH]; intros seen Hnd Hseen; simpl.
  - reflexivity.
  - inversion Hnd as [|? ? Hnot Hnd']; subst.
    destruct (existsb (event_eqb x) seen) eqn:Es.
    + apply seen_iff in Es. exfalso. apply (Hseen x); simpl; auto.
    + f_equal. apply IH; [exact Hnd'|].
      intros y Hy [<-|Hin]; [contradiction|].
      apply (Hseen y); simpl; auto.
Qed.

Lemma filter_filter_sub {A : Type} (p q : A -> bool) (l : list A) :
  (forall x, p x = true -> q x = true) ->
  filter p (filter q l) = filter p l.
Proof.
  intro H. induction l as [|x l IH]; simpl.
  - reflexivity.
  - destruct (q x) eqn:Eq; simpl.
    + destruct (p x); now rewrite IH.
    + destruct (p x) eqn:Ep; [|exact IH].
      apply H in Ep. congruence.
Qed.

Lemma filter_map_swap {A B : Type} (f : A -> B) (p : B -> bool)
    (l : list A) :
  filter p (map f l) = map f (filter (fun x => p (f x)) l).
Proof.
  induction l as [|x l IH]; simpl.
  - reflexivity.
  - destruct (p (f x)); simpl; now rewrite IH.
Qed.

Lemma sale_rows_of_load (cfg : Config) (file : list Transaction) :
  rows (filter (fun kr => is_Sell (Type_ (snd kr))) (load cfg file))
  = map (normalize cfg) (filter (fun t => is_Sell (t_Type t)) file).
Proof.
  rewrite (rows_filter (fun r => is_Sell (Type_ r))).
  unfold load. rewrite rows_with_range_index, filter_map_swap.
  f_equal. apply filter_ext. intro t.
  unfold normalize. destruct (t_Type t); reflexivity.
Qed.

Lemma sale_events_of_load (cfg : Config) (file : list Transaction) :
  filter (fun change => is_Sell (snd change))
         (map (fun kr => (Date (snd kr), Type_ (snd kr)))
              (not_Purchase (load cfg file)))
  = map (fun t => (t_Date t, Sell))
        (filter (fun t => is_Sell (t_Type t)) file).
Proof.
  rewrite filter_map_swap. cbn [snd].
  unfold not_Purchase.
  rewrite (filter_filter_sub
             (fun kr : nat * Row => is_Sell (Type_ (snd kr)))).
  2:{ intros kr H. destruct (Type_ (snd kr)); simpl in *; congruence. }
  assert (Hrows : forall df : DataFrame,
             map (fun kr => (Date (snd kr), Type_ (snd kr))) df
             = map (fun r => (Date r, Type_ r)) (rows df))
    by (intro df; unfold rows; now rewrite map_map).
  rewrite Hrows, sale_rows_of_load, map_map.
  apply map_ext_in. intros t Ht. apply filter_In in Ht.
  destruct Ht as [_ Ht]. unfold normalize.
  destruct (t_Type t); simpl in *; congruence.
Qed.

Lemma NoDup_tagged (ty : TxType) (dates : list Z) :
  NoDup dates -> NoDup (map (fun d => (d, ty)) dates).
Proof.
  induction 1 as [|d dates Hnot Hnd IH]; simpl; constructor; auto.
  intro Hin. apply in_map_iff in Hin. destruct Hin as [d' [E Hd']].
  injection E as ->. contradiction.
Qed.

Lemma join_records_total {A B : Type} (left : list A) (records : list B) :
  (length left <= length records)%nat ->
  Forall (fun p => snd p <> None) (join_records left records).
Proof.
  revert records. induction left as [|a left IH]; intros records H; simpl.
  - constructor.
  - destruct records as [|b records]; simpl in H; [lia|].
    constructor; [discriminate|]. apply IH. lia.
Qed.

(** X11.  A completed run holds exactly one tax record per sale event, and
    swaps add none.  Sale events are distinct timestamps, so there are never
    more records than sale rows; when the sales of the log carry pairwise
    distinct timestamps there are as many, and joining the sale rows with
    the records by position gives every sale row a record. *)
Theorem one_record_per_sale_event (cfg : Config) (file : list Transaction)
    (out : Output) :
  run cfg file = Ok out ->
  length (out_sales_taxes out)
  = length (filter (fun change => is_Sell (snd change))
                   (change_events (load cfg file)))
  /\ (length (out_sales_taxes out)
      <= length (df_sales (load cfg file)))%nat
  /\ (NoDup (map t_Date (filter (fun t => is_Sell (t_Type t)) file)) ->
      length (out_sales_taxes out) = length (df_sales (load cfg file))
      /\ Forall (fun p => snd p <> None)
                (df_sales_tax (load cfg file) (out_sales_taxes out))).
Proof.
  unfold run.
  destruct (not_Purchase (load cfg file)) as [|first others] eqn:Hnp;
    try discriminate.
  destruct (filter _ (df_purchase (load cfg file))); try discriminate.
  destruct (event_loop _ _ _ _) as [st|e] eqn:E; try discriminate.
  intro H. injection H as <-. cbn [out_sales_taxes].
  pose proof (event_loop_record_count _ _ _ _ _ E) as Hcount.
  cbn [initial_state sales_taxes length Nat.add] in Hcount.
  assert (Hsales : length (df_sales (load cfg file))
                   = length (filter (fun t => is_Sell (t_Type t)) file)).
  { rewrite <- (length_map snd). fold (rows (df_sales (load cfg file))).
    unfold df_sales. rewrite rows_reset_index, sale_rows_of_load.
    apply length_map. }
  assert (Hev : filter (fun change => is_Sell (snd change))
                       (change_events (load cfg file))
                = drop_duplicates []
                    (map (fun t => (t_Date t, Sell))
                         (filter (fun t => is_Sell (t_Type t)) file))).
  { unfold change_events. rewrite drop_duplicates_filter.
    cbn [filter]. now rewrite sale_events_of_load. }
  split; [exact Hcount|]. split.
  - rewrite Hcount, Hev, Hsales.
    eapply Nat.le_trans; [apply drop_duplicates_length|].
    now rewrite length_map.
  - intro Hnd.
    assert (Hlen : length (sales_taxes st)
                   = length (df_sales (load cfg file))).
    { rewrite Hcount, Hev, Hsales.
      rewrite drop_duplicates_NoDup_id; [apply length_map| |auto].
      rewrite <- (map_map t_Date (fun d => (d, Sell))).
      now apply NoDup_tagged. }
    split; [exact Hlen|].
    unfold df_sales_tax. apply join_records_total.
    unfold rows. rewrite length_map. lia.
Qed.

(** ** The ledger after a sale or a swap *)

Lemma process_event_balance (cfg : Config) (txs : DataFrame)
    (st st' : State) (date : Z) (ty : TxType) (first : nat * Row)
    (rest : DataFrame) :
  ty = Sell \/ ty = Swap ->
  select_event ty date txs = first :: rest ->
  process_event cfg txs st (date, ty) = Ok st' ->
  exists updated,
    df_balance st'
    = rebuild_balance updated (df_balance st) (Asset (snd first)) date.
Proof.
  intros [->| ->] E H.
  - exact (process_sell_balance cfg txs st st' date first rest E H).
  - change (process_swap txs st date = Ok st') in H.
    apply process_swap_inv in H.
    destruct H as [asset_out [asset_in [rest' [E' Hst]]]].
    rewrite E in E'. injection E' as <- _. cbv zeta in Hst. subst st'.
    cbn [df_balance]. eauto.
Qed.

Lemma StronglySorted_map {A B : Type} (f : A -> B) (R : B -> B -> Prop)
    (l : list A) :
  StronglySorted (fun a b => R (f a) (f b)) l ->
  StronglySorted R (map f l).
Proof.
  induction 1 as [|a l Hs IH Hall]; simpl; constructor; auto.
  apply Forall_map. exact Hall.
Qed.

Lemma rebuild_balance_sorted (updated balance : DataFrame) (asset : string)
    (date : Z) :
  StronglySorted (fun a b => (Date a <= Date b)%Z)
                 (rows (rebuild_balance updated balance asset date)).
Proof.
  unfold rebuild_balance. rewrite rows_reset_index. unfold rows.
  apply StronglySorted_map. cbn [sort_values].
  eapply StronglySorted_impl;
    [|apply (sort_by_sorted by_Date by_Date_total by_Date_trans)].
  intros a b H. now apply Z.leb_le.
Qed.

Lemma reset_index_range (df : DataFrame) :
  map fst (reset_index df) = seq 0 (length (reset_index df)).
Proof.
  unfold reset_index, with_range_index.
  rewrite labels_combine_seq. f_equal.
  rewrite length_combine, length_seq. lia.
Qed.

(** X12.  After every successful sale or swap the ledger is in date order
    and carries the labels 0, 1, 2, ... in that order: each event ends by
    sorting the re-assembled ledger by date and renumbering it. *)
Theorem ledger_sorted_and_renumbered (cfg : Config) (txs : DataFrame)
    (st st' : State) (date : Z) (ty : TxType) :
  ty = Sell \/ ty = Swap ->
  process_event cfg txs st (date, ty) = Ok st' ->
  StronglySorted (fun a b => (Date a <= Date b)%Z) (rows (df_balance st'))
  /\ map fst (df_balance st') = seq 0 (length (df_balance st')).
Proof.
  intros Hty H.
  destruct (select_event ty date txs) as [|first rest] eqn:E.
  - exfalso. destruct Hty as [-> | ->].
    + change (process_sell cfg txs st date = Ok st') in H.
      unfold process_sell in H. rewrite E in H. discriminate.
    + change (process_swap txs st date = Ok st') in H.
      unfold process_swap in H. rewrite E in H. discriminate.
  - destruct (process_event_balance cfg txs st st' date ty first rest
                Hty E H) as [updated ->].
    split; [apply rebuild_balance_sorted|].
    unfold rebuild_balance. apply reset_index_range.
Qed.

(** X13.  A successful sale or swap leaves untouched every lot of another
    asset dated strictly before the event and every lot, of any asset,
    dated strictly after it: each of them is still in the ledger with the
    same units, price, currency and date. *)
Theorem disposal_keeps_lots_off_the_event_date (cfg : Config)
    (txs : DataFrame) (st st' : State) (date : Z) (ty : TxType)
    (first : nat * Row) (rest : DataFrame) (kr : nat * Row) :
  ty = Sell \/ ty = Swap ->
  select_event ty date txs = first :: rest ->
  process_event cfg txs st (date, ty) = Ok st' ->
  In kr (df_balance st) ->
  (Asset (snd kr) <> Asset (snd first) /\ (Date (snd kr) < date)%Z)
  \/ (date < Date (snd kr))%Z ->
  In (snd kr) (rows (df_balance st')).
Proof.
  intros Hty E H Hin Hcase.
  destruct (process_event_balance cfg txs st st' date ty first rest Hty E H)
    as [updated ->].
  eapply Permutation_in; [apply Permutation_sym, rebuild_balance_rows|].
  apply in_or_app. right. apply in_or_app.
  destruct Hcase as [[Ha Hd]|Hd]; [left|right]; apply in_map, filter_In;
    (split; [exact Hin|]).
  - apply andb_true_iff. split.
    + apply negb_true_iff, String.eqb_neq. exact Ha.
    + now apply Z.ltb_lt.
  - now apply Z.ltb_lt.
Qed.

(** ** Eligible lots *)


Lemma loc_Units_keeps_eligible (asset : string) (date : Z) (j : nat)
    (f : Q -> Q) (df : DataFrame) :
  Forall (fun kr => eligible_row asset date (snd kr) = true) df ->
  Forall (fun kr => eligible_row asset date (snd kr) = true)
         (loc_Units j f df).
Proof.
  intro H. unfold loc_Units. apply Forall_map.
  eapply Forall_impl; [|exact H]. intros kr Hkr.
  destruct (Nat.eqb (fst kr) j); exact Hkr.
Qed.

Lemma update_balance_loop_keeps_eligible (asset : string) (date : Z)
    (n : nat) (iter : DataFrame) :
  forall (df : DataFrame) (c : nat) (avg tot : Q),
    Forall (fun kr => eligible_row asset date (snd kr) = true) df ->
    Forall (fun kr => eligible_row asset date (snd kr) = true)
           (fst (update_balance_loop iter df n c avg tot)).
Proof.
  induction iter as [|[j r] rest IH]; intros df c avg tot H.
  - exact H.
  - cbn [update_balance_loop].
    destruct (calculate_units_to_remove_from_purchase_order _ _ _ _)
      as [u avg'].
    apply IH. now apply loc_Units_keeps_eligible.
Qed.

Lemma XYFO_loop_keeps_eligible (asset : string) (date : Z)
    (iter : DataFrame) :
  forall (df : DataFrame) (price u tot cg : Q),
    Forall (fun kr => eligible_row asset date (snd kr) = true) df ->
    Forall (fun kr => eligible_row asset date (snd kr) = true)
           (fst (fst (XYFO_loop iter df price u tot cg))).
Proof.
  induction iter as [|[j r] rest IH]; intros df price u tot cg H.
  - exact H.
  - cbn [XYFO_loop]. destruct (Qle_bool (Units r) u).
    + apply IH. now apply loc_Units_keeps_eligible.
    + cbn [fst]. now apply loc_Units_keeps_eligible.
Qed.

Lemma eligible_before (asset : string) (date : Z) (r : Row) :
  eligible_row asset date r = true -> (Date r < date)%Z.
Proof.
  unfold eligible_row. intro H. apply andb_true_iff in H.
  now apply Z.ltb_lt.
Qed.

Lemma rebuild_balance_dates (updated balance : DataFrame) (asset : string)
    (date : Z) (r : Row) :
  In r (rows (rebuild_balance updated balance asset date)) ->
  Date r = date -> In r (rows updated).
Proof.
  intros Hin Hd.
  apply (Permutation_in _ (rebuild_balance_rows _ _ _ _)) in Hin.
  apply in_app_or in Hin. destruct Hin as [Hin|Hin]; [exact Hin|].
  exfalso. apply in_app_or in Hin. destruct Hin as [Hin|Hin].
  - unfold balance_other_previous_assets in Hin.
    rewrite (rows_filter (fun r => negb (String.eqb (Asset r) asset)
                                   && (Date r <? date)%Z)) in Hin.
    apply filter_In in Hin. destruct Hin as [_ H].
    apply andb_true_iff in H. destruct H as [_ H].
    apply Z.ltb_lt in H. lia.
  - unfold balance_later in Hin.
    rewrite (rows_filter (fun r => (date <? Date r)%Z)) in Hin.
    apply filter_In in Hin. destruct Hin as [_ H].
    apply Z.ltb_lt in H. lia.
Qed.

(** X14.  Nothing dated at the timestamp of an event survives it, except
    the lot a swap inserts: after a successful sale no ledger lot carries
    the date of the sale, and after a successful swap the only ledger lot
    carrying its date is the new lot of the received asset.  A lot acquired
    at the very timestamp of the event, of any asset, is dropped. *)
Theorem only_the_swap_lot_is_dated_at_the_event (cfg : Config)
    (txs : DataFrame) (st st' : State) (date : Z) (ty : TxType) (r : Row) :
  ty = Sell \/ ty = Swap ->
  process_event cfg txs st (date, ty) = Ok st' ->
  In r (rows (df_balance st')) ->
  Date r = date ->
  ty = Swap
  /\ exists asset_out asset_in rest,
      select_event Swap date txs = asset_out :: asset_in :: rest
      /\ r = snd (swap_in_row asset_in
                    (pooled_average
                       (balance_asset (df_balance st)
                                      (Asset (snd asset_out)) date)
                     * Units (snd asset_out) / Units (snd asset_in))).
Proof.
  intros [-> | ->] H Hin Hd.
  - exfalso.
    change (process_sell cfg txs st date = Ok st') in H.
    unfold process_sell in H.
    destruct (select_event Sell date txs) as [|sell rest]; try discriminate.
    destruct (Qle_bool _ _); try discriminate.
    pose proof (balance_asset_eligible (df_balance st) (Asset (snd sell))
                  date) as Hel.
    destruct (String.eqb (METHOD cfg) "ACB").
    + destruct (tax_calculator_ACB _ _ _ _) as [cg taxes].
      assert (Hord : Forall (fun kr => eligible_row (Asset (snd sell)) date
                                         (snd kr) = true)
                            (sort_values by_Units true
                               (balance_asset (df_balance st)
                                  (Asset (snd sell)) date)))
        by (eapply Permutation_Forall;
            [apply Permutation_sym, sort_values_perm|exact Hel]).
      unfold update_balance in H.
      pose proof (fun iter n c avg tot =>
                    update_balance_loop_keeps_eligible
                      (Asset (snd sell)) date n iter _ c avg tot Hord)
        as Hkeep.
      match type of H with
      | context [update_balance_loop ?i ?d ?n ?c ?a ?t] =>
          specialize (Hkeep i n c a t);
          destruct (update_balance_loop i d n c a t) as [out tot]
      end.
      cbn [fst] in Hkeep. injection H as <-. cbn [df_balance] in Hin.
      apply rebuild_balance_dates in Hin; [|exact Hd].
      apply eligible_kept in Hkeep. rewrite Forall_forall in Hkeep.
      apply Hkeep, eligible_before in Hin. lia.
    + destruct (is_XYFO (METHOD cfg)); try discriminate.
      assert (Hord : Forall (fun kr => eligible_row (Asset (snd sell)) date
                                         (snd kr) = true)
                            (XYFO_order (METHOD cfg)
                               (balance_asset (df_balance st)
                                  (Asset (snd sell)) date)))
        by (eapply Permutation_Forall;
            [apply Permutation_sym, XYFO_order_perm|exact Hel]).
      unfold tax_calculator_XYFO in H.
      pose proof (fun iter price u tot cg =>
                    XYFO_loop_keeps_eligible
                      (Asset (snd sell)) date iter _ price u tot cg Hord)
        as Hkeep.
      match type of H with
      | context [XYFO_loop ?i ?d ?p ?u ?t ?c] =>
          specialize (Hkeep i p u t c);
          destruct (XYFO_loop i d p u t c) as [[out tot] cg]
      end.
      cbn [fst] in Hkeep.
      destruct (average_purchase_price st); try discriminate.
      injection H as <-. cbn [df_balance] in Hin.
      apply rebuild_balance_dates in Hin; [|exact Hd].
      apply eligible_kept in Hkeep. rewrite Forall_forall in Hkeep.
      apply Hkeep, eligible_before in Hin. lia.
  - split; [reflexivity|].
    change (process_swap txs st date = Ok st') in H.
    apply process_swap_inv in H.
    destruct H as [asset_out [asset_in [rest [E Hst]]]].
    exists asset_out, asset_in, rest. split; [exact E|].
    cbv zeta in Hst. subst st'. cbn [df_balance] in Hin.
    apply rebuild_balance_dates in Hin; [|exact Hd].
    rewrite rows_reset_index, rows_app in Hin.
    apply in_app_or in Hin. destruct Hin as [Hin|Hin].
    + exfalso.
      pose proof (balance_asset_eligible (df_balance st)
                    (Asset (snd asset_out)) date) as Hel.
      unfold update_balance in Hin.
      pose proof (fun iter n c avg tot =>
                    update_balance_loop_keeps_eligible
                      (Asset (snd asset_out)) date n iter _ c avg tot Hel)
        as Hkeep.
      match type of Hin with
      | context [update_balance_loop ?i ?d ?n ?c ?a ?t] =>
          specialize (Hkeep i n c a t);
          destruct (update_balance_loop i d n c a t) as [out tot]
      end.
      cbn [fst] in Hkeep, Hin.
      apply eligible_kept in Hkeep. rewrite Forall_forall in Hkeep.
      apply Hkeep, eligible_before in Hin. lia.
    + destruct Hin as [<-|[]]. reflexivity.
Qed.

(** ** What a swap hands over *)

(** X15.  A swap for a non-zero number of units carries the average cost of
    what was given away over to what was received: the new lot holds the
    received units, is dated at the swap, is denominated in "EUR", and its
    value (units times unit price) equals the units given away times the
    pooled average price of the eligible lots of the asset given away; its
    unit price is also what [average_purchase_price] holds afterwards. *)
Theorem swap_carries_the_average_cost (cfg : Config) (txs : DataFrame)
    (st st' : State) (date : Z) (asset_out asset_in : nat * Row)
    (rest : DataFrame) :
  select_event Swap date txs = asset_out :: asset_in :: rest ->
  ~ Units (snd asset_in) == 0 ->
  process_event cfg txs st (date, Swap) = Ok st' ->
  exists lot,
    In lot (rows (df_balance st'))
    /\ Asset lot = Asset (snd asset_in)
    /\ Date lot = date
    /\ Units lot = Units (snd asset_in)
    /\ Currency lot = "EUR"%string
    /\ Units lot * Unit_Price lot
       == Units (snd asset_out)
          * pooled_average
              (balance_asset (df_balance st) (Asset (snd asset_out)) date)
    /\ average_purchase_price st' = Some (Unit_Price lot).
Proof.
  intros E Hin H.
  change (process_swap txs st date = Ok st') in H.
  pose proof (swap_in_row_inserted txs st st' date H) as Hlot.
  apply process_swap_inv in H.
  destruct H as [out' [in' [rest' [E' Hst]]]].
  destruct Hlot as [out'' [in'' [rest'' [E'' Hlot]]]].
  rewrite E in E', E''. injection E' as <- <- _. injection E'' as <- <- _.
  cbv zeta in Hst. subst st'.
  eexists. split; [exact Hlot|].
  cbn [Asset Date Units Currency Unit_Price average_purchase_price].
  repeat split. field. exact Hin.
Qed.

(** ** The pooled average *)

Lemma Qsum_Value_bounds (lo hi : Q) (df : DataFrame) :
  Forall (fun kr => 0 <= Units (snd kr)) df ->
  Forall (fun kr => lo <= Unit_Price (snd kr) /\ Unit_Price (snd kr) <= hi)
         df ->
  lo * Qsum (col_Units df) <= Qsum (col_Value df)
  /\ Qsum (col_Value df) <= hi * Qsum (col_Units df).
Proof.
  induction 1 as [|kr df Hkr Hdf IH]; intro Hp.
  - rewrite Qsum_Units_nil, Qsum_Value_nil. lra.
  - inversion Hp as [|? ? [Hlo Hhi] Hp']; subst.
    destruct (IH Hp') as [IHlo IHhi].
    rewrite Qsum_Units_cons, Qsum_Value_cons. split; nra.
Qed.

(** X16.  The pooled average price used by ACB sales and by swaps is a
    weighted mean: over lots that hold positive units in total and no
    negative units, it lies between the lowest and the highest unit price
    of the lots. *)
Theorem pooled_average_between_prices (lo hi : Q) (df : DataFrame) :
  Forall (fun kr => 0 <= Units (snd kr)) df ->
  0 < Qsum (col_Units df) ->
  Forall (fun kr => lo <= Unit_Price (snd kr) /\ Unit_Price (snd kr) <= hi)
         df ->
  lo <= pooled_average df /\ pooled_average df <= hi.
Proof.
  intros Hpos Hsum Hp.
  destruct (Qsum_Value_bounds lo hi df Hpos Hp) as [Hlo Hhi].
  unfold pooled_average. split.
  - apply Qle_shift_div_l; [exact Hsum|exact Hlo].
  - apply Qle_shift_div_r; [exact Hsum|exact Hhi].
Qed.

(** ** Taxes and net profit *)

(** X17.  With a tax rate between 0 and 1, every sale record of a completed
    run has taxes between zero and the gain floored at zero, a net profit
    that does not exceed the gain, and a net profit that is negative exactly
    when the gain is. *)
Theorem taxes_stay_within_the_gain (cfg : Config) (file : list Transaction)
    (out : Output) :
  0 <= TAX_RATE cfg -> TAX_RATE cfg <= 1 ->
  run cfg file = Ok out ->
  Forall (fun r =>
            0 <= Taxes r
            /\ Taxes r <= Qmax 0 (Capital_Gain r)
            /\ Net_Profit r <= Capital_Gain r
            /\ (Net_Profit r < 0 <-> Capital_Gain r < 0))
         (out_sales_taxes out).
Proof.
  intros Hr0 Hr1. unfold run.
  destruct (not_Purchase (load cfg file)) as [|first others];
    try discriminate.
  destruct (filter _ (df_purchase (load cfg file))); try discriminate.
  destruct (event_loop _ _ _ _) as [st|e] eqn:E; try discriminate.
  intro H. injection H as <-. cbn [out_sales_taxes].
  pose proof (event_loop_records cfg (load cfg file)
                (change_events (load cfg file))
                (initial_state (load cfg file)) st (Forall_nil _) E) as Hok.
  eapply Forall_impl; [|exact Hok].
  intros r [Htax [_ Hnet]].
  destruct (Qlt_le_dec 0 (Capital_Gain r)) as [Hpos|Hneg].
  - rewrite Q.max_r in * by lra. repeat split; nra.
  - rewrite Q.max_l in * by exact Hneg. repeat split; nra.
Qed.

(** ** Loading the log *)

Lemma rows_df_purchase (cfg : Config) (file : list Transaction) :
  rows (df_purchase (load cfg file))
  = map (normalize cfg)
        (filter (fun t => is_acquisition (t_Type t)) file).
Proof.
  unfold df_purchase. rewrite rows_reset_index.
  rewrite (rows_filter (fun r => TxType_eqb (Type_ r) Purchase
                                 || TxType_eqb (Type_ r) Airdrop)).
  unfold load. rewrite rows_with_range_index, filter_map_swap.
  f_equal. apply filter_ext. intro t.
  unfold normalize. destruct (t_Type t); reflexivity.
Qed.

Lemma rows_not_Purchase (cfg : Config) (file : list Transaction) :
  rows (not_Purchase (load cfg file))
  = map (normalize cfg) (filter (fun t => is_event (t_Type t)) file).
Proof.
  unfold not_Purchase.
  rewrite (rows_filter (fun r => negb (TxType_eqb (Type_ r) Purchase))).
  unfold load. rewrite rows_with_range_index, filter_map_swap.
  f_equal. apply filter_ext. intro t.
  unfold normalize. destruct (t_Type t); reflexivity.
Qed.

(** X18.  The ledger starts with exactly one lot per purchase, airdrop,
    staking reward and mining reward of the log, in the order of the log,
    with the date, asset and units of the transaction; sales and swap legs
    create none.  Airdrops and staking rewards enter at a unit price of
    zero, purchases and mining rewards at the recorded price; every lot but
    a plain purchase takes the configured currency. *)
Theorem initial_ledger_lots (cfg : Config) (file : list Transaction) :
  rows (df_balance (initial_state (load cfg file)))
  = map (fun t =>
           mkRow (t_Date t) Purchase (t_Asset t) (t_Units t)
                 (match t_Type t with
                  | Airdrop | Staking => 0
                  | _ => t_Unit_Price t
                  end)
                 (match t_Type t with
                  | Purchase => t_Currency t
                  | _ => CURRENCY cfg
                  end)
                 (t_Type t))
        (filter (fun t => is_acquisition (t_Type t)) file).
Proof.
  cbn [initial_state df_balance]. rewrite rows_df_purchase.
  apply map_ext_in. intros t Ht. apply filter_In in Ht.
  destruct Ht as [_ Ht]. unfold normalize.
  destruct (t_Type t); simpl in Ht; try discriminate; reflexivity.
Qed.

(** ** The events *)

Lemma drop_duplicates_spec (l : list (Z * TxType)) :
  forall seen,
    NoDup (drop_duplicates seen l)
    /\ forall x, In x (drop_duplicates seen l) <-> In x l /\ ~ In x seen.
Proof.
  induction l as [|y l IH]; intro seen; simpl.
  - split; [constructor|]. intro x. tauto.
  - destruct (existsb (event_eqb y) seen) eqn:Es.
    + apply seen_iff in Es. destruct (IH seen) as [Hnd Hin].
      split; [exact Hnd|]. intro x. rewrite Hin. split.
      * tauto.
      * intros [[<-|Hx] Hs]; [contradiction|tauto].
    + assert (Hy : ~ In y seen).
      { intro H. apply seen_iff in H. congruence. }
      destruct (IH (y :: seen)) as [Hnd Hin].
      split.
      * constructor; [|exact Hnd]. rewrite Hin. simpl. tauto.
      * intro x. simpl. rewrite Hin. simpl. split.
        -- intros [<-|[Hx Hs]]; tauto.
        -- intros [[<-|Hx] Hs]; [tauto|].
           destruct (event_eqb y x) eqn:Eyx.
           ++ apply event_eqb_eq in Eyx. tauto.
           ++ right. split; [exact Hx|].
              intros [->|H]; [|contradiction].
              assert (event_eqb x x = true) by now apply event_eqb_eq.
              congruence.
Qed.

(** X19.  The events the loop walks are the distinct (date, kind) pairs of
    the rows that are not purchases: no pair occurs twice, so the two legs
    of a swap make one event and two sales sharing a timestamp make one
    event; every such row is covered by an event; and in a loaded log every
    event is a sale or a swap. *)
Theorem change_events_are_the_distinct_pairs (cfg : Config)
    (file : list Transaction) :
  let txs := load cfg file in
  NoDup (change_events txs)
  /\ (forall date ty,
         In (date, ty) (change_events txs) <->
         exists kr,
           In kr txs /\ Type_ (snd kr) <> Purchase
           /\ Date (snd kr) = date /\ Type_ (snd kr) = ty)
  /\ Forall (fun change => snd change = Sell \/ snd change = Swap)
            (change_events txs).
Proof.
  intro txs. unfold change_events.
  destruct (drop_duplicates_spec
              (map (fun kr => (Date (snd kr), Type_ (snd kr)))
                   (not_Purchase txs)) []) as [Hnd Hin].
  assert (Hev : forall date ty,
             In (date, ty)
                (drop_duplicates []
                   (map (fun kr => (Date (snd kr), Type_ (snd kr)))
                        (not_Purchase txs))) <->
             exists kr,
               In kr txs /\ Type_ (snd kr) <> Purchase
               /\ Date (snd kr) = date /\ Type_ (snd kr) = ty).
  { intros date ty. rewrite Hin, in_map_iff. unfold not_Purchase. split.
    - intros [[kr [E Hkr]] _]. apply filter_In in Hkr.
      destruct Hkr as [Hkr Hty]. injection E as <- <-.
      exists kr. repeat split; auto.
      intro Hp. rewrite Hp in Hty. discriminate.
    - intros [kr [Hkr [Hty [<- <-]]]]. split; [|tauto].
      exists kr. split; [reflexivity|]. apply filter_In.
      split; [exact Hkr|].
      destruct (Type_ (snd kr)); simpl; congruence. }
  split; [exact Hnd|]. split; [exact Hev|].
  apply Forall_forall. intros [date ty] Hc. apply Hev in Hc.
  destruct Hc as [kr [Hkr [Hty [_ <-]]]]. cbn [snd].
  destruct (load_Type cfg file kr Hkr) as [H|H]; [contradiction|exact H].
Qed.

(** ** Before the loop *)

Lemma rows_nil (df : DataFrame) : rows df = [] -> df = [].
Proof. destruct df; [reflexivity|discriminate]. Qed.

Lemma filter_rows_none (p : Row -> bool) (df : DataFrame) :
  Forall (fun r => p r = false) (rows df) ->
  filter (fun kr => p (snd kr)) df = [].
Proof.
  intro H. apply rows_nil. rewrite rows_filter. now apply filter_none.
Qed.

(** X20.  The script cannot start on a log without a sale or a swap, the
    empty log included, nor on a log in which no purchase or reward is
    dated strictly before the first sale or swap row: in both cases it
    stops with an [IndexError] before the event loop is entered. *)
Theorem run_needs_an_event_after_a_purchase (cfg : Config)
    (file : list Transaction) :
  (filter (fun t => is_event (t_Type t)) file = [] ->
   run cfg file = Raise IndexError)
  /\ (forall first others,
         filter (fun t => is_event (t_Type t)) file = first :: others ->
         (forall t, In t file -> is_acquisition (t_Type t) = true ->
                    (t_Date first <= t_Date t)%Z) ->
         run cfg file = Raise IndexError).
Proof.
  split.
  - intro H. unfold run.
    assert (E : not_Purchase (load cfg file) = [])
      by (apply rows_nil; now rewrite rows_not_Purchase, H).
    now rewrite E.
  - intros first others H Hlate. unfold run.
    pose proof (rows_not_Purchase cfg file) as Hrows. rewrite H in Hrows.
    destruct (not_Purchase (load cfg file)) as [|kr krs]; [reflexivity|].
    cbn [rows map] in Hrows. injection Hrows as Hkr _.
    assert (Hd : Date (snd kr) = t_Date first).
    { rewrite Hkr. unfold normalize. destruct (t_Type first); reflexivity. }
    rewrite Hd.
    rewrite (filter_rows_none (fun r => (Date r <? t_Date first)%Z));
      [reflexivity|].
    rewrite rows_df_purchase. apply Forall_map, Forall_forall.
    intros t Ht. apply filter_In in Ht. destruct Ht as [Ht Hacq].
    specialize (Hlate t Ht Hacq). apply Z.ltb_ge.
    unfold normalize. destruct (t_Type t); simpl; exact Hlate.
Qed.

(** ** The balance history *)

Lemma evolution_loop_spec (cfg : Config) (txs : DataFrame)
    (events : list (Z * TxType)) :
  acquisitions_positive txs ->
  forall st evolution history,
    positive_balance (df_balance st) ->
    evolution_loop cfg txs st evolution events = Ok history ->
    (exists st', event_loop cfg txs st events = Ok st')
    /\ exists added,
        history = evolution ++ added
        /\ Forall (fun s => 0 < s_Units s
                            /\ In (s_Date s) (map fst events)) added.
Proof.
  intro Htx. induction events as [|change events IH];
    intros st evolution history Hst; simpl.
  - intro H. injection H as <-. split; [eauto|].
    exists []. rewrite app_nil_r. split; [reflexivity|constructor].
  - destruct (process_event cfg txs st change) as [st1|e] eqn:E;
      try discriminate.
    intro H.
    pose proof (process_event_positive cfg txs st st1 change Hst Htx E)
      as Hst1.
    destruct (IH st1 _ history Hst1 H) as [Hrun [added [Hhist Hall]]].
    split; [exact Hrun|].
    unfold take_balance_snapshot in Hhist. rewrite <- app_assoc in Hhist.
    eexists. split; [exact Hhist|].
    apply Forall_app. split.
    + apply Forall_map. unfold balance_until.
      rewrite (rows_filter (fun r => (Date r <=? fst change)%Z)).
      apply Forall_forall. intros r Hr. apply filter_In in Hr.
      destruct Hr as [Hr _]. cbn [snapshot_row s_Units s_Date]. split.
      * apply positive_balance_rows in Hst1.
        rewrite Forall_forall in Hst1. now apply Hst1.
      * now left.
    + eapply Forall_impl; [|exact Hall].
      intros s [Hu Hd]. split; [exact Hu|]. now right.
Qed.

Lemma event_loop_evolution (cfg : Config) (txs : DataFrame)
    (events : list (Z * TxType)) :
  forall st st' evolution,
    event_loop cfg txs st events = Ok st' ->
    exists history, evolution_loop cfg txs st evolution events = Ok history.
Proof.
  induction events as [|change events IH]; intros st st' evolution; simpl.
  - eauto.
  - destruct (process_event cfg txs st change) as [st1|e];
      try discriminate.
    intro H. eapply IH. exact H.
Qed.

(** X21.  The balance history is produced exactly when the run completes.
    For a log whose purchases, rewards and swap legs carry positive units
    it only ever lists lots with positive units, and every row is tagged
    either with the one date of the opening snapshot or with the date of an
    event: snapshots are appended, never rewritten. *)
Theorem balance_history_rows (cfg : Config) (file : list Transaction) :
  Forall (fun t => t_Type t <> Sell -> 0 < t_Units t) file ->
  ((exists history, balance_evolution cfg file = Ok history)
   <-> exists out, run cfg file = Ok out)
  /\ forall history,
      balance_evolution cfg file = Ok history ->
      exists opening_date,
        Forall (fun s =>
                  0 < s_Units s
                  /\ (s_Date s = opening_date
                      \/ In (s_Date s)
                            (map fst (change_events (load cfg file)))))
               history.
Proof.
  intro Hfile.
  pose proof (load_positive cfg file Hfile) as Htx.
  pose proof (df_purchase_positive _ Htx) as Hbal.
  unfold balance_evolution, run, initial_snapshot.
  destruct (not_Purchase (load cfg file)) as [|first others].
  { split; [split; intros [x H]; discriminate|]. intros h H. discriminate. }
  set (before := filter (fun kr => (Date (snd kr) <? Date (snd first))%Z)
                        (df_purchase (load cfg file))).
  assert (Hbefore : positive_balance before)
    by (apply positive_balance_filter; exact Hbal).
  destruct before as [|b0 before'] eqn:Eb.
  { cbn [rev]. split; [split; intros [x H]; discriminate|].
    intros h H. discriminate. }
  destruct (rev (b0 :: before')) as [|last others'] eqn:Er.
  { apply (f_equal (@length _)) in Er. rewrite length_rev in Er.
    discriminate. }
  split.
  - split.
    + intros [history H].
      destruct (evolution_loop_spec cfg (load cfg file)
                  (change_events (load cfg file)) Htx
                  (initial_state (load cfg file)) _ history Hbal H)
        as [[st' Hrun] _].
      unfold initial_state in *. rewrite Hrun. eauto.
    + intros [out H].
      destruct (event_loop cfg (load cfg file)
                  (initial_state (load cfg file))
                  (change_events (load cfg file))) as [st'|e] eqn:E;
        try discriminate.
      eapply event_loop_evolution. exact E.
  - intros history H.
    destruct (evolution_loop_spec cfg (load cfg file)
                  (change_events (load cfg file)) Htx
                  (initial_state (load cfg file)) _ history Hbal H)
      as [_ [added [-> Hall]]].
    exists (Date (snd last)). apply Forall_app. split.
    + apply Forall_map. apply positive_balance_rows in Hbefore.
      eapply Forall_impl; [|exact Hbefore].
      intros r Hr. cbn [snapshot_row s_Units s_Date]. auto.
    + eapply Forall_impl; [|exact Hall]. intros s [Hu Hd]. auto.
Qed.

(** * The prototype script *)

Lemma lots_Units_cons (kl : nat * Lot) (df : Lots) :
  Qsum (lots_Units (kl :: df)) = lot_Units (snd kl) + Qsum (lots_Units df).
Proof. reflexivity. Qed.

Lemma lots_Units_nil : Qsum (lots_Units []) = 0.
Proof. reflexivity. Qed.

Lemma lots_lower_bound (avg : Q) (l : Lots) :
  Forall (fun kl => avg <= lot_Units (snd kl)) l ->
  of_nat (length l) * avg <= Qsum (lots_Units l).
Proof.
  induction 1 as [|kl l Hkl Hl IH]; cbn [length].
  - rewrite of_nat_0, lots_Units_nil. lra.
  - rewrite of_nat_S, lots_Units_cons. nra.
Qed.

(** On ascending lots that can cover what is still to be sold, the loop
    never divides by zero and sells exactly what it was asked for. *)
Lemma main_loop_completes (n : nat) (iter : Lots) :
  forall (df : Lots) (k : nat) (avg tot : Q),
    StronglySorted lot_units_le iter ->
    (k + length iter = S n)%nat ->
    of_nat (length iter) * avg <= Qsum (lots_Units iter) ->
    exists df' tot',
      main_loop iter df n k avg tot = inr (df', tot')
      /\ tot' == tot + of_nat (length iter) * avg.
Proof.
  induction iter as [|[j r] rest IH]; intros df k avg tot Hs Hk Hsum.
  - exists df, tot. cbn [main_loop length]. rewrite of_nat_0.
    split; [reflexivity|lra].
  - cbn [length] in Hk, Hsum. rewrite lots_Units_cons in Hsum.
    cbn [snd] in Hsum. rewrite of_nat_S in Hsum.
    cbn [main_loop length].
    inversion Hs as [|? ? Hs' Hall]; subst.
    destruct (Qltb (lot_Units r - avg) 0) eqn:E.
    + apply Qltb_lt in E.
      destruct rest as [|x rest'].
      { cbn [length] in Hsum.
        rewrite of_nat_0, lots_Units_nil in Hsum. lra. }
      assert (Hrem : (Z.of_nat n - Z.of_nat k)%Z
                     = Z.of_nat (length (x :: rest')))
        by (cbn [length] in *; lia).
      rewrite Hrem.
      assert (Hnz : (Z.of_nat (length (x :: rest')) =? 0)%Z = false)
        by (apply Z.eqb_neq; cbn [length]; lia).
      rewrite Hnz.
      fold (of_nat (length (x :: rest'))).
      pose proof (of_nat_S_pos (length rest')) as Hm.
      change (S (length rest')) with (length (x :: rest')) in Hm.
      pose proof (cascade_step (lot_Units r) avg _ Hm E) as Hstep.
      destruct (IH (lots_sub j (lot_Units r) df) (S k)
                   (avg + Qabs (lot_Units r - avg)
                          / of_nat (length (x :: rest')))
                   (tot + lot_Units r) Hs'
                   ltac:(cbn [length] in *; lia) ltac:(lra))
        as [df' [tot' [Hrun Htot]]].
      exists df', tot'. split; [exact Hrun|].
      rewrite (of_nat_S (length (x :: rest'))). lra.
    + apply Qltb_ge in E.
      assert (Hge : Forall (fun kl => avg <= lot_Units (snd kl)) rest).
      { eapply Forall_impl; [|exact Hall].
        intros kl Hkl. unfold lot_units_le in Hkl. cbn [snd] in Hkl. lra. }
      destruct (IH (lots_sub j avg df) (S k) avg (tot + avg) Hs'
                   ltac:(lia) (lots_lower_bound avg rest Hge))
        as [df' [tot' [Hrun Htot]]].
      exists df', tot'. split; [exact Hrun|].
      rewrite (of_nat_S (length rest)). lra.
Qed.

Lemma lots_sub_labels (j : nat) (x : Q) (df : Lots) :
  map fst (lots_sub j x df) = map fst df.
Proof.
  unfold lots_sub. rewrite map_map. apply map_ext.
  intro kl. now destruct (Nat.eqb (fst kl) j).
Qed.

Lemma lots_sub_other (j k : nat) (x : Q) (r : Lot) (df : Lots) :
  k <> j -> In (k, r) df -> In (k, r) (lots_sub j x df).
Proof.
  intros Hkj Hin. unfold lots_sub. apply in_map_iff.
  exists (k, r). split; [|exact Hin]. cbn [fst].
  apply Nat.eqb_neq in Hkj. now rewrite Hkj.
Qed.

Lemma lots_sub_sum (j : nat) (x : Q) (r : Lot) (df : Lots) :
  NoDup (map fst df) -> In (j, r) df ->
  Qsum (lots_Units (lots_sub j x df)) == Qsum (lots_Units df) - x.
Proof.
  induction df as [|[k s] df IH]; intros Hnd Hin.
  - destruct Hin.
  - cbn [map fst] in Hnd. inversion Hnd as [|? ? Hnot Hnd']; subst.
    unfold lots_sub. cbn [map fst snd]. fold (lots_sub j x df).
    destruct Hin as [E|Hin].
    + injection E as -> ->. rewrite Nat.eqb_refl.
      assert (Hsame : lots_sub j x df = df).
      { unfold lots_sub. rewrite <- (map_id df) at 2. apply map_ext_in.
        intros [k s] Hks. cbn [fst].
        destruct (Nat.eqb k j) eqn:Ekj; [|reflexivity].
        apply Nat.eqb_eq in Ekj. subst. exfalso. apply Hnot.
        apply in_map_iff. now exists (j, s). }
      rewrite Hsame, !lots_Units_cons. cbn [snd lot_Units]. lra.
    + destruct (Nat.eqb k j) eqn:Ekj.
      * apply Nat.eqb_eq in Ekj. subst. exfalso. apply Hnot.
        apply in_map_iff. now exists (j, r).
      * rewrite !lots_Units_cons, (IH Hnd' Hin). cbn [snd]. lra.
Qed.

Lemma lots_sub_nonneg (j : nat) (x : Q) (r : Lot) (df : Lots) :
  NoDup (map fst df) -> In (j, r) df -> x <= lot_Units r ->
  Forall (fun kl => 0 <= lot_Units (snd kl)) df ->
  Forall (fun kl => 0 <= lot_Units (snd kl)) (lots_sub j x df).
Proof.
  intros Hnd Hin Hx Hpos. unfold lots_sub. apply Forall_map.
  apply Forall_forall. intros [k s] Hks. cbn [fst snd].
  rewrite Forall_forall in Hpos.
  destruct (Nat.eqb k j) eqn:Ekj; [|now apply (Hpos (k, s))].
  apply Nat.eqb_eq in Ekj. subst. cbn [snd lot_Units].
  assert (s = r).
  { clear - Hnd Hin Hks. induction df as [|[k t] df IH]; [destruct Hin|].
    cbn [map fst] in Hnd. inversion Hnd as [|? ? Hnot Hnd']; subst.
    destruct Hin as [E|Hin], Hks as [E'|Hks].
    - congruence.
    - injection E as -> ->. exfalso. apply Hnot.
      apply in_map_iff. now exists (j, s).
    - injection E' as -> ->. exfalso. apply Hnot.
      apply in_map_iff. now exists (j, r).
    - now apply IH. }
  subst. lra.
Qed.

(** What the loop writes into the balance is what it counts as sold. *)
Lemma main_loop_units (n : nat) (iter : Lots) :
  forall (df df' : Lots) (k : nat) (avg tot tot' : Q),
    NoDup (map fst df) ->
    NoDup (map fst iter) ->
    (forall kl, In kl iter -> In kl df) ->
    Forall (fun kl => 0 <= lot_Units (snd kl)) df ->
    main_loop iter df n k avg tot = inr (df', tot') ->
    Qsum (lots_Units df') == Qsum (lots_Units df) - (tot' - tot)
    /\ Forall (fun kl => 0 <= lot_Units (snd kl)) df'.
Proof.
  induction iter as [|[j r] rest IH];
    intros df df' k avg tot tot' Hnd Hni Hsub Hpos H.
  - cbn [main_loop] in H. injection H as <- <-. split; [lra|exact Hpos].
  - cbn [main_loop] in H. cbn [map fst] in Hni.
    inversion Hni as [|? ? Hnot Hni']; subst.
    assert (Hin : In (j, r) df) by (apply Hsub; now left).
    assert (Hrest : forall x, forall kl,
               In kl rest -> In kl (lots_sub j x df)).
    { intros x [k' r'] Hkl. apply lots_sub_other; [|apply Hsub; now right].
      intros ->. apply Hnot. apply in_map_iff. now exists (j, r'). }
    destruct (Qltb (lot_Units r - avg) 0) eqn:E.
    + destruct ((Z.of_nat n - Z.of_nat k =? 0)%Z); [discriminate|].
      destruct (IH _ _ _ _ _ _
                  ltac:(rewrite lots_sub_labels; exact Hnd) Hni'
                  (Hrest (lot_Units r))
                  (lots_sub_nonneg j (lot_Units r) r df Hnd Hin
                     ltac:(lra) Hpos) H) as [Hsum Hpos'].
      split; [|exact Hpos'].
      rewrite Hsum, (lots_sub_sum j _ r df Hnd Hin). lra.
    + apply Qltb_ge in E.
      destruct (IH _ _ _ _ _ _
                  ltac:(rewrite lots_sub_labels; exact Hnd) Hni'
                  (Hrest avg)
                  (lots_sub_nonneg j avg r df Hnd Hin ltac:(lra) Hpos) H)
        as [Hsum Hpos'].
      split; [|exact Hpos'].
      rewrite Hsum, (lots_sub_sum j _ r df Hnd Hin). lra.
Qed.

Lemma balance_temp_sorted (df : Lots) (date : Z) :
  StronglySorted lot_units_le (balance_temp df date).
Proof.
  unfold balance_temp. cbn [sort_values].
  eapply StronglySorted_impl; [|apply sort_by_sorted].
  - intros a b H. unfold lot_units_le. now apply Qle_bool_iff.
  - intros x y H. unfold lots_by_Units in *.
    apply Qle_bool_gt in H. apply Qle_bool_iff. lra.
  - intros x y z H1 H2. unfold lots_by_Units in *.
    apply Qle_bool_iff in H1, H2. apply Qle_bool_iff. lra.
Qed.

Lemma balance_temp_perm (df : Lots) (date : Z) :
  Permutation (balance_temp df date)
              (filter (fun kl => (lot_Date (snd kl) <=? date)%Z) df).
Proof. apply sort_values_perm. Qed.

Lemma main_loop_on_balance_temp (df : Lots) (date : Z) (units : Q) :
  balance_temp df date <> [] ->
  units <= Qsum (lots_Units (balance_temp df date)) ->
  exists df' tot',
    main_loop (balance_temp df date) df (length (balance_temp df date)) 1
              (units / of_nat (length (balance_temp df date))) 0
    = inr (df', tot')
    /\ tot' == units.
Proof.
  intros Hne Hsum.
  assert (Hm : 0 < of_nat (length (balance_temp df date))).
  { destruct (balance_temp df date); [contradiction|].
    apply of_nat_S_pos. }
  assert (E : of_nat (length (balance_temp df date))
              * (units / of_nat (length (balance_temp df date))) == units)
    by (field; lra).
  destruct (main_loop_completes (length (balance_temp df date))
              (balance_temp df date) df 1
              (units / of_nat (length (balance_temp df date))) 0
              (balance_temp_sorted df date) eq_refl ltac:(lra))
    as [df' [tot' [Hrun Htot]]].
  exists df', tot'. split; [exact Hrun|lra].
Qed.

(** X22.  How one sale of the prototype ends.  It raises "Too many units to
    be sold!" exactly when the sale asks for more than the selected
    purchases hold, and a [ZeroDivisionError] exactly when it passes that
    check with no purchase selected.  In every other case it completes: the
    division by the number of remaining orders is never reached with zero
    orders left, and the closing "Sold units != target" check never
    fails. *)
Theorem main_sale_outcome (last_sale_date : Z) (df : Lots)
    (infos : list SaleInfo) (row_s : Sale) :
  let selected := balance_temp df last_sale_date in
  let outcome := main_sale last_sale_date (df, infos) row_s in
  (outcome = inl TooManyUnitsToBeSold <->
   Qsum (lots_Units selected) < sale_Units row_s)
  /\ (outcome = inl ZeroDivisionError <->
      sale_Units row_s <= Qsum (lots_Units selected) /\ selected = [])
  /\ ((exists state, outcome = inr state) <->
      sale_Units row_s <= Qsum (lots_Units selected) /\ selected <> [])
  /\ outcome <> inl SoldUnitsMismatch.
Proof.
  intros selected outcome.
  assert (Hout : outcome = main_sale last_sale_date (df, infos) row_s)
    by reflexivity.
  unfold main_sale in Hout. fold selected in Hout.
  destruct (Qle_bool (sale_Units row_s) (Qsum (lots_Units selected)))
    eqn:Hle.
  - apply Qle_bool_iff in Hle.
    destruct (Nat.eqb (length selected) 0) eqn:Hn.
    + apply Nat.eqb_eq, length_zero_iff_nil in Hn.
      rewrite Hout. settle_outcome.
    + assert (Hne : selected <> []).
      { intro H. rewrite H in Hn. discriminate. }
      destruct (main_loop_on_balance_temp df last_sale_date
                  (sale_Units row_s) Hne Hle) as [df' [tot' [Hrun Htot]]].
      fold selected in Hrun. rewrite Hrun in Hout.
      rewrite (round_half_even_comp tot' (sale_Units row_s) Htot),
        Z.eqb_refl in Hout.
      rewrite Hout. settle_outcome.
  - apply Qle_bool_gt in Hle. rewrite Hout. settle_outcome.
Qed.

Lemma lots_positive_sum (df : Lots) :
  Forall (fun kl => 0 <= lot_Units (snd kl)) df ->
  Qsum (lots_Units (filter (fun kl => Qltb 0 (lot_Units (snd kl))) df))
  == Qsum (lots_Units df).
Proof.
  induction 1 as [|kl df Hkl Hdf IH].
  - reflexivity.
  - cbn [filter]. destruct (Qltb 0 (lot_Units (snd kl))) eqn:E.
    + rewrite !lots_Units_cons, IH. reflexivity.
    + apply Qltb_ge in E. rewrite lots_Units_cons, IH. lra.
Qed.

Lemma lots_combine_seq (l : list Lot) (start : nat) :
  map snd (combine (seq start (length l)) l) = l
  /\ map fst (combine (seq start (length l)) l) = seq start (length l).
Proof.
  revert start. induction l as [|r l IH]; intro start; simpl.
  - split; reflexivity.
  - destruct (IH (S start)) as [H1 H2]. now rewrite H1, H2.
Qed.

(** X23.  When a sale of the prototype completes on a ledger with distinct
    labels and no negative lot, exactly the sold units have left the
    ledger, every lot left holds positive units, the ledger is renumbered
    0, 1, 2, ..., and one entry was added to the sale infos. *)
Theorem main_sale_removes_requested_units (last_sale_date : Z) (df df' : Lots)
    (infos infos' : list SaleInfo) (row_s : Sale) :
  NoDup (map fst df) ->
  Forall (fun kl => 0 <= lot_Units (snd kl)) df ->
  main_sale last_sale_date (df, infos) row_s = inr (df', infos') ->
  Qsum (lots_Units df') == Qsum (lots_Units df) - sale_Units row_s
  /\ Forall (fun kl => 0 < lot_Units (snd kl)) df'
  /\ map fst df' = seq 0 (length df')
  /\ exists info, infos' = infos ++ [info].
Proof.
  intros Hnd Hpos H. unfold main_sale in H.
  set (selected := balance_temp df last_sale_date) in *.
  destruct (Qle_bool (sale_Units row_s) (Qsum (lots_Units selected)))
    eqn:Hle; try discriminate.
  apply Qle_bool_iff in Hle.
  destruct (Nat.eqb (length selected) 0) eqn:Hn; try discriminate.
  assert (Hne : selected <> []).
  { intro E. rewrite E in Hn. discriminate. }
  destruct (main_loop_on_balance_temp df last_sale_date
              (sale_Units row_s) Hne Hle) as [out [tot [Hrun Htot]]].
  fold selected in Hrun. rewrite Hrun in H.
  rewrite (round_half_even_comp tot (sale_Units row_s) Htot),
    Z.eqb_refl in H.
  injection H as <- <-.
  assert (Hperm : Permutation selected
                    (filter (fun kl => (lot_Date (snd kl) <=? last_sale_date)%Z)
                            df)) by apply balance_temp_perm.
  assert (Hsub : forall kl, In kl selected -> In kl df).
  { intros kl Hkl. apply (Permutation_in _ Hperm) in Hkl.
    now apply filter_In in Hkl. }
  assert (Hni : NoDup (map fst selected)).
  { eapply Permutation_NoDup;
      [apply Permutation_map, Permutation_sym, Hperm|].
    clear - Hnd. induction df as [|kl df IH]; simpl; [constructor|].
    inversion Hnd as [|? ? Hnot Hnd']; subst.
    destruct (lot_Date (snd kl) <=? last_sale_date)%Z; simpl;
      [|now apply IH].
    constructor; [|now apply IH].
    intro Hin. apply Hnot. apply in_map_iff in Hin.
    destruct Hin as [x [Ex Hx]]. apply filter_In in Hx.
    apply in_map_iff. exists x. tauto. }
  destruct (main_loop_units _ _ _ _ _ _ _ _ Hnd Hni Hsub Hpos Hrun)
    as [Hsum Hpos'].
  set (kept := filter (fun kl => Qltb 0 (lot_Units (snd kl))) out) in *.
  destruct (lots_combine_seq (map snd kept) 0) as [Hrows Hlabels].
  rewrite length_map in Hrows, Hlabels.
  split; [|split; [|split]].
  - unfold lots_Units.
    rewrite <- (map_map snd (fun l => lot_Units l)), Hrows, map_map.
    fold (lots_Units kept). unfold kept.
    rewrite lots_positive_sum by exact Hpos'. rewrite Hsum.
    fold (lots_Units df). lra.
  - apply (proj1 (Forall_map snd (fun l => 0 < lot_Units l) _)).
    rewrite Hrows. apply Forall_map. apply Forall_forall.
    intros kl Hkl. apply filter_In in Hkl. now apply Qltb_lt.
  - rewrite Hlabels. f_equal.
    rewrite length_combine, length_seq, length_map. lia.
  - eexists. reflexivity.
Qed.

Lemma main_sale_check_passes (last_sale_date : Z) (df : Lots)
    (infos : list SaleInfo) (row_s : Sale) :
  main_sale last_sale_date (df, infos) row_s <> inl SoldUnitsMismatch.
Proof.
  unfold main_sale.
  set (selected := balance_temp df last_sale_date).
  destruct (Qle_bool (sale_Units row_s) (Qsum (lots_Units selected)))
    eqn:Hle; [|discriminate].
  apply Qle_bool_iff in Hle.
  destruct (Nat.eqb (length selected) 0) eqn:Hn; [discriminate|].
  assert (Hne : selected <> []).
  { intro H. rewrite H in Hn. discriminate. }
  destruct (main_loop_on_balance_temp df last_sale_date
              (sale_Units row_s) Hne Hle) as [df' [tot' [Hrun Htot]]].
  fold selected in Hrun. rewrite Hrun.
  rewrite (round_half_even_comp tot' (sale_Units row_s) Htot), Z.eqb_refl.
  discriminate.
Qed.

(** X24.  In exact arithmetic the prototype never stops on its own
    reconciliation check: whatever the purchases and the sales, the script
    does not end with "Sold units != target". *)
Theorem main_never_fails_its_check (df_purchase : list Lot)
    (df_sales : list Sale) :
  main df_purchase df_sales <> inl SoldUnitsMismatch.
Proof.
  unfold main. destruct (rev df_sales) as [|last others]; [discriminate|].
  generalize (combine (seq 0 (length df_purchase)) df_purchase,
              @nil SaleInfo).
  induction df_sales as [|row_s df_sales IH]; intros [df infos];
    cbn [main_sales].
  - discriminate.
  - destruct (main_sale (sale_Date last) (df, infos) row_s) as [e|state]
      eqn:E.
    + intro H. injection H as ->.
      exact (main_sale_check_passes (sale_Date last) df infos row_s E).
    + apply IH.
Qed.

(** ** The further properties at sample inputs *)


Lemma sale_in_a_run_removes_requested_units_witness :
  let txs := load default_config pooled_log in
  let st := initial_state txs in
  exists st',
    process_event default_config txs st (3%Z, Sell) = Ok st'
    /\ Qsum (col_Units (balance_asset (df_balance st') "BTC" 3))
       == Qsum (col_Units (balance_asset (df_balance st) "BTC" 3)) - 6.
Proof.
  intros txs st. eexists.
  assert (H : process_event default_config txs st (3%Z, Sell) = Ok _)
    by (vm_compute; reflexivity).
  split; [exact H|].
  apply (sale_in_a_run_removes_requested_units default_config pooled_log []
           st _ 3 (2%nat, mkRow 3 Sell "BTC" 6 3 "EUR" Sell) []).
  - repeat constructor; intros _; reflexivity.
  - reflexivity.
  - reflexivity.
  - simpl. lra.
  - exact H.
Defined.

Lemma update_balance_ascending_exact_witness :
  snd (update_balance ascending_lots ascending_lots 6 "BTC") == 6
  /\ Qsum (col_Units
             (fst (update_balance ascending_lots ascending_lots 6 "BTC")))
     == Qsum (col_Units ascending_lots) - 6
  /\ positive_balance
       (fst (update_balance ascending_lots ascending_lots 6 "BTC")).
Proof.
  apply (update_balance_ascending_exact ascending_lots 6 "BTC").
  - distinct_labels.
  - each_row ltac:(reflexivity).
  - repeat constructor; unfold units_le; simpl; lra.
  - lra.
  - vm_compute. discriminate.
Defined.

Lemma update_balance_removes_at_most_witness :
  0 <= snd (update_balance descending_lots descending_lots 4 "BTC")
  /\ snd (update_balance descending_lots descending_lots 4 "BTC") <= 4
  /\ Qsum (col_Units
             (fst (update_balance descending_lots descending_lots 4 "BTC")))
     == Qsum (col_Units descending_lots)
        - snd (update_balance descending_lots descending_lots 4 "BTC").
Proof.
  apply (update_balance_removes_at_most descending_lots 4 "BTC").
  - distinct_labels.
  - each_row ltac:(reflexivity).
  - each_row ltac:(simpl; lra).
  - lra.
Defined.

Lemma tax_calculator_XYFO_sells_min_witness :
  snd (tax_calculator_XYFO FIFO_config 12 5 ascending_lots ascending_lots)
  == Qmin 12 (Qsum (col_Units ascending_lots)).
Proof.
  apply (tax_calculator_XYFO_sells_min FIFO_config ascending_lots
           ascending_lots 12 5).
  - each_row ltac:(simpl; lra).
  - lra.
Defined.

Lemma tax_calculator_XYFO_gain_is_proceeds_minus_cost_witness :
  let '(capital_gain, _, updated, tot_units_sold) :=
    tax_calculator_XYFO FIFO_config 3 5 ascending_lots ascending_lots in
  capital_gain
  == tot_units_sold * 5
     - (Qsum (col_Value ascending_lots)
        - Qsum (col_Value (reset_index (positive_Units updated)))).
Proof.
  apply (tax_calculator_XYFO_gain_is_proceeds_minus_cost FIFO_config
           ascending_lots 3 5).
  - distinct_labels.
  - each_row ltac:(simpl; lra).
Defined.

Lemma XYFO_consumes_in_method_order_witness :
  let ordered := XYFO_order "HIFO" ascending_lots in
  let '(_, _, updated, _) :=
    tax_calculator_XYFO HIFO_config 3 5 ordered ordered in
  exists consumed rest,
    ordered = consumed ++ rest
    /\ (forall a b, In a consumed -> In b rest -> consumed_first "HIFO" a b)
    /\ Qsum (col_Units consumed) <= 3
    /\ match rest with
       | [] => updated = map zeroed consumed
       | (j, r) :: rest' =>
           exists remaining,
             remaining == 3 - Qsum (col_Units consumed)
             /\ remaining < Units r
             /\ updated
                = map zeroed consumed
                  ++ (j, set_Units r (Units r - remaining)) :: rest'
       end.
Proof.
  apply (XYFO_consumes_in_method_order HIFO_config "HIFO" ascending_lots 3 5).
  - distinct_labels.
  - lra.
Defined.

Lemma update_balance_takes_a_common_level_witness :
  exists level kept,
    6 / of_nat (length ascending_lots) <= level
    /\ Forall2 (levelled level) ascending_lots kept
    /\ Qsum (map (fun kr => Qmin (Units (snd kr)) level) ascending_lots) == 6
    /\ fst (update_balance ascending_lots ascending_lots 6 "BTC")
       = reset_index (positive_Units kept).
Proof.
  apply (update_balance_takes_a_common_level ascending_lots 6 "BTC").
  - distinct_labels.
  - each_row ltac:(reflexivity).
  - repeat constructor; unfold units_le; simpl; lra.
  - lra.
  - vm_compute. discriminate.
Defined.

Lemma sale_outcome_witness :
  let txs := load FIFO_config FIFO_first_sale_log in
  process_event FIFO_config txs (initial_state txs) (4%Z, Sell)
  = Raise NameError.
Proof.
  intro txs.
  apply (proj2 (proj1 (proj2 (proj2
           (sale_outcome FIFO_config txs (initial_state txs) 4
              (2%nat, mkRow 4 Sell "BTC" 15 3 "EUR" Sell) [] eq_refl))))).
  split; [|split].
  - vm_compute. discriminate.
  - reflexivity.
  - reflexivity.
Defined.

Lemma XYFO_run_starts_with_a_swap_witness :
  exists out date events,
    run FIFO_config FIFO_log = Ok out
    /\ change_events (load FIFO_config FIFO_log) = (date, Swap) :: events.
Proof.
  eexists.
  assert (H : run FIFO_config FIFO_log = Ok _) by (vm_compute; reflexivity).
  destruct (XYFO_run_starts_with_a_swap FIFO_config FIFO_log _ eq_refl H)
    as [date [events E]].
  exists date, events. split; [exact H|exact E].
Defined.

Lemma XYFO_sales_report_the_stale_average_witness :
  let txs := load FIFO_config FIFO_log in
  exists st st',
    process_event FIFO_config txs (initial_state txs) (3%Z, Swap) = Ok st
    /\ event_loop FIFO_config txs st [(4%Z, Sell)] = Ok st'
    /\ average_purchase_price st' = average_purchase_price st.
Proof.
  intro txs. eexists. eexists.
  assert (H1 : process_event FIFO_config txs (initial_state txs) (3%Z, Swap)
               = Ok _) by (vm_compute; reflexivity).
  split; [exact H1|].
  match goal with
  | |- event_loop ?c ?t ?s ?e = _ /\ _ =>
      assert (H2 : event_loop c t s e = Ok _) by (vm_compute; reflexivity)
  end.
  split; [exact H2|].
  apply (XYFO_sales_report_the_stale_average FIFO_config txs [(4%Z, Sell)]
           eq_refl ltac:(each_row ltac:(reflexivity)) _ _ H2).
Defined.

Lemma one_record_per_sale_event_witness :
  exists out,
    run default_config mining_log = Ok out
    /\ length (out_sales_taxes out)
       = length (df_sales (load default_config mining_log)).
Proof.
  eexists.
  assert (H : run default_config mining_log = Ok _)
    by (vm_compute; reflexivity).
  split; [exact H|].
  apply (proj2 (proj2 (one_record_per_sale_event default_config mining_log
                         _ H))).
  distinct_labels.
Defined.

Lemma ledger_sorted_and_renumbered_witness :
  let txs := load default_config pooled_log in
  exists st',
    process_event default_config txs (initial_state txs) (3%Z, Sell) = Ok st'
    /\ StronglySorted (fun a b => (Date a <= Date b)%Z)
                      (rows (df_balance st'))
    /\ map fst (df_balance st') = seq 0 (length (df_balance st')).
Proof.
  intro txs. eexists.
  assert (H : process_event default_config txs (initial_state txs)
                (3%Z, Sell) = Ok _) by (vm_compute; reflexivity).
  split; [exact H|].
  apply (ledger_sorted_and_renumbered default_config txs (initial_state txs)
           _ 3 Sell (or_introl eq_refl) H).
Defined.

Lemma disposal_keeps_lots_off_the_event_date_witness :
  let txs := load FIFO_config FIFO_log in
  exists st',
    process_event FIFO_config txs (initial_state txs) (3%Z, Swap) = Ok st'
    /\ In (mkRow 1 Purchase "BTC" 10 1 "EUR" Purchase)
          (rows (df_balance st')).
Proof.
  intro txs. eexists.
  assert (H : process_event FIFO_config txs (initial_state txs)
                (3%Z, Swap) = Ok _) by (vm_compute; reflexivity).
  split; [exact H|].
  apply (disposal_keeps_lots_off_the_event_date FIFO_config txs
           (initial_state txs) _ 3 Swap
           (3%nat, mkRow 3 Swap "ETH" 1 0 "EUR" Swap)
           [(4%nat, mkRow 3 Swap "ADA" 10 0 "EUR" Swap)]
           (0%nat, mkRow 1 Purchase "BTC" 10 1 "EUR" Purchase)
           (or_intror eq_refl)).
  - reflexivity.
  - exact H.
  - vm_compute. left. reflexivity.
  - left. split; [discriminate|reflexivity].
Defined.

Lemma only_the_swap_lot_is_dated_at_the_event_witness :
  let txs := load FIFO_config even_swap_log in
  let st := initial_state txs in
  exists st' r,
    process_event FIFO_config txs st (3%Z, Swap) = Ok st'
    /\ In r (rows (df_balance st'))
    /\ Date r = 3%Z
    /\ exists asset_out asset_in rest,
        select_event Swap 3 txs = asset_out :: asset_in :: rest
        /\ r = snd (swap_in_row asset_in
                      (pooled_average
                         (balance_asset (df_balance st)
                                        (Asset (snd asset_out)) 3)
                       * Units (snd asset_out) / Units (snd asset_in))).
Proof.
  intros txs st. eexists. eexists.
  assert (H : process_event FIFO_config txs st (3%Z, Swap) = Ok _)
    by (vm_compute; reflexivity).
  split; [exact H|].
  match goal with
  | |- In _ (rows (df_balance ?s)) /\ _ =>
      assert (Hin : In (nth 2 (rows (df_balance s)) (sample_lot 0 0 0))
                       (rows (df_balance s)))
        by (vm_compute; right; right; left; reflexivity)
  end.
  split; [exact Hin|]. split; [reflexivity|].
  exact (proj2 (only_the_swap_lot_is_dated_at_the_event FIFO_config txs st _
                  3 Swap _ (or_intror eq_refl) H Hin eq_refl)).
Defined.

Lemma swap_carries_the_average_cost_witness :
  let txs := load FIFO_config even_swap_log in
  let st := initial_state txs in
  exists st' lot,
    process_event FIFO_config txs st (3%Z, Swap) = Ok st'
    /\ In lot (rows (df_balance st'))
    /\ Asset lot = "ETH"%string
    /\ Units lot * Unit_Price lot
       == 10 * pooled_average (balance_asset (df_balance st) "BTC" 3).
Proof.
  intros txs st. eexists.
  assert (H : process_event FIFO_config txs st (3%Z, Swap) = Ok _)
    by (vm_compute; reflexivity).
  destruct (swap_carries_the_average_cost FIFO_config txs st _ 3
              (2%nat, mkRow 3 Swap "BTC" 10 0 "EUR" Swap)
              (3%nat, mkRow 3 Swap "ETH" 5 0 "EUR" Swap) []
              eq_refl ltac:(vm_compute; discriminate) H)
    as [lot [Hin [Ha [_ [_ [_ [Hv _]]]]]]].
  exists lot. split; [exact H|]. split; [exact Hin|].
  split; [exact Ha|exact Hv].
Defined.

Lemma pooled_average_between_prices_witness :
  1 <= pooled_average ascending_lots /\ pooled_average ascending_lots <= 3.
Proof.
  apply (pooled_average_between_prices 1 3 ascending_lots).
  - each_row ltac:(simpl; lra).
  - vm_compute. reflexivity.
  - each_row ltac:(simpl; lra).
Defined.

Lemma taxes_stay_within_the_gain_witness :
  exists out,
    run default_config pooled_log = Ok out
    /\ Forall (fun r =>
                 0 <= Taxes r
                 /\ Taxes r <= Qmax 0 (Capital_Gain r)
                 /\ Net_Profit r <= Capital_Gain r
                 /\ (Net_Profit r < 0 <-> Capital_Gain r < 0))
              (out_sales_taxes out).
Proof.
  eexists.
  assert (H : run default_config pooled_log = Ok _)
    by (vm_compute; reflexivity).
  split; [exact H|].
  apply (taxes_stay_within_the_gain default_config pooled_log _
           ltac:(vm_compute; discriminate) ltac:(vm_compute; discriminate) H).
Defined.

Lemma balance_history_rows_witness :
  exists history opening_date,
    balance_evolution default_config pooled_log = Ok history
    /\ Forall (fun s =>
                 0 < s_Units s
                 /\ (s_Date s = opening_date
                     \/ In (s_Date s)
                           (map fst (change_events
                                       (load default_config pooled_log)))))
              history.
Proof.
  eexists.
  assert (H : balance_evolution default_config pooled_log = Ok _)
    by (vm_compute; reflexivity).
  destruct (proj2 (balance_history_rows default_config pooled_log
                     ltac:(repeat constructor; intros _; reflexivity)) _ H)
    as [opening_date Hrows].
  exists opening_date. split; [exact H|exact Hrows].
Defined.

Lemma main_sale_removes_requested_units_witness :
  exists df' infos',
    main_sale 4 (sample_purchases, []) sample_sale = inr (df', infos')
    /\ Qsum (lots_Units df') == Qsum (lots_Units sample_purchases) - 6
    /\ Forall (fun kl => 0 < lot_Units (snd kl)) df'.
Proof.
  eexists. eexists.
  assert (H : main_sale 4 (sample_purchases, []) sample_sale = inr (_, _))
    by (vm_compute; reflexivity).
  split; [exact H|].
  destruct (main_sale_removes_requested_units 4 sample_purchases _ [] _
              sample_sale ltac:(distinct_labels)
              ltac:(each_row ltac:(simpl; lra)) H)
    as [Hsum [Hpos _]].
  split; [exact Hsum|exact Hpos].
Defined.
